(** * Campaign membership workflow of the Hunter x Nen RPG backend

    A shallow embedding of the handlers of [server.py] (the campaign
    workflow: [create_campaign], [join_campaign], [leave_campaign],
    [delete_campaign], [update_character], [update_campaign_character],
    [get_player_stats]; and the handlers of characters, threats and rolls
    around it) over a functional model of the document store they talk to
    and of the driver that encodes what they send, followed by the
    properties of the membership workflow and of the rest of the API. *)

From Stdlib Require Import String Ascii List ZArith Bool Arith Lia.
From Stdlib Require Import DecimalString.
From Stdlib Require QArith.
Import ListNotations.
Open Scope string_scope.
Open Scope list_scope.

Set Implicit Arguments.
Set Warnings "-register-all".

(** ** Values

    Everything the handlers move around is a JSON value: request bodies are
    parsed into Python [dict]s, pydantic models are dumped to [dict]s, and
    the store holds BSON documents.  A [dict] keeps its insertion order, so a
    document is an association list.  A string is held as the bytes of its
    UTF-8 encoding: it is well-formed text, which the driver can always
    encode. *)

Inductive json : Type :=
| JNull
| JBool (b : bool)
| JInt (n : Z)
| JFloat (q : QArith_base.Q)
| JStr (s : string)
| JArr (items : list json)
| JObj (fields : list (string * json)).

Definition doc := list (string * json).

(** [d.get(k)]: the value stored under [k], if any. *)
Fixpoint get (k : string) (d : doc) : option json :=
  match d with
  | [] => None
  | (k', v) :: rest => if String.eqb k k' then Some v else get k rest
  end.

(** [d.get(k, default)]. *)
Definition get_default (k : string) (default : json) (d : doc) : json :=
  match get k d with
  | Some v => v
  | None => default
  end.

(** [d[k] = v]: an existing key keeps its place, a new key goes last. *)
Fixpoint dict_set (k : string) (v : json) (d : doc) : doc :=
  match d with
  | [] => [(k, v)]
  | (k', v') :: rest =>
      if String.eqb k k' then (k, v) :: rest else (k', v') :: dict_set k v rest
  end.

(** [x == s] for a string [s]: only that very string is equal to it. *)
Definition is_str (s : string) (x : json) : bool :=
  match x with
  | JStr s' => String.eqb s s'
  | _ => false
  end.

(** ** The document store

    The operations of the MongoDB driver that the handlers call, on a
    collection held as the list of its documents in insertion order.  Every
    read in [server.py] projects the store-assigned [_id] away
    ([{"_id": 0}]), so a stored document is represented by its other
    fields. *)

Module Mongo.

(** A query document.  Every filter in [server.py] is a conjunction of
    [field: string] equalities on top-level fields. *)
Definition query := list (string * string).

(** [{field: s}] selects a document whose field is [s], or is an array
    with [s] among its elements. *)
Definition eq_match (s : string) (v : json) : bool :=
  match v with
  | JStr s' => String.eqb s s'
  | JArr items => existsb (is_str s) items
  | _ => false
  end.

Definition matches (q : query) (d : doc) : bool :=
  forallb (fun c => match get (fst c) d with
                    | Some v => eq_match (snd c) v
                    | None => false
                    end) q.

Definition find_one (q : query) (coll : list doc) : option doc :=
  List.find (matches q) coll.

Definition find (q : query) (coll : list doc) : list doc :=
  List.filter (matches q) coll.

Definition count_documents (q : query) (coll : list doc) : nat :=
  List.length (find q coll).

Definition insert_one (d : doc) (coll : list doc) : list doc :=
  coll ++ [d].

(** [delete_one]: the first match goes; the count is [deleted_count]. *)
Fixpoint delete_one (q : query) (coll : list doc) : list doc * nat :=
  match coll with
  | [] => ([], 0%nat)
  | d :: rest =>
      if matches q d then (rest, 1%nat)
      else let (rest', n) := delete_one q rest in (d :: rest', n)
  end.

Definition delete_many (q : query) (coll : list doc) : list doc :=
  List.filter (fun d => negb (matches q d)) coll.

(** *** Field paths *)

(** [split_dots "a.b.c" = ["a"; "b"; "c"]]. *)
Fixpoint split_dots_aux (acc : string) (s : string) : list string :=
  match s with
  | EmptyString => [acc]
  | String c rest =>
      if Ascii.eqb c "."%char then acc :: split_dots_aux EmptyString rest
      else split_dots_aux (acc ++ String c EmptyString)%string rest
  end.

Definition split_dots (s : string) : list string :=
  split_dots_aux EmptyString s.

Definition digit_of (c : ascii) : option nat :=
  let n := nat_of_ascii c in
  if andb (Nat.leb 48 n) (Nat.leb n 57) then Some (n - 48)%nat else None.

Fixpoint digits_value (acc : nat) (s : string) : option nat :=
  match s with
  | EmptyString => Some acc
  | String c rest =>
      match digit_of c with
      | Some d => digits_value (10 * acc + d)%nat rest
      | None => None
      end
  end.

(** A path component addresses an array element when it is a decimal
    numeral without a leading zero. *)
Definition index_of_field (s : string) : option nat :=
  match s with
  | EmptyString => None
  | String "0"%char EmptyString => Some 0%nat
  | String "0"%char _ => None
  | _ => digits_value 0 s
  end.

Fixpoint list_set_pad (i : nat) (v : json) (l : list json) : list json :=
  match i, l with
  | O, [] => [v]
  | O, _ :: rest => v :: rest
  | S i', [] => JNull :: list_set_pad i' v []
  | S i', x :: rest => x :: list_set_pad i' v rest
  end.

(** [$set] of one path inside a value: embedded documents are entered by
    field name and created when absent, arrays are entered by index and
    padded with nulls, and a scalar on the way is a write error. *)
Fixpoint set_path (p : list string) (v : json) (target : json) {struct p}
  : option json :=
  match p with
  | [] => Some v
  | k :: rest =>
      match target with
      | JObj d =>
          match set_path rest v (get_default k (JObj []) d) with
          | Some child => Some (JObj (dict_set k child d))
          | None => None
          end
      | JArr items =>
          match index_of_field k with
          | Some i =>
              match set_path rest v (nth i items (JObj [])) with
              | Some child => Some (JArr (list_set_pad i child items))
              | None => None
              end
          | None => None
          end
      | _ => None
      end
  end.

Fixpoint is_prefix (p q : list string) : bool :=
  match p, q with
  | [], _ => true
  | _ :: _, [] => false
  | a :: p', b :: q' => andb (String.eqb a b) (is_prefix p' q')
  end.

Definition dollar_prefixed (s : string) : bool :=
  match s with
  | String "$"%char _ => true
  | _ => false
  end.

(** A path the server accepts in an update: no empty component, no
    operator component, and not the immutable [_id]. *)
Definition path_ok (p : list string) : bool :=
  andb (forallb (fun s => negb (orb (String.eqb s EmptyString) (dollar_prefixed s))) p)
       (match p with
        | k :: _ => negb (String.eqb k "_id")
        | [] => false
        end).

(** *** Update operators *)

Inductive update_op : Type :=
| Set_ (path : string) (v : json)          (* "$set":  {path: v}        *)
| Push (field : string) (v : json)         (* "$push": {field: v}       *)
| Pull (field : string) (s : string)       (* "$pull": {field: s}       *)
| PullWhere (field : string) (q : query).  (* "$pull": {field: {k: s}}  *)

Definition op_path (o : update_op) : list string :=
  match o with
  | Set_ p _ => split_dots p
  | Push f _ => split_dots f
  | Pull f _ => split_dots f
  | PullWhere f _ => split_dots f
  end.

(** Two operators of one update may not address a path and its prefix. *)
Fixpoint conflict_free (ps : list (list string)) : bool :=
  match ps with
  | [] => true
  | p :: rest =>
      andb (forallb (fun q => negb (orb (is_prefix p q) (is_prefix q p))) rest)
           (conflict_free rest)
  end.

Definition update_ok (u : list update_op) : bool :=
  andb (forallb (fun o => path_ok (op_path o)) u)
       (conflict_free (map op_path u)).

(** An element a [$pull] with a condition document removes: an embedded
    document satisfying the condition. *)
Definition pull_where_match (q : query) (x : json) : bool :=
  match x with
  | JObj d => matches q d
  | _ => false
  end.

(** One operator on one document; [None] is a write error.  The handlers
    push to and pull from top-level fields only. *)
Definition apply_op (o : update_op) (d : doc) : option doc :=
  match o with
  | Set_ p v =>
      match set_path (split_dots p) v (JObj d) with
      | Some (JObj d') => Some d'
      | _ => None
      end
  | Push f v =>
      match get f d with
      | None => Some (dict_set f (JArr [v]) d)
      | Some (JArr items) => Some (dict_set f (JArr (items ++ [v])) d)
      | Some _ => None
      end
  | Pull f s =>
      match get f d with
      | None => Some d
      | Some (JArr items) =>
          Some (dict_set f (JArr (List.filter (fun x => negb (is_str s x)) items)) d)
      | Some _ => None
      end
  | PullWhere f q =>
      match get f d with
      | None => Some d
      | Some (JArr items) =>
          Some (dict_set f
                  (JArr (List.filter (fun x => negb (pull_where_match q x)) items)) d)
      | Some _ => None
      end
  end.

Fixpoint apply_update (u : list update_op) (d : doc) : option doc :=
  match u with
  | [] => Some d
  | o :: rest =>
      match apply_op o d with
      | Some d' => apply_update rest d'
      | None => None
      end
  end.

(** The first match is rewritten; the count is [matched_count]. *)
Fixpoint update_first (q : query) (u : list update_op) (coll : list doc)
  : option (list doc * nat) :=
  match coll with
  | [] => Some ([], 0%nat)
  | d :: rest =>
      if matches q d then
        match apply_update u d with
        | Some d' => Some (d' :: rest, 1%nat)
        | None => None
        end
      else
        match update_first q u rest with
        | Some (rest', n) => Some (d :: rest', n)
        | None => None
        end
  end.

(** [update_one]: an ill-formed update is refused before any document is
    looked at; [None] is a write error and leaves the collection as it
    was. *)
Definition update_one (q : query) (u : list update_op) (coll : list doc)
  : option (list doc * nat) :=
  if update_ok u then update_first q u coll else None.

(** *** Inclusion projections *)

Inductive projection : Type :=
| Whole
| Fields (sub : list (string * projection)).

Fixpoint lookup_proj (k : string) (l : list (string * projection))
  : option projection :=
  match l with
  | [] => None
  | (k', p) :: rest => if String.eqb k k' then Some p else lookup_proj k rest
  end.

(** A projected path keeps the addressed part of an embedded document,
    is applied to each element of an array, and drops a scalar met on the
    way. *)
Fixpoint project (v : json) (p : projection) {struct v} : option json :=
  match p with
  | Whole => Some v
  | Fields sub =>
      match v with
      | JObj d =>
          Some (JObj
            ((fix go (d : list (string * json)) : list (string * json) :=
                match d with
                | [] => []
                | (k, c) :: d' =>
                    match lookup_proj k sub with
                    | Some p' =>
                        match project c p' with
                        | Some c' => (k, c') :: go d'
                        | None => go d'
                        end
                    | None => go d'
                    end
                end) d))
      | JArr items =>
          Some (JArr
            ((fix go (l : list json) : list json :=
                match l with
                | [] => []
                | x :: l' =>
                    match project x p with
                    | Some x' => x' :: go l'
                    | None => go l'
                    end
                end) items))
      | _ => None
      end
  end.

Definition project_doc (p : list (string * projection)) (d : doc) : doc :=
  match project (JObj d) (Fields p) with
  | Some (JObj d') => d'
  | _ => []
  end.

End Mongo.

(** ** The database and the handlers' effects *)

Record Db : Type := mkDb {
  characters : list doc;
  rolls : list doc;
  threats : list doc;
  campaigns : list doc;
  campaign_characters : list doc;
  campaign_rolls : list doc
}.

Inductive collection : Type :=
| Characters | Rolls | Threats | Campaigns | CampaignCharacters | CampaignRolls.

Definition the_coll (c : collection) (db : Db) : list doc :=
  match c with
  | Characters => characters db
  | Rolls => rolls db
  | Threats => threats db
  | Campaigns => campaigns db
  | CampaignCharacters => campaign_characters db
  | CampaignRolls => campaign_rolls db
  end.

Definition with_coll (c : collection) (l : list doc) (db : Db) : Db :=
  match c with
  | Characters =>
      mkDb l (rolls db) (threats db) (campaigns db)
           (campaign_characters db) (campaign_rolls db)
  | Rolls =>
      mkDb (characters db) l (threats db) (campaigns db)
           (campaign_characters db) (campaign_rolls db)
  | Threats =>
      mkDb (characters db) (rolls db) l (campaigns db)
           (campaign_characters db) (campaign_rolls db)
  | Campaigns =>
      mkDb (characters db) (rolls db) (threats db) l
           (campaign_characters db) (campaign_rolls db)
  | CampaignCharacters =>
      mkDb (characters db) (rolls db) (threats db) (campaigns db)
           l (campaign_rolls db)
  | CampaignRolls =>
      mkDb (characters db) (rolls db) (threats db) (campaigns db)
           (campaign_characters db) l
  end.

(** What a handler can raise.  [HTTPException] is turned into a response
    with that status; anything else is an unhandled error of the request. *)
Inductive exn : Type :=
| HTTPException (status_code : Z) (detail : string)
| KeyError (key : string)
| TypeError
| AttributeError
| ValidationError (field : string)
| WriteError
| OverflowError
| InvalidDocument.

Inductive outcome (A : Type) : Type :=
| Return (a : A)
| Raise (e : exn).

Arguments Return {A} a.
Arguments Raise {A} e.

(** A handler runs against the database and leaves it as it is at the point
    where it returns or raises: nothing is rolled back. *)
Definition M (A : Type) : Type := Db -> Db * outcome A.

Definition ret {A} (a : A) : M A := fun db => (db, Return a).

Definition raise {A} (e : exn) : M A := fun db => (db, Raise e).

Definition bind {A B} (m : M A) (k : A -> M B) : M B :=
  fun db =>
    match m db with
    | (db', Return a) => k a db'
    | (db', Raise e) => (db', Raise e)
    end.

Declare Scope handler_scope.
Delimit Scope handler_scope with handler.

Notation "x <- m ;; k" := (bind m (fun x => k))
  (at level 61, m at next level, right associativity) : handler_scope.
Notation "m ;;; k" := (bind m (fun _ => k))
  (at level 61, right associativity) : handler_scope.

Open Scope handler_scope.

(** ** What the driver encodes

    The driver turns a document into BSON on the client, field by field in
    the order of the [dict]: an integer must fit in eight bytes
    ([OverflowError] otherwise) and a key may not contain the NUL character
    ([InvalidDocument] otherwise).  The first failure met is the one
    raised. *)

Module Bson.

Definition int64 (n : Z) : bool :=
  andb (Z.leb (-9223372036854775808) n) (Z.ltb n 9223372036854775808).

Fixpoint has_nul (s : string) : bool :=
  match s with
  | EmptyString => false
  | String c rest => orb (Ascii.eqb c Ascii.zero) (has_nul rest)
  end.

Definition key_error (k : string) : option exn :=
  if has_nul k then Some InvalidDocument else None.

(** The first of two failures. *)
Definition or_else (a b : option exn) : option exn :=
  match a with
  | Some e => Some e
  | None => b
  end.

Fixpoint encode_error (v : json) : option exn :=
  match v with
  | JInt n => if int64 n then None else Some OverflowError
  | JArr items =>
      (fix go (l : list json) : option exn :=
         match l with
         | [] => None
         | x :: l' => or_else (encode_error x) (go l')
         end) items
  | JObj fields =>
      (fix go (d : list (string * json)) : option exn :=
         match d with
         | [] => None
         | (k, x) :: d' => or_else (key_error k) (or_else (encode_error x) (go d'))
         end) fields
  | _ => None
  end.

(** The condition document of a [$pull]. *)
Fixpoint query_error (q : Mongo.query) : option exn :=
  match q with
  | [] => None
  | (k, _) :: rest => or_else (key_error k) (query_error rest)
  end.

Definition op_error (o : Mongo.update_op) : option exn :=
  match o with
  | Mongo.Set_ p v => or_else (key_error p) (encode_error v)
  | Mongo.Push f v => or_else (key_error f) (encode_error v)
  | Mongo.Pull f _ => key_error f
  | Mongo.PullWhere f q => or_else (key_error f) (query_error q)
  end.

(** An update document, operator by operator. *)
Fixpoint update_error (u : list Mongo.update_op) : option exn :=
  match u with
  | [] => None
  | o :: rest => or_else (op_error o) (update_error rest)
  end.

End Bson.

(** The awaited store calls. *)
Definition db_find_one (c : collection) (q : Mongo.query) : M (option doc) :=
  fun db => (db, Return (Mongo.find_one q (the_coll c db))).

Definition db_find (c : collection) (q : Mongo.query)
    (p : list (string * Mongo.projection)) (limit : nat) : M (list doc) :=
  fun db =>
    (db, Return (firstn limit (map (Mongo.project_doc p) (Mongo.find q (the_coll c db))))).

(** [insert_one] and [update_one] encode their document before anything is
    sent: a document the driver cannot encode raises in the handler and
    nothing is written.  The filters of the handlers have literal keys and
    string values, which always encode. *)
Definition db_insert_one (c : collection) (d : doc) : M unit :=
  fun db =>
    match Bson.encode_error (JObj d) with
    | Some e => (db, Raise e)
    | None => (with_coll c (Mongo.insert_one d (the_coll c db)) db, Return tt)
    end.

Definition db_update_one (c : collection) (q : Mongo.query)
    (u : list Mongo.update_op) : M nat :=
  fun db =>
    match Bson.update_error u with
    | Some e => (db, Raise e)
    | None =>
        match Mongo.update_one q u (the_coll c db) with
        | Some (coll', matched_count) => (with_coll c coll' db, Return matched_count)
        | None => (db, Raise WriteError)
        end
    end.

Definition db_delete_one (c : collection) (q : Mongo.query) : M nat :=
  fun db =>
    let (coll', deleted_count) := Mongo.delete_one q (the_coll c db) in
    (with_coll c coll' db, Return deleted_count).

Definition db_delete_many (c : collection) (q : Mongo.query) : M unit :=
  fun db => (with_coll c (Mongo.delete_many q (the_coll c db)) db, Return tt).

(** ** Python and pydantic *)

(** [d[k]]. *)
Definition getitem (d : doc) (k : string) : M json :=
  match get k d with
  | Some v => ret v
  | None => raise (KeyError k)
  end.

(** [s in x]: membership in a list, substring of a string, key of a dict;
    anything else is not iterable. *)
Definition py_in (s : string) (x : json) : M bool :=
  match x with
  | JArr items => ret (existsb (is_str s) items)
  | JStr t => ret (match String.index 0 s t with Some _ => true | None => false end)
  | JObj d => ret (match get s d with Some _ => true | None => false end)
  | _ => raise TypeError
  end.

(** [x.get(k, default)], which only a dict has. *)
Definition get_method (x : json) (k : string) (default : json) : M json :=
  match x with
  | JObj d => ret (get_default k default d)
  | _ => raise AttributeError
  end.

(** [if not x: raise HTTPException(404, detail)] for the result of a
    [find_one]: [None] and the empty dict are falsy. *)
Definition or_404 (x : option doc) (detail : string) : M doc :=
  match x with
  | Some (f :: d) => ret (f :: d)
  | _ => raise (HTTPException 404 detail)
  end.

(** Validation of a [str] field of a pydantic model. *)
Definition str_field (field : string) (v : json) : M string :=
  match v with
  | JStr s => ret s
  | _ => raise (ValidationError field)
  end.

(** The two sources of fresh values: [uuid4 k] and [utcnow k] are the
    results of the handler's [k]-th call of [str(uuid.uuid4())] and of
    [datetime.now(timezone.utc).isoformat()], and [randrange k] is the
    [k]-th draw of [random.choices]. *)
Record Env : Type := mkEnv {
  uuid4 : nat -> string;
  utcnow : nat -> string;
  randrange : nat -> nat
}.

Module CampaignCreate.
Record t : Type := make {
  name : string;
  description : string;
  masterId : string;
  masterName : string;
  masterEmail : string
}.
End CampaignCreate.

Module JoinCampaignRequest.
Record t : Type := make {
  inviteCode : string;
  odiserId : string;
  odiserName : string;
  odiserEmail : string;
  characterId : string
}.
End JoinCampaignRequest.

(** [Campaign(...).model_dump()] as [create_campaign] builds it: the field
    defaults are evaluated in declaration order. *)
Definition Campaign (env : Env) (input_data : CampaignCreate.t)
    (inviteCode : string) : doc :=
  [ ("id", JStr (uuid4 env 0));
    ("name", JStr (CampaignCreate.name input_data));
    ("description", JStr (CampaignCreate.description input_data));
    ("masterId", JStr (CampaignCreate.masterId input_data));
    ("masterName", JStr (CampaignCreate.masterName input_data));
    ("masterEmail", JStr (CampaignCreate.masterEmail input_data));
    ("inviteCode", JStr inviteCode);
    ("players", JArr []);
    ("playerIds", JArr []);
    ("createdAt", JStr (utcnow env 0));
    ("updatedAt", JStr (utcnow env 1)) ].

(** [CampaignCharacter(...).model_dump()]; [campaignId] comes from a stored
    document and is validated. *)
Definition CampaignCharacter (env : Env) (campaignId : json)
    (originalCharacterId odiserId : string) (data : doc) : M doc :=
  campaignId <- str_field "campaignId" campaignId ;;
  ret [ ("id", JStr (uuid4 env 0));
        ("campaignId", JStr campaignId);
        ("originalCharacterId", JStr originalCharacterId);
        ("odiserId", JStr odiserId);
        ("data", JObj data);
        ("createdAt", JStr (utcnow env 0));
        ("updatedAt", JStr (utcnow env 1)) ].

(** [CampaignPlayer(...).model_dump()]; [characterName] comes from a stored
    document and is validated. *)
Definition CampaignPlayer (env : Env) (odiserId odiserName odiserEmail : string)
    (characterId : string) (characterName : json) : M doc :=
  characterName <- str_field "characterName" characterName ;;
  ret [ ("odiserId", JStr odiserId);
        ("odiserName", JStr odiserName);
        ("odiserEmail", JStr odiserEmail);
        ("characterId", JStr characterId);
        ("characterName", JStr characterName);
        ("joinedAt", JStr (utcnow env 2)) ].

(** ** The handlers *)

Definition message (s : string) : json := JObj [("message", JStr s)].

Definition json_of_found (x : option doc) : json :=
  match x with
  | Some d => JObj d
  | None => JNull
  end.

(** [PUT /characters/{character_id}] *)
Definition update_character (env : Env) (character_id : string)
    (update_data : doc) : M json :=
  let update_data := dict_set "updatedAt" (JStr (utcnow env 0)) update_data in
  matched_count <- db_update_one Characters [("id", character_id)]
                     (map (fun kv => Mongo.Set_ (fst kv) (snd kv)) update_data) ;;
  if Nat.eqb matched_count 0 then raise (HTTPException 404 "Character not found")
  else
    character <- db_find_one Characters [("id", character_id)] ;;
    ret (json_of_found character).

Definition invite_alphabet : string := "ABCDEFGHIJKLMNOPQRSTUVWXYZ0123456789".

Fixpoint string_of_chars (l : list ascii) : string :=
  match l with
  | [] => EmptyString
  | c :: rest => String c (string_of_chars rest)
  end.

(** [''.join(random.choices(string.ascii_uppercase + string.digits, k=6))] *)
Definition generate_invite_code (env : Env) : string :=
  string_of_chars
    (map (fun k => match String.get (randrange env k mod 36) invite_alphabet with
                   | Some c => c
                   | None => "A"%char
                   end)
         (seq 0 6)).

(** [POST /campaigns] *)
Definition create_campaign (env : Env) (input_data : CampaignCreate.t) : M json :=
  let campaign := Campaign env input_data (generate_invite_code env) in
  db_insert_one Campaigns campaign ;;;
  ret (JObj campaign).

(** [DELETE /campaigns/{campaign_id}?masterId=] *)
Definition delete_campaign (campaign_id : string) (masterId : string) : M json :=
  campaign <- db_find_one Campaigns [("id", campaign_id)] ;;
  campaign <- or_404 campaign "Campaign not found" ;;
  stored <- getitem campaign "masterId" ;;
  if negb (is_str masterId stored) then
    raise (HTTPException 403 "Only the master can delete the campaign")
  else
    db_delete_one Campaigns [("id", campaign_id)] ;;;
    db_delete_many CampaignCharacters [("campaignId", campaign_id)] ;;;
    db_delete_many Threats [("campaignId", campaign_id)] ;;;
    db_delete_many CampaignRolls [("campaignId", campaign_id)] ;;;
    ret (message "Campaign deleted successfully").

(** [POST /campaigns/join] *)
Definition join_campaign (env : Env) (input_data : JoinCampaignRequest.t) : M json :=
  let odiserId := JoinCampaignRequest.odiserId input_data in
  let characterId := JoinCampaignRequest.characterId input_data in
  campaign <- db_find_one Campaigns
                [("inviteCode", JoinCampaignRequest.inviteCode input_data)] ;;
  campaign <- or_404 campaign "Invalid invite code" ;;
  stored <- getitem campaign "masterId" ;;
  if is_str odiserId stored then
    raise (HTTPException 400 "You are the master of this campaign")
  else
    member <- py_in odiserId (get_default "playerIds" (JArr []) campaign) ;;
    if (member : bool) then
      raise (HTTPException 400 "You are already in this campaign")
    else
      original_char <- db_find_one Characters [("id", characterId)] ;;
      original_char <- or_404 original_char "Character not found" ;;
      campaign_id <- getitem campaign "id" ;;
      campaign_char <- CampaignCharacter env campaign_id characterId odiserId
                         original_char ;;
      db_insert_one CampaignCharacters campaign_char ;;;
      new_player <- CampaignPlayer env odiserId
                      (JoinCampaignRequest.odiserName input_data)
                      (JoinCampaignRequest.odiserEmail input_data)
                      (uuid4 env 0)
                      (get_default "name" (JStr EmptyString) original_char) ;;
      (* campaign["id"] has passed the validation of CampaignCharacter *)
      campaign_id <- str_field "campaignId" campaign_id ;;
      db_update_one Campaigns [("id", campaign_id)]
        [ Mongo.Push "playerIds" (JStr odiserId);
          Mongo.Push "players" (JObj new_player);
          Mongo.Set_ "updatedAt" (JStr (utcnow env 3)) ] ;;;
      ret (JObj [ ("success", JBool true);
                  ("campaignId", JStr campaign_id);
                  ("characterId", JStr (uuid4 env 0)) ]).

(** [POST /campaigns/{campaign_id}/leave?userId=] *)
Definition leave_campaign (env : Env) (campaign_id : string) (userId : string)
  : M json :=
  campaign <- db_find_one Campaigns [("id", campaign_id)] ;;
  campaign <- or_404 campaign "Campaign not found" ;;
  stored <- getitem campaign "masterId" ;;
  if is_str userId stored then
    raise (HTTPException 400 "Master cannot leave the campaign")
  else
    db_update_one Campaigns [("id", campaign_id)]
      [ Mongo.Pull "playerIds" userId;
        Mongo.PullWhere "players" [("odiserId", userId)];
        Mongo.Set_ "updatedAt" (JStr (utcnow env 0)) ] ;;;
    db_delete_many CampaignCharacters
      [("campaignId", campaign_id); ("odiserId", userId)] ;;;
    ret (message "Left campaign successfully").

(** [PUT /campaigns/{campaign_id}/character/{character_id}] *)
Definition update_campaign_character (env : Env) (campaign_id character_id : string)
    (update_data : doc) : M json :=
  let update_data := dict_set "updatedAt" (JStr (utcnow env 0)) update_data in
  matched_count <- db_update_one CampaignCharacters
                     [("id", character_id); ("campaignId", campaign_id)]
                     [ Mongo.Set_ "data" (JObj update_data);
                       Mongo.Set_ "updatedAt" (JStr (utcnow env 1)) ] ;;
  if Nat.eqb matched_count 0 then
    raise (HTTPException 404 "Campaign character not found")
  else
    char <- db_find_one CampaignCharacters [("id", character_id)] ;;
    ret (json_of_found char).

(** The projection of [get_player_stats]:
    [{"odiserId": 1, "id": 1, "data.name": 1, "data.resources.pv": 1,
      "data.resources.pa": 1, "updatedAt": 1}]. *)
Definition stats_projection : list (string * Mongo.projection) :=
  [ ("odiserId", Mongo.Whole);
    ("id", Mongo.Whole);
    ("data", Mongo.Fields
               [ ("name", Mongo.Whole);
                 ("resources", Mongo.Fields [("pv", Mongo.Whole); ("pa", Mongo.Whole)]) ]);
    ("updatedAt", Mongo.Whole) ].

Definition zero_resource : json := JObj [("current", JInt 0); ("max", JInt 0)].

(** The dict appended for one [char] of the loop. *)
Definition player_stat (char : doc) : M json :=
  let data := get_default "data" (JObj []) char in
  characterName <- get_method data "name" (JStr "Unknown") ;;
  resources <- get_method data "resources" (JObj []) ;;
  pv <- get_method resources "pv" zero_resource ;;
  resources <- get_method data "resources" (JObj []) ;;
  pa <- get_method resources "pa" zero_resource ;;
  ret (JObj [ ("odiserId", get_default "odiserId" JNull char);
              ("characterId", get_default "id" JNull char);
              ("characterName", characterName);
              ("pv", pv);
              ("pa", pa);
              ("updatedAt", get_default "updatedAt" JNull char) ]).

(** [for char in chars: stats.append({...})] *)
Fixpoint player_stats_loop (chars : list doc) (stats : list json) : M (list json) :=
  match chars with
  | [] => ret stats
  | char :: rest =>
      entry <- player_stat char ;;
      player_stats_loop rest (stats ++ [entry])
  end.

(** [GET /campaigns/{campaign_id}/player-stats] *)
Definition get_player_stats (campaign_id : string) : M json :=
  chars <- db_find CampaignCharacters [("campaignId", campaign_id)]
             stats_projection 100 ;;
  stats <- player_stats_loop chars [] ;;
  ret (JArr stats).

(** ** The other handlers of the characters, threats, rolls and campaigns *)

Module CharacterCreate.
Record t : Type := make {
  name : string;
  userId : option string
}.
End CharacterCreate.

Module ThreatCreate.
Record t : Type := make {
  campaignId : string;
  name : string
}.
End ThreatCreate.

Definition resource_value : json := JObj [("current", JInt 10); ("max", JInt 10)].

(** [CharacterResources().model_dump()] *)
Definition character_resources : json :=
  JObj [ ("pv", resource_value);
         ("pa", resource_value);
         ("defense", JInt 10);
         ("resistances", JObj [ ("cortante", JInt 0); ("perfurante", JInt 0);
                                ("impacto", JInt 0); ("elemental", JInt 0) ]) ].

(** [Attributes().model_dump()] *)
Definition attributes : json :=
  JObj [ ("FOR", JInt 1); ("VIG", JInt 1); ("DEX", JInt 1); ("INT", JInt 1);
         ("CAR", JInt 1) ].

(** [NenSystem().model_dump()] *)
Definition nen_system : json :=
  JObj [ ("hatsuType", JStr EmptyString);
         ("basicTechniques", JObj [ ("ten", JStr "Amador"); ("ren", JStr "Amador");
                                    ("zetsu", JStr "Amador") ]);
         ("advancedTechniques",
          JObj [ ("Gyô - Percepção", JBool false);
                 ("Gyô - Ataque", JBool false);
                 ("Gyô - Defesa", JBool false);
                 ("In", JBool false);
                 ("En", JBool false);
                 ("Shu", JBool false);
                 ("Ken", JBool false) ]);
         ("hatsus", JArr []) ].

Definition default_skills : doc :=
  map (fun skill => (skill, JInt 0))
    [ "Atletismo"; "Duelo"; "Robustez"; "Resistência";
      "Furtividade"; "Acrobacia"; "Reflexos"; "Pontaria"; "Roubo";
      "Caça"; "Investigação"; "Medicina"; "Profissão"; "Astúcia";
      "Persuasão"; "Intimidação"; "Vontade"; "Intuição"; "Tenacidade";
      "Controle de Nen" ].

(** [{k: v.model_dump() for k, v in default_factions.items()}] *)
Definition default_factions : doc :=
  map (fun faction =>
         (faction, JObj [("value", JInt 0); ("notes", JStr EmptyString)]))
    [ "hunter_association"; "phantom_troupe"; "zoldyck_family"; "mafia";
      "world_government"; "chimera_ants"; "kurta_clan"; "ninja_clans";
      "nen_community"; "specific_kingdoms" ].

Definition json_of_optional (x : option string) : json :=
  match x with
  | Some s => JStr s
  | None => JNull
  end.

(** [character.model_dump()] at the end of [create_character]: the model
    with its defaults, then the skills and the factions assigned to it. *)
Definition Character (env : Env) (input_data : CharacterCreate.t) : doc :=
  [ ("id", JStr (uuid4 env 0));
    ("createdAt", JStr (utcnow env 0));
    ("updatedAt", JStr (utcnow env 1));
    ("userId", json_of_optional (CharacterCreate.userId input_data));
    ("name", JStr (CharacterCreate.name input_data));
    ("level", JInt 1);
    ("origin", JStr EmptyString);
    ("classes", JArr []);
    ("customClass", JStr EmptyString);
    ("attributes", attributes);
    ("resources", character_resources);
    ("skills", JObj default_skills);
    ("factions", JObj default_factions);
    ("nen", nen_system);
    ("weapons", JArr []);
    ("inventory", JArr []);
    ("lore", JObj [ ("originAbility", JStr EmptyString); ("history", JStr EmptyString);
                    ("personality", JStr EmptyString); ("appearance", JStr EmptyString);
                    ("objectives", JStr EmptyString); ("notes", JStr EmptyString) ]);
    ("classAbility", JStr EmptyString);
    ("beasts", JArr []) ].

(** [POST /characters] *)
Definition create_character (env : Env) (input_data : CharacterCreate.t) : M json :=
  let character := Character env input_data in
  db_insert_one Characters character ;;;
  ret (JObj character).

(** [GET /characters/{character_id}] *)
Definition get_character (character_id : string) : M json :=
  character <- db_find_one Characters [("id", character_id)] ;;
  character <- or_404 character "Character not found" ;;
  ret (JObj character).

(** [DELETE /characters/{character_id}] *)
Definition delete_character (character_id : string) : M json :=
  deleted_count <- db_delete_one Characters [("id", character_id)] ;;
  if Nat.eqb deleted_count 0 then raise (HTTPException 404 "Character not found")
  else ret (message "Character deleted successfully").

(** [DELETE /rolls?characterId=]: [if characterId:] holds for a string that
    is not empty. *)
Definition clear_rolls (characterId : option string) : M json :=
  let query :=
    match characterId with
    | Some (String c rest) => [("characterId", String c rest)]
    | _ => []
    end in
  db_delete_many Rolls query ;;;
  ret (message "Roll history cleared").

(** [Threat(campaignId=..., name=...).model_dump()] *)
Definition Threat (env : Env) (input_data : ThreatCreate.t) : doc :=
  [ ("id", JStr (uuid4 env 0));
    ("campaignId", JStr (ThreatCreate.campaignId input_data));
    ("createdAt", JStr (utcnow env 0));
    ("name", JStr (ThreatCreate.name input_data));
    ("resources", character_resources);
    ("attributes", attributes);
    ("skills", JObj (map (fun skill => (skill, JInt 0))
                       [ "Duelo"; "Vontade"; "Reflexos"; "Robustez"; "Caça";
                         "Controle de Nen" ]));
    ("dueloAttribute", JStr "FOR");
    ("nen", nen_system);
    ("combat", JObj [("damage", JStr "2d8+5")]);
    ("generalAbilities", JStr EmptyString) ].

(** [POST /threats] *)
Definition create_threat (env : Env) (input_data : ThreatCreate.t) : M json :=
  let threat := Threat env input_data in
  db_insert_one Threats threat ;;;
  ret (JObj threat).

(** [GET /threats/{threat_id}] *)
Definition get_threat (threat_id : string) : M json :=
  threat <- db_find_one Threats [("id", threat_id)] ;;
  threat <- or_404 threat "Threat not found" ;;
  ret (JObj threat).

(** [DELETE /threats/{threat_id}] *)
Definition delete_threat (threat_id : string) : M json :=
  deleted_count <- db_delete_one Threats [("id", threat_id)] ;;
  if Nat.eqb deleted_count 0 then raise (HTTPException 404 "Threat not found")
  else ret (message "Threat deleted successfully").

(** [GET /campaigns/{campaign_id}] *)
Definition get_campaign (campaign_id : string) : M json :=
  campaign <- db_find_one Campaigns [("id", campaign_id)] ;;
  campaign <- or_404 campaign "Campaign not found" ;;
  ret (JObj campaign).

(** [PUT /campaigns/{campaign_id}] *)
Definition update_campaign (env : Env) (campaign_id : string)
    (update_data : doc) : M json :=
  let update_data := dict_set "updatedAt" (JStr (utcnow env 0)) update_data in
  matched_count <- db_update_one Campaigns [("id", campaign_id)]
                     (map (fun kv => Mongo.Set_ (fst kv) (snd kv)) update_data) ;;
  if Nat.eqb matched_count 0 then raise (HTTPException 404 "Campaign not found")
  else
    campaign <- db_find_one Campaigns [("id", campaign_id)] ;;
    ret (json_of_found campaign).

(** [GET /campaigns/{campaign_id}/character/{user_id}] *)
Definition get_campaign_character (campaign_id user_id : string) : M json :=
  char <- db_find_one CampaignCharacters
            [("campaignId", campaign_id); ("odiserId", user_id)] ;;
  char <- or_404 char "Campaign character not found" ;;
  ret (JObj char).

(** Validation of a [Dict[str, Any]] field of a pydantic model. *)
Definition dict_field (field : string) (v : json) : M doc :=
  match v with
  | JObj d => ret d
  | _ => raise (ValidationError field)
  end.

(** [CampaignRoll(...).model_dump()]; the fields taken from the request body
    are validated, and the first one refused is reported. *)
Definition CampaignRoll (env : Env) (campaignId : string)
    (odiserId odiserName characterName rollData : json) : M doc :=
  odiserId <- str_field "odiserId" odiserId ;;
  odiserName <- str_field "odiserName" odiserName ;;
  characterName <- str_field "characterName" characterName ;;
  rollData <- dict_field "rollData" rollData ;;
  ret [ ("id", JStr (uuid4 env 0));
        ("campaignId", JStr campaignId);
        ("odiserId", JStr odiserId);
        ("odiserName", JStr odiserName);
        ("characterName", JStr characterName);
        ("rollData", JObj rollData);
        ("timestamp", JStr (utcnow env 0)) ].

(** [POST /campaigns/{campaign_id}/rolls] *)
Definition create_campaign_roll (env : Env) (campaign_id : string)
    (roll_data : doc) : M json :=
  roll <- CampaignRoll env campaign_id
            (get_default "odiserId" (JStr EmptyString) roll_data)
            (get_default "odiserName" (JStr EmptyString) roll_data)
            (get_default "characterName" (JStr EmptyString) roll_data)
            (get_default "rollData" (JObj []) roll_data) ;;
  db_insert_one CampaignRolls roll ;;;
  ret (JObj roll).

(** ** Vocabulary of the specification *)

(** The array stored under a field, an absent field counting as empty. *)
Definition array_field (k : string) (d : doc) : list json :=
  match get k d with
  | Some (JArr items) => items
  | _ => []
  end.

(** [first_match q coll before d after] places the document that
    [find_one], [update_one] and [delete_one] act on in [coll]. *)
Definition first_match (q : Mongo.query) (coll before : list doc) (d : doc)
    (after : list doc) : Prop :=
  coll = before ++ d :: after /\
  Mongo.matches q d = true /\
  forallb (fun x => negb (Mongo.matches q x)) before = true.

(** Ids are generated unique: no id selects two documents of a collection. *)
Definition ids_unique (coll : list doc) : Prop :=
  forall s, (Mongo.count_documents [("id", s)] coll <= 1)%nat.

(** [d] is the document its own id finds: no document stored before it
    carries the same id. *)
Definition found_by_own_id (coll : list doc) (d : doc) : Prop :=
  forall s, get "id" d = Some (JStr s) -> Mongo.find_one [("id", s)] coll = Some d.

(** A document the driver can encode, as every stored document is: its
    integers fit in eight bytes and none of its keys contains NUL. *)
Definition storable (d : doc) : Prop := Bson.encode_error (JObj d) = None.

(** *** Runs of a handler *)

(** [m] never writes. *)
Definition pure {A} (m : M A) : Prop :=
  forall db, exists o, m db = (db, o).

(** [m] can return [a]. *)
Definition returns {A} (m : M A) (a : A) : Prop :=
  exists db, snd (m db) = Return a.

(** Every run of [m] takes a database to one related to it by [R]. *)
Definition respects (R : Db -> Db -> Prop) {A} (m : M A) : Prop :=
  forall db, R db (fst (m db)).

(** The collections outside [cs] are the same in both databases. *)
Definition untouched (cs : list collection) (db db' : Db) : Prop :=
  forall c, ~ In c cs -> the_coll c db' = the_coll c db.

(** Campaign documents keep [P] from one database to the next. *)
Definition keeps (P : doc -> Prop) (db db' : Db) : Prop :=
  Forall P (campaigns db) -> Forall P (campaigns db').

(** Campaign ids stay unique from one database to the next. *)
Definition keeps_unique_ids (db db' : Db) : Prop :=
  ids_unique (campaigns db) -> ids_unique (campaigns db').

(** *** Joining *)

(** What [join_campaign] stores and answers. *)
Definition snapshot_doc (env : Env) (campaign_id : string)
    (input_data : JoinCampaignRequest.t) (original_char : doc) : doc :=
  [ ("id", JStr (uuid4 env 0));
    ("campaignId", JStr campaign_id);
    ("originalCharacterId", JStr (JoinCampaignRequest.characterId input_data));
    ("odiserId", JStr (JoinCampaignRequest.odiserId input_data));
    ("data", JObj original_char);
    ("createdAt", JStr (utcnow env 0));
    ("updatedAt", JStr (utcnow env 1)) ].

Definition player_doc (env : Env) (input_data : JoinCampaignRequest.t)
    (characterName : string) : doc :=
  [ ("odiserId", JStr (JoinCampaignRequest.odiserId input_data));
    ("odiserName", JStr (JoinCampaignRequest.odiserName input_data));
    ("odiserEmail", JStr (JoinCampaignRequest.odiserEmail input_data));
    ("characterId", JStr (uuid4 env 0));
    ("characterName", JStr characterName);
    ("joinedAt", JStr (utcnow env 2)) ].

Definition join_update (env : Env) (input_data : JoinCampaignRequest.t)
    (characterName : string) : list Mongo.update_op :=
  [ Mongo.Push "playerIds" (JStr (JoinCampaignRequest.odiserId input_data));
    Mongo.Push "players" (JObj (player_doc env input_data characterName));
    Mongo.Set_ "updatedAt" (JStr (utcnow env 3)) ].

Definition join_body (env : Env) (campaign_id : string) : json :=
  JObj [ ("success", JBool true);
         ("campaignId", JStr campaign_id);
         ("characterId", JStr (uuid4 env 0)) ].

Definition is_snapshot (campaign_char : doc)
    (id campaignId originalCharacterId odiserId : string) (data : doc) : Prop :=
  get "id" campaign_char = Some (JStr id) /\
  get "campaignId" campaign_char = Some (JStr campaignId) /\
  get "originalCharacterId" campaign_char = Some (JStr originalCharacterId) /\
  get "odiserId" campaign_char = Some (JStr odiserId) /\
  get "data" campaign_char = Some (JObj data).

Definition is_player (player : doc)
    (odiserId odiserName odiserEmail characterId : string) : Prop :=
  get "odiserId" player = Some (JStr odiserId) /\
  get "odiserName" player = Some (JStr odiserName) /\
  get "odiserEmail" player = Some (JStr odiserEmail) /\
  get "characterId" player = Some (JStr characterId).

(** *** Leaving *)

Definition leave_update (userId : string) (now : json) : list Mongo.update_op :=
  [ Mongo.Pull "playerIds" userId;
    Mongo.PullWhere "players" [("odiserId", userId)];
    Mongo.Set_ "updatedAt" now ].

Definition kept_id (userId : string) (x : json) : bool := negb (is_str userId x).

Definition kept_player (userId : string) (x : json) : bool :=
  negb (Mongo.pull_where_match [("odiserId", userId)] x).

(** The user is in the membership of the campaign: among [playerIds], or
    the subject of one of the [players]. *)
Definition member_of (userId : string) (campaign : doc) : bool :=
  orb (existsb (is_str userId) (array_field "playerIds" campaign))
      (existsb (Mongo.pull_where_match [("odiserId", userId)])
               (array_field "players" campaign)).

Definition list_or_absent (k : string) (d : doc) : Prop :=
  get k d = None \/ exists items, get k d = Some (JArr items).

(** *** The membership index *)

(** The user a membership record is about. *)
Definition player_id (player : json) : option string :=
  match player with
  | JObj d =>
      match get "odiserId" d with
      | Some (JStr s) => Some s
      | _ => None
      end
  | _ => None
  end.

(** [playerIds] lists the [odiserId] of [players], element for element. *)
Definition membership_in_sync (campaign : doc) : Prop :=
  exists players ids,
    get "players" campaign = Some (JArr players) /\
    get "playerIds" campaign = Some (JArr (map JStr ids)) /\
    map player_id players = map Some ids.

(** The requests of the workflow, each with whatever arguments and fresh
    values it is run with. *)
Inductive step : Db -> Db -> Prop :=
| step_create_campaign env input_data db :
    step db (fst (create_campaign env input_data db))
| step_join_campaign env input_data db :
    step db (fst (join_campaign env input_data db))
| step_leave_campaign env campaign_id userId db :
    step db (fst (leave_campaign env campaign_id userId db))
| step_delete_campaign campaign_id masterId db :
    step db (fst (delete_campaign campaign_id masterId db))
| step_update_character env character_id update_data db :
    step db (fst (update_character env character_id update_data db))
| step_update_campaign_character env campaign_id character_id update_data db :
    step db (fst (update_campaign_character env campaign_id character_id
                    update_data db)).

(** The databases the workflow reaches from one that holds no campaign. *)
Inductive reachable : Db -> Prop :=
| reachable_start db : campaigns db = [] -> reachable db
| reachable_step db db' : reachable db -> step db db' -> reachable db'.

(** *** Player statistics *)

(** The embedded document or array stored under [k]: what the projection
    of a path through [k] keeps of the field.  A scalar is dropped by the
    projection and counts as absent. *)
Fixpoint embedded (k : string) (d : doc) : option json :=
  match d with
  | [] => None
  | (k', v) :: rest =>
      if String.eqb k k' then
        match v with
        | JObj _ | JArr _ => Some v
        | _ => embedded k rest
        end
      else embedded k rest
  end.

(** The data and the resources block of a stored campaign character. *)
Definition data_of (char : doc) : doc :=
  match embedded "data" char with
  | Some (JObj data) => data
  | _ => []
  end.

Definition resources_of (char : doc) : doc :=
  match embedded "resources" (data_of char) with
  | Some (JObj resources) => resources
  | _ => []
  end.

(** The summary of a stored campaign character. *)
Definition summary_of (char : doc) : doc :=
  [ ("odiserId", get_default "odiserId" JNull char);
    ("characterId", get_default "id" JNull char);
    ("characterName", get_default "name" (JStr "Unknown") (data_of char));
    ("pv", get_default "pv" zero_resource (resources_of char));
    ("pa", get_default "pa" zero_resource (resources_of char));
    ("updatedAt", get_default "updatedAt" JNull char) ].

Definition is_array (x : option json) : bool :=
  match x with
  | Some (JArr _) => true
  | _ => false
  end.

(** Neither [data] nor [data.resources] is an array: an embedded document
    is read, and anything else, absent or scalar, counts as empty. *)
Definition summarised (char : doc) : bool :=
  andb (negb (is_array (embedded "data" char)))
       (negb (is_array (embedded "resources" (data_of char)))).

(** *** A sample session

    The master [M1] opens a campaign, and the user [U1] joins it with the
    character [C1]. *)

Definition fixed_env (id now : string) : Env :=
  mkEnv (fun _ => id) (fun _ => now) (fun k => k).

Definition gon : doc :=
  [ ("id", JStr "C1");
    ("userId", JStr "U1");
    ("name", JStr "Gon");
    ("resources", JObj [("pv", JObj [("current", JInt 12); ("max", JInt 15)])]) ].

Definition db_start : Db := mkDb [gon] [] [] [] [] [].

Definition exam : CampaignCreate.t :=
  CampaignCreate.make "Hunter Exam" "The 287th exam" "M1" "Netero" "netero@hunters.org".

Definition db_created : Db :=
  fst (create_campaign (fixed_env "K1" "t0") exam db_start).

Definition exam_campaign : doc := Campaign (fixed_env "K1" "t0") exam "ABCDEF".

Definition join_request : JoinCampaignRequest.t :=
  JoinCampaignRequest.make "ABCDEF" "U1" "Gon" "gon@whale.island" "C1".

Definition db_joined : Db :=
  fst (join_campaign (fixed_env "CC1" "t1") join_request db_created).

(** A campaign that 101 users have joined, each with a copy of [gon]. *)
Definition numbered (prefix : string) (n : nat) : string :=
  (prefix ++ NilEmpty.string_of_uint (Nat.to_uint n))%string.

Definition crowd_member (n : nat) : doc :=
  [ ("id", JStr (numbered "CC" n));
    ("campaignId", JStr "K1");
    ("originalCharacterId", JStr "C1");
    ("odiserId", JStr (numbered "U" n));
    ("data", JObj gon);
    ("createdAt", JStr "t1");
    ("updatedAt", JStr "t1") ].

Definition crowded_db : Db :=
  mkDb [gon] [] [] [exam_campaign] (map crowd_member (seq 1 101)) [].

(** Campaign characters whose sheet is incomplete: no name and no
    resources, a string under [resources], and a number as [data]. *)
Definition db_sheets : Db :=
  mkDb [] [] [] [exam_campaign]
       [ [ ("id", JStr "CC1"); ("campaignId", JStr "K1"); ("odiserId", JStr "U1");
           ("data", JObj [("level", JInt 3)]); ("updatedAt", JStr "t1") ];
         [ ("id", JStr "CC2"); ("campaignId", JStr "K1"); ("odiserId", JStr "U2");
           ("data", JObj [("name", JStr "Leorio"); ("resources", JStr "none")]);
           ("updatedAt", JStr "t2") ];
         [ ("id", JStr "CC3"); ("campaignId", JStr "K1"); ("odiserId", JStr "U3");
           ("data", JInt 5); ("updatedAt", JStr "t3") ] ]
       [].

(** The sample session after an update of the snapshot has stored an array
    under [resources]. *)
Definition db_array_sheet : Db :=
  fst (update_campaign_character (fixed_env "-" "t2") "K1" "CC1"
         [("name", JStr "Gon"); ("resources", JArr [])] db_joined).

(** The campaign with no member, and the campaign character a join of [U1]
    has inserted before its second write. *)
Definition orphan_db : Db :=
  mkDb [] [] [] [exam_campaign]
       [snapshot_doc (fixed_env "CC1" "t1") "K1" join_request gon] [].

(** Two campaigns under one id.  A second master opens a campaign, and an
    [update_campaign] whose payload names [id] puts it under the id of the
    first: the campaign of [M1] is stored first, the campaign of [M2] is
    found by its own invite code ["GHIJKL"]. *)
Definition island : CampaignCreate.t :=
  CampaignCreate.make "Greed Island" "The game" "M2" "Ging" "ging@hunters.org".

Definition island_env : Env :=
  mkEnv (fun _ => "K2") (fun _ => "t0") (fun k => (k + 6)%nat).

Definition db_twins : Db :=
  fst (update_campaign (fixed_env "-" "t1") "K2" [("id", JStr "K1")]
         (fst (create_campaign island_env island db_created))).

Definition twin_request : JoinCampaignRequest.t :=
  JoinCampaignRequest.make "GHIJKL" "U1" "Gon" "gon@whale.island" "C1".

(** The sample session with the leftover of a stranger: [U1] is a member,
    and [U2] owns the campaign character a join has inserted before its
    second write. *)
Definition stranger_request : JoinCampaignRequest.t :=
  JoinCampaignRequest.make "ABCDEF" "U2" "Killua" "killua@zoldyck.org" "C1".

Definition db_stranger : Db :=
  mkDb (characters db_joined) [] [] (campaigns db_joined)
       (campaign_characters db_joined
          ++ [snapshot_doc (fixed_env "CC2" "t2") "K1" stranger_request gon])
       [].

(** The campaign of the sample session after an [update_campaign] has
    overwritten [playerIds] with a string. *)
Definition db_overwritten : Db :=
  fst (update_campaign (fixed_env "-" "t1") "K1" [("playerIds", JStr "nobody")]
         db_created).

(** A field that is stored and is not a list. *)
Definition not_a_list (k : string) (d : doc) : Prop :=
  exists x, get k d = Some x /\ forall items, x <> JArr items.

(** The payload of an update after the handler has stamped it. *)
Definition stamped (now : string) (update_data : doc) : doc :=
  dict_set "updatedAt" (JStr now) update_data.

(** What [create_campaign_roll] stores and answers. *)
Definition roll_doc (env : Env) (campaign_id odiserId odiserName
    characterName : string) (rollData : doc) : doc :=
  [ ("id", JStr (uuid4 env 0));
    ("campaignId", JStr campaign_id);
    ("odiserId", JStr odiserId);
    ("odiserName", JStr odiserName);
    ("characterName", JStr characterName);
    ("rollData", JObj rollData);
    ("timestamp", JStr (utcnow env 0)) ].

(** An integer that does not fit in eight bytes. *)
Definition too_big : Z := 18446744073709551616.

(** *** Further vocabulary *)

(** [m] never raises an [HTTPException]. *)
Definition quiet {A} (m : M A) : Prop :=
  forall db db' status_code detail,
    m db <> (db', Raise (HTTPException status_code detail)).

(** Whenever [m] raises an [HTTPException], it has written nothing. *)
Definition clean {A} (m : M A) : Prop :=
  forall db db' status_code detail,
    m db = (db', Raise (HTTPException status_code detail)) -> db' = db.

(** The top-level field a key of an update payload addresses. *)
Definition top_field (key : string) : string :=
  match Mongo.split_dots key with
  | k :: _ => k
  | [] => key
  end.

(** The [$set] of an update payload: one operator for each of its keys. *)
Definition set_ops (update_data : doc) : list Mongo.update_op :=
  map (fun kv => Mongo.Set_ (fst kv) (snd kv)) update_data.

(** The requests that reach the campaigns, a campaign being created under
    an id no campaign has yet. *)
Inductive fresh_step : Db -> Db -> Prop :=
| fresh_create_campaign env input_data db :
    Mongo.find_one [("id", uuid4 env 0)] (campaigns db) = None ->
    fresh_step db (fst (create_campaign env input_data db))
| fresh_join_campaign env input_data db :
    fresh_step db (fst (join_campaign env input_data db))
| fresh_leave_campaign env campaign_id userId db :
    fresh_step db (fst (leave_campaign env campaign_id userId db))
| fresh_delete_campaign campaign_id masterId db :
    fresh_step db (fst (delete_campaign campaign_id masterId db))
| fresh_create_character env input_data db :
    fresh_step db (fst (create_character env input_data db))
| fresh_update_character env character_id update_data db :
    fresh_step db (fst (update_character env character_id update_data db))
| fresh_delete_character character_id db :
    fresh_step db (fst (delete_character character_id db))
| fresh_update_campaign_character env campaign_id character_id update_data db :
    fresh_step db (fst (update_campaign_character env campaign_id character_id
                          update_data db)).

Inductive reachable_fresh : Db -> Prop :=
| reachable_fresh_start db : campaigns db = [] -> reachable_fresh db
| reachable_fresh_step db db' :
    reachable_fresh db -> fresh_step db db' -> reachable_fresh db'.

(** No user is listed twice in [playerIds]. *)
Definition no_double_member (campaign : doc) : Prop :=
  NoDup (array_field "playerIds" campaign).

(** The sample session goes on: [U1] leaves the campaign. *)
Definition db_left : Db :=
  fst (leave_campaign (fixed_env "-" "t2") "K1" "U1" db_joined).

(** Two rolls of [C1] and one of another character. *)
Definition db_rolls : Db :=
  mkDb [gon]
       [ [("id", JStr "R1"); ("characterId", JStr "C1"); ("finalResult", JInt 17)];
         [("id", JStr "R2"); ("characterId", JStr "C2"); ("finalResult", JInt 4)];
         [("id", JStr "R3"); ("characterId", JStr "C1"); ("finalResult", JInt 9)] ]
       [] [] [] [].

(** * Properties *)

(** ** The store and the steps of a handler *)

Lemma get_dict_set_same (k : string) (v : json) (d : doc) :
  get k (dict_set k v d) = Some v.
Proof.
  induction d as [| [k' v'] rest IH]; simpl.
  - now rewrite String.eqb_refl.
  - destruct (String.eqb k k') eqn:E; simpl.
    + now rewrite String.eqb_refl.
    + now rewrite E.
Qed.

Lemma get_dict_set_other (k k' : string) (v : json) (d : doc) :
  k <> k' -> get k' (dict_set k v d) = get k' d.
Proof.
  intros Hne.
  induction d as [| [k0 v0] rest IH]; simpl.
  - destruct (String.eqb k' k) eqn:E; [| reflexivity].
    apply String.eqb_eq in E. congruence.
  - destruct (String.eqb k k0) eqn:E; simpl.
    + apply String.eqb_eq in E. subst k0.
      destruct (String.eqb k' k) eqn:E'; [| reflexivity].
      apply String.eqb_eq in E'. congruence.
    + now rewrite IH.
Qed.

Lemma the_coll_with_coll_other (c c' : collection) (l : list doc) (db : Db) :
  c <> c' -> the_coll c' (with_coll c l db) = the_coll c' db.
Proof. destruct c, c'; intros H; try reflexivity; congruence. Qed.

(** The driver raises nothing but its two encoding errors. *)
Lemma encode_error_kind (v : json) (e : exn) :
  Bson.encode_error v = Some e -> e = OverflowError \/ e = InvalidDocument.
Proof.
  revert v e. fix IH 1.
  intros [| b | n | q | s | items | fields] e; simpl; try discriminate.
  - destruct (Bson.int64 n); [discriminate |].
    intros H. injection H as <-. now left.
  - induction items as [| x l IHl]; [discriminate |].
    destruct (Bson.encode_error x) eqn:E; simpl.
    + intros H. injection H as <-. exact (IH x _ E).
    + exact IHl.
  - induction fields as [| [k x] d IHd]; [discriminate |].
    unfold Bson.key_error. destruct (Bson.has_nul k); simpl.
    + intros H. injection H as <-. now right.
    + destruct (Bson.encode_error x) eqn:E; simpl.
      * intros H. injection H as <-. exact (IH x _ E).
      * exact IHd.
Qed.

Lemma key_error_kind (k : string) (e : exn) :
  Bson.key_error k = Some e -> e = InvalidDocument.
Proof.
  unfold Bson.key_error. destruct (Bson.has_nul k); [| discriminate].
  intros H. now injection H as <-.
Qed.

Lemma update_error_kind (u : list Mongo.update_op) (e : exn) :
  Bson.update_error u = Some e -> e = OverflowError \/ e = InvalidDocument.
Proof.
  induction u as [| o rest IH]; simpl; [discriminate |].
  destruct (Bson.op_error o) as [e' |] eqn:E; simpl; [| exact IH].
  intros H. injection H as <-.
  destruct o as [p v | f v | f s | f q]; simpl in E.
  - destruct (Bson.key_error p) eqn:K; simpl in E.
    + injection E as <-. right. exact (key_error_kind _ K).
    + exact (encode_error_kind _ E).
  - destruct (Bson.key_error f) eqn:K; simpl in E.
    + injection E as <-. right. exact (key_error_kind _ K).
    + exact (encode_error_kind _ E).
  - right. exact (key_error_kind _ E).
  - destruct (Bson.key_error f) eqn:K; simpl in E.
    + injection E as <-. right. exact (key_error_kind _ K).
    + right. clear K. induction q as [| [k s] q IHq]; simpl in E; [discriminate |].
      destruct (Bson.key_error k) eqn:K; simpl in E.
      * injection E as <-. exact (key_error_kind _ K).
      * exact (IHq E).
Qed.

(** The two outcomes of an insert, and of an update. *)
Lemma db_insert_one_stored (c : collection) (d : doc) (db : Db) :
  Bson.encode_error (JObj d) = None ->
  db_insert_one c d db = (with_coll c (the_coll c db ++ [d]) db, Return tt).
Proof. unfold db_insert_one. now intros ->. Qed.

Lemma db_insert_one_refused (c : collection) (d : doc) (db : Db) (e : exn) :
  Bson.encode_error (JObj d) = Some e ->
  db_insert_one c d db = (db, Raise e).
Proof. unfold db_insert_one. now intros ->. Qed.

Lemma db_update_one_sent (c : collection) (q : Mongo.query)
    (u : list Mongo.update_op) (db : Db) :
  Bson.update_error u = None ->
  db_update_one c q u db
    = match Mongo.update_one q u (the_coll c db) with
      | Some (coll', matched_count) => (with_coll c coll' db, Return matched_count)
      | None => (db, Raise WriteError)
      end.
Proof. unfold db_update_one. now intros ->. Qed.

Lemma db_update_one_refused (c : collection) (q : Mongo.query)
    (u : list Mongo.update_op) (db : Db) (e : exn) :
  Bson.update_error u = Some e ->
  db_update_one c q u db = (db, Raise e).
Proof. unfold db_update_one. now intros ->. Qed.

Lemma find_one_first_match (q : Mongo.query) (coll : list doc) (d : doc) :
  Mongo.find_one q coll = Some d ->
  exists before after, first_match q coll before d after.
Proof.
  unfold Mongo.find_one, first_match.
  induction coll as [| x rest IH]; simpl; [discriminate |].
  destruct (Mongo.matches q x) eqn:E; intros H.
  - injection H as ->. exists [], rest. repeat split; assumption.
  - destruct (IH H) as (before & after & -> & Hm & Hb).
    exists (x :: before), after. simpl. rewrite E. repeat split; assumption.
Qed.

Lemma first_match_find_one (q : Mongo.query) (coll before : list doc) (d : doc)
    (after : list doc) :
  first_match q coll before d after -> Mongo.find_one q coll = Some d.
Proof.
  unfold Mongo.find_one. intros (-> & Hm & Hb).
  induction before as [| x rest IH]; simpl in *.
  - now rewrite Hm.
  - apply andb_prop in Hb as [Hx Hb].
    apply negb_true_iff in Hx. rewrite Hx. now apply IH.
Qed.

Lemma find_one_none (q : Mongo.query) (coll : list doc) :
  Mongo.find_one q coll = None ->
  forallb (fun x => negb (Mongo.matches q x)) coll = true.
Proof.
  unfold Mongo.find_one.
  induction coll as [| x rest IH]; simpl; [reflexivity |].
  destruct (Mongo.matches q x); [discriminate |]. exact IH.
Qed.

Lemma update_first_first_match (q : Mongo.query) (u : list Mongo.update_op)
    (coll before : list doc) (d : doc) (after : list doc) :
  first_match q coll before d after ->
  Mongo.update_first q u coll =
    match Mongo.apply_update u d with
    | Some d' => Some (before ++ d' :: after, 1%nat)
    | None => None
    end.
Proof.
  intros (-> & Hm & Hb).
  induction before as [| x rest IH]; simpl in *.
  - rewrite Hm. reflexivity.
  - apply andb_prop in Hb as [Hx Hb].
    apply negb_true_iff in Hx. rewrite Hx, (IH Hb).
    destruct (Mongo.apply_update u d); reflexivity.
Qed.

Lemma update_first_no_match (q : Mongo.query) (u : list Mongo.update_op)
    (coll : list doc) :
  Mongo.find_one q coll = None ->
  Mongo.update_first q u coll = Some (coll, 0%nat).
Proof.
  unfold Mongo.find_one.
  induction coll as [| x rest IH]; simpl; [reflexivity |].
  destruct (Mongo.matches q x); [discriminate |].
  intros H. now rewrite (IH H).
Qed.

Lemma delete_one_first_match (q : Mongo.query) (coll before : list doc)
    (d : doc) (after : list doc) :
  first_match q coll before d after ->
  Mongo.delete_one q coll = (before ++ after, 1%nat).
Proof.
  intros (-> & Hm & Hb).
  induction before as [| x rest IH]; simpl in *.
  - now rewrite Hm.
  - apply andb_prop in Hb as [Hx Hb].
    apply negb_true_iff in Hx. rewrite Hx, (IH Hb). reflexivity.
Qed.

Lemma count_after_delete_many (q : Mongo.query) (coll : list doc) :
  Mongo.count_documents q (Mongo.delete_many q coll) = 0%nat.
Proof.
  unfold Mongo.count_documents, Mongo.find, Mongo.delete_many.
  induction coll as [| x rest IH]; simpl; [reflexivity |].
  destruct (Mongo.matches q x) eqn:E; simpl; [exact IH |].
  rewrite E. exact IH.
Qed.

Lemma filter_length_zero {A} (f : A -> bool) (l : list A) :
  List.length (List.filter f l) = 0%nat ->
  forallb (fun x => negb (f x)) l = true.
Proof.
  induction l as [| x rest IH]; simpl; [reflexivity |].
  destruct (f x); simpl; [discriminate |]. exact IH.
Qed.

Lemma matches_id (s : string) (d : doc) :
  get "id" d = Some (JStr s) -> Mongo.matches [("id", s)] d = true.
Proof.
  intros H. unfold Mongo.matches. simpl. rewrite H. simpl.
  now rewrite String.eqb_refl.
Qed.

(** With unique ids, the document a query finds is also the one its id
    finds. *)
Lemma first_match_by_id (q : Mongo.query) (coll before : list doc) (d : doc)
    (after : list doc) (s : string) :
  ids_unique coll ->
  first_match q coll before d after ->
  get "id" d = Some (JStr s) ->
  first_match [("id", s)] coll before d after.
Proof.
  intros Hu (-> & Hm & Hb) Hid.
  split; [reflexivity |]. split; [now apply matches_id |].
  apply filter_length_zero.
  specialize (Hu s). unfold Mongo.count_documents, Mongo.find in Hu.
  rewrite List.filter_app, List.length_app in Hu. cbn [List.filter] in Hu.
  rewrite (matches_id _ Hid) in Hu. cbn [List.length] in Hu. lia.
Qed.

Lemma apply_update_join (a b c : json) (d d' : doc) :
  Mongo.apply_update
    [Mongo.Push "playerIds" a; Mongo.Push "players" b; Mongo.Set_ "updatedAt" c] d
    = Some d' ->
  get "playerIds" d' = Some (JArr (array_field "playerIds" d ++ [a])) /\
  get "players" d' = Some (JArr (array_field "players" d ++ [b])) /\
  get "updatedAt" d' = Some c /\
  (forall k, k <> "playerIds" -> k <> "players" -> k <> "updatedAt" ->
             get k d' = get k d).
Proof.
  unfold Mongo.apply_update.
  destruct (Mongo.apply_op (Mongo.Push "playerIds" a) d) as [d1 |] eqn:E1;
    [| discriminate].
  destruct (Mongo.apply_op (Mongo.Push "players" b) d1) as [d2 |] eqn:E2;
    [| discriminate].
  change (Mongo.apply_op (Mongo.Set_ "updatedAt" c) d2)
    with (Some (dict_set "updatedAt" c d2)).
  intros H. injection H as <-.
  assert (H1 : d1 = dict_set "playerIds" (JArr (array_field "playerIds" d ++ [a])) d).
  { unfold Mongo.apply_op in E1. unfold array_field.
    destruct (get "playerIds" d) as [[] |]; try discriminate; now injection E1 as <-. }
  assert (H2 : d2 = dict_set "players" (JArr (array_field "players" d ++ [b])) d1).
  { unfold Mongo.apply_op in E2. unfold array_field.
    assert (Hg : get "players" d1 = get "players" d).
    { rewrite H1. apply get_dict_set_other. discriminate. }
    rewrite <- Hg.
    destruct (get "players" d1) as [[] |]; try discriminate; now injection E2 as <-. }
  subst d2 d1. repeat split.
  - rewrite !get_dict_set_other by discriminate. apply get_dict_set_same.
  - rewrite get_dict_set_other by discriminate. apply get_dict_set_same.
  - apply get_dict_set_same.
  - intros k K1 K2 K3. rewrite !get_dict_set_other by congruence. reflexivity.
Qed.

Lemma pure_getitem (d : doc) (k : string) : pure (getitem d k).
Proof. intros db. unfold getitem. destruct (get k d); eexists; reflexivity. Qed.

Lemma pure_py_in (s : string) (x : json) : pure (py_in s x).
Proof. intros db. destruct x; eexists; reflexivity. Qed.

Lemma pure_get_method (x : json) (k : string) (default : json) :
  pure (get_method x k default).
Proof. intros db. destruct x; eexists; reflexivity. Qed.

Lemma pure_or_404 (x : option doc) (detail : string) : pure (or_404 x detail).
Proof. intros db. destruct x as [[|] |]; eexists; reflexivity. Qed.

Lemma pure_str_field (field : string) (v : json) : pure (str_field field v).
Proof. intros db. destruct v; eexists; reflexivity. Qed.

Lemma update_ok_join (a b c : json) :
  Mongo.update_ok
    [Mongo.Push "playerIds" a; Mongo.Push "players" b; Mongo.Set_ "updatedAt" c]
  = true.
Proof. reflexivity. Qed.

Section Respects.

Variable R : Db -> Db -> Prop.
Hypothesis R_refl : forall db, R db db.
Hypothesis R_trans : forall a b c, R a b -> R b c -> R a c.

Lemma respects_ret {A} (a : A) : respects R (ret a).
Proof. intros db. apply R_refl. Qed.

Lemma respects_raise {A} (e : exn) : respects R (@raise A e).
Proof. intros db. apply R_refl. Qed.

Lemma respects_pure {A} (m : M A) : pure m -> respects R m.
Proof. intros Hp db. destruct (Hp db) as [o ->]. apply R_refl. Qed.

Lemma respects_bind {A B} (m : M A) (k : A -> M B) :
  respects R m -> (forall a, returns m a -> respects R (k a)) ->
  respects R (bind m k).
Proof.
  intros Hm Hk db. unfold bind.
  specialize (Hm db). destruct (m db) as [db1 [a | e]] eqn:E; simpl in *.
  - eapply R_trans; [exact Hm | apply Hk]. exists db. now rewrite E.
  - exact Hm.
Qed.

Lemma respects_find_one (c : collection) (q : Mongo.query) :
  respects R (db_find_one c q).
Proof. intros db. apply R_refl. Qed.

Lemma respects_find (c : collection) (q : Mongo.query)
    (p : list (string * Mongo.projection)) (n : nat) :
  respects R (db_find c q p n).
Proof. intros db. apply R_refl. Qed.

End Respects.

Lemma pure_ret {A} (a : A) : pure (ret a).
Proof. intros db. eexists; reflexivity. Qed.

Lemma pure_raise {A} (e : exn) : pure (@raise A e).
Proof. intros db. eexists; reflexivity. Qed.

Lemma pure_bind {A B} (m : M A) (k : A -> M B) :
  pure m -> (forall a, pure (k a)) -> pure (bind m k).
Proof.
  intros Hm Hk db. unfold bind.
  destruct (Hm db) as [[a | e] ->]; [apply Hk | eexists; reflexivity].
Qed.

Lemma pure_CampaignCharacter env campaignId originalCharacterId odiserId data :
  pure (CampaignCharacter env campaignId originalCharacterId odiserId data).
Proof.
  apply pure_bind; [apply pure_str_field | intros; apply pure_ret].
Qed.

Lemma pure_CampaignPlayer env odiserId odiserName odiserEmail characterId characterName :
  pure (CampaignPlayer env odiserId odiserName odiserEmail characterId characterName).
Proof.
  apply pure_bind; [apply pure_str_field | intros; apply pure_ret].
Qed.

Lemma pure_player_stat (char : doc) : pure (player_stat char).
Proof.
  unfold player_stat.
  repeat (apply pure_bind; [apply pure_get_method | intros]).
  apply pure_ret.
Qed.

Lemma pure_player_stats_loop (chars : list doc) (stats : list json) :
  pure (player_stats_loop chars stats).
Proof.
  revert stats. induction chars as [| char rest IH]; intros stats; simpl.
  - apply pure_ret.
  - apply pure_bind; [apply pure_player_stat | intros; apply IH].
Qed.

Lemma pure_find (c : collection) (q : Mongo.query)
    (p : list (string * Mongo.projection)) (n : nat) :
  pure (db_find c q p n).
Proof. intros db. eexists; reflexivity. Qed.

Lemma pure_get_player_stats (campaign_id : string) :
  pure (get_player_stats campaign_id).
Proof.
  unfold get_player_stats.
  apply pure_bind; [apply pure_find | intros chars].
  apply pure_bind; [apply pure_player_stats_loop | intros; apply pure_ret].
Qed.

Create HintDb pure_steps.
#[export] Hint Resolve pure_getitem pure_py_in pure_get_method pure_or_404
  pure_str_field pure_ret pure_raise pure_CampaignCharacter pure_CampaignPlayer
  pure_player_stat pure_player_stats_loop : pure_steps.

Lemma untouched_refl cs db : untouched cs db db.
Proof. intros c _. reflexivity. Qed.

Lemma untouched_trans cs a b c :
  untouched cs a b -> untouched cs b c -> untouched cs a c.
Proof. intros H1 H2 x Hx. rewrite (H2 x Hx). apply H1, Hx. Qed.

Lemma untouched_with_coll cs c l db :
  In c cs -> untouched cs db (with_coll c l db).
Proof.
  intros Hin c' Hc'. apply the_coll_with_coll_other. intros ->. contradiction.
Qed.

Lemma footprint_insert_one cs c d :
  In c cs -> respects (untouched cs) (db_insert_one c d).
Proof.
  intros Hin db. unfold db_insert_one.
  destruct (Bson.encode_error (JObj d)); simpl.
  - apply untouched_refl.
  - apply untouched_with_coll, Hin.
Qed.

Lemma footprint_update_one cs c q u :
  In c cs -> respects (untouched cs) (db_update_one c q u).
Proof.
  intros Hin db. unfold db_update_one.
  destruct (Bson.update_error u); [apply untouched_refl |].
  destruct (Mongo.update_one q u (the_coll c db)) as [[coll' n] |]; simpl.
  - apply untouched_with_coll, Hin.
  - apply untouched_refl.
Qed.

Lemma footprint_delete_one cs c q :
  In c cs -> respects (untouched cs) (db_delete_one c q).
Proof.
  intros Hin db. unfold db_delete_one.
  destruct (Mongo.delete_one q (the_coll c db)) as [coll' n]; simpl.
  apply untouched_with_coll, Hin.
Qed.

Lemma footprint_delete_many cs c q :
  In c cs -> respects (untouched cs) (db_delete_many c q).
Proof. intros Hin db. apply untouched_with_coll, Hin. Qed.

Ltac footprint :=
  repeat first
    [ apply respects_bind; [apply untouched_trans | | intros]
    | apply respects_ret; apply untouched_refl
    | apply respects_raise; apply untouched_refl
    | apply respects_find_one; apply untouched_refl
    | apply respects_find; apply untouched_refl
    | apply respects_pure; [apply untouched_refl | solve [auto with pure_steps]]
    | apply footprint_insert_one; simpl; tauto
    | apply footprint_update_one; simpl; tauto
    | apply footprint_delete_one; simpl; tauto
    | apply footprint_delete_many; simpl; tauto
    | match goal with
      | |- respects _ (if ?b then _ else _) => destruct b
      end ].

Lemma footprint_update_character env character_id update_data :
  respects (untouched [Characters]) (update_character env character_id update_data).
Proof. unfold update_character. footprint. Qed.

Lemma footprint_update_campaign_character env campaign_id character_id update_data :
  respects (untouched [CampaignCharacters])
    (update_campaign_character env campaign_id character_id update_data).
Proof. unfold update_campaign_character. footprint. Qed.

Lemma footprint_join_campaign env input_data :
  respects (untouched [Campaigns; CampaignCharacters]) (join_campaign env input_data).
Proof. unfold join_campaign. footprint. Qed.

Lemma footprint_leave_campaign env campaign_id userId :
  respects (untouched [Campaigns; CampaignCharacters])
    (leave_campaign env campaign_id userId).
Proof. unfold leave_campaign. footprint. Qed.

Lemma footprint_delete_campaign campaign_id masterId :
  respects (untouched [Campaigns; CampaignCharacters; Threats; CampaignRolls])
    (delete_campaign campaign_id masterId).
Proof. unfold delete_campaign. footprint. Qed.

Lemma footprint_create_campaign env input_data :
  respects (untouched [Campaigns]) (create_campaign env input_data).
Proof. unfold create_campaign. footprint. Qed.

Lemma footprint_get_player_stats campaign_id :
  respects (untouched []) (get_player_stats campaign_id).
Proof. unfold get_player_stats. footprint. Qed.

Lemma keeps_refl P db : keeps P db db.
Proof. intros H. exact H. Qed.

Lemma keeps_trans P a b c : keeps P a b -> keeps P b c -> keeps P a c.
Proof. unfold keeps. auto. Qed.

Lemma update_first_Forall (P : doc -> Prop) q u coll coll' n :
  (forall d d', P d -> Mongo.apply_update u d = Some d' -> P d') ->
  Mongo.update_first q u coll = Some (coll', n) ->
  Forall P coll -> Forall P coll'.
Proof.
  intros Hu. revert coll' n.
  induction coll as [| x rest IH]; simpl; intros coll' n H HP.
  - injection H as <- _. constructor.
  - inversion HP as [| ? ? Hx Hrest]; subst.
    destruct (Mongo.matches q x).
    + destruct (Mongo.apply_update u x) as [x' |] eqn:E; [| discriminate].
      injection H as <- _. constructor; eauto.
    + destruct (Mongo.update_first q u rest) as [[rest' m] |]; [| discriminate].
      injection H as <- _. constructor; eauto.
Qed.

Lemma delete_one_Forall (P : doc -> Prop) q coll :
  Forall P coll -> Forall P (fst (Mongo.delete_one q coll)).
Proof.
  induction coll as [| x rest IH]; simpl; intros HP; [constructor |].
  inversion HP; subst.
  destruct (Mongo.matches q x); simpl; [assumption |].
  destruct (Mongo.delete_one q rest) as [rest' n]; simpl in *.
  constructor; auto.
Qed.

Lemma keeps_insert_one P c d :
  (c = Campaigns -> P d) -> respects (keeps P) (db_insert_one c d).
Proof.
  intros Hd db HP. unfold db_insert_one, Mongo.insert_one.
  destruct (Bson.encode_error (JObj d)); simpl; [exact HP |].
  destruct c; simpl; try exact HP.
  apply Forall_app. split; [exact HP |]. constructor; auto.
Qed.

Lemma keeps_update_one P c q u :
  (c = Campaigns ->
   forall d d', P d -> Mongo.apply_update u d = Some d' -> P d') ->
  respects (keeps P) (db_update_one c q u).
Proof.
  intros Hu db HP. unfold db_update_one, Mongo.update_one.
  destruct (Bson.update_error u); simpl; [exact HP |].
  destruct (Mongo.update_ok u); simpl; [| exact HP].
  destruct (Mongo.update_first q u (the_coll c db)) as [[coll' n] |] eqn:E;
    simpl; [| exact HP].
  destruct c; simpl in *; try exact HP.
  eapply update_first_Forall; eauto.
Qed.

Lemma keeps_delete_one P c q : respects (keeps P) (db_delete_one c q).
Proof.
  intros db HP. unfold db_delete_one.
  pose proof (@delete_one_Forall P q (the_coll c db)) as Hd.
  destruct (Mongo.delete_one q (the_coll c db)) as [coll' n]. simpl in *.
  destruct c; simpl in *; auto.
Qed.

Lemma keeps_delete_many P c q : respects (keeps P) (db_delete_many c q).
Proof.
  intros db HP. unfold db_delete_many, Mongo.delete_many. simpl.
  destruct c; simpl; try exact HP.
  apply Forall_forall. intros x Hx. apply List.filter_In in Hx as [Hx _].
  revert x Hx. now apply Forall_forall.
Qed.

Lemma apply_update_leave (userId : string) (now : json) (d d' : doc) :
  Mongo.apply_update (leave_update userId now) d = Some d' ->
  (forall ids, get "playerIds" d = Some (JArr ids) ->
     get "playerIds" d' = Some (JArr (List.filter (kept_id userId) ids))) /\
  (get "playerIds" d = None -> get "playerIds" d' = None) /\
  (forall ps, get "players" d = Some (JArr ps) ->
     get "players" d' = Some (JArr (List.filter (kept_player userId) ps))) /\
  (get "players" d = None -> get "players" d' = None) /\
  get "updatedAt" d' = Some now /\
  (forall k, k <> "playerIds" -> k <> "players" -> k <> "updatedAt" ->
             get k d' = get k d).
Proof.
  unfold leave_update, Mongo.apply_update.
  destruct (Mongo.apply_op (Mongo.Pull "playerIds" userId) d) as [d1 |] eqn:E1;
    [| discriminate].
  destruct (Mongo.apply_op (Mongo.PullWhere "players" [("odiserId", userId)]) d1)
    as [d2 |] eqn:E2; [| discriminate].
  change (Mongo.apply_op (Mongo.Set_ "updatedAt" now) d2)
    with (Some (dict_set "updatedAt" now d2)).
  intros H. injection H as <-.
  unfold Mongo.apply_op in E1, E2.
  assert (H1 : get "players" d1 = get "players" d).
  { destruct (get "playerIds" d) as [[] |]; try discriminate;
      injection E1 as <-; try reflexivity.
    apply get_dict_set_other. discriminate. }
  assert (H2 : forall k, k <> "players" -> get k d2 = get k d1).
  { intros k Hk.
    destruct (get "players" d1) as [[] |]; try discriminate;
      injection E2 as <-; try reflexivity.
    apply get_dict_set_other. congruence. }
  assert (H3 : forall k, k <> "playerIds" -> get k d1 = get k d).
  { intros k Hk.
    destruct (get "playerIds" d) as [[] |]; try discriminate;
      injection E1 as <-; try reflexivity.
    apply get_dict_set_other. congruence. }
  repeat split.
  - intros ids Hi. rewrite get_dict_set_other, H2 by discriminate.
    rewrite Hi in E1. injection E1 as <-. apply get_dict_set_same.
  - intros Hi. rewrite get_dict_set_other, H2 by discriminate.
    rewrite Hi in E1. injection E1 as <-. exact Hi.
  - intros ps Hp. rewrite get_dict_set_other by discriminate.
    rewrite H1, Hp in E2. injection E2 as <-. apply get_dict_set_same.
  - intros Hp. rewrite get_dict_set_other by discriminate.
    rewrite H1, Hp in E2. injection E2 as <-. now rewrite H1.
  - apply get_dict_set_same.
  - intros k K1 K2 K3.
    rewrite get_dict_set_other, H2, H3 by congruence. reflexivity.
Qed.

Lemma pull_keeps_sync (userId : string) (players : list json) (ids : list string) :
  map player_id players = map Some ids ->
  List.filter (kept_id userId) (map JStr ids)
    = map JStr (List.filter (fun s => negb (String.eqb userId s)) ids) /\
  map player_id (List.filter (kept_player userId) players)
    = map Some (List.filter (fun s => negb (String.eqb userId s)) ids).
Proof.
  revert ids.
  induction players as [| p rest IH]; intros [| s ids] H; simpl in H;
    try discriminate.
  - split; reflexivity.
  - injection H as Hp H. destruct (IH ids H) as [IH1 IH2].
    assert (Hk : kept_player userId p = negb (String.eqb userId s)).
    { unfold kept_player, Mongo.pull_where_match, player_id in *.
      destruct p; try discriminate.
      unfold Mongo.matches. simpl.
      destruct (get "odiserId" fields) as [[] |]; try discriminate.
      injection Hp as ->. simpl. now rewrite andb_true_r. }
    simpl. rewrite Hk. unfold kept_id at 1. simpl.
    destruct (String.eqb userId s); simpl.
    + split; assumption.
    + rewrite IH1, IH2, Hp. split; reflexivity.
Qed.

Lemma leave_keeps_sync (userId : string) (now : json) (d d' : doc) :
  membership_in_sync d ->
  Mongo.apply_update (leave_update userId now) d = Some d' ->
  membership_in_sync d'.
Proof.
  intros (players & ids & Hp & Hi & Hs) Hup.
  destruct (apply_update_leave _ _ _ Hup) as (Hids & _ & Hps & _).
  destruct (pull_keeps_sync userId _ _ Hs) as [E1 E2].
  exists (List.filter (kept_player userId) players),
         (List.filter (fun s => negb (String.eqb userId s)) ids).
  rewrite (Hps _ Hp), (Hids _ Hi), E1. auto.
Qed.

Lemma join_keeps_sync (userId : string) (player : doc) (now : json) (d d' : doc) :
  get "odiserId" player = Some (JStr userId) ->
  membership_in_sync d ->
  Mongo.apply_update
    [ Mongo.Push "playerIds" (JStr userId); Mongo.Push "players" (JObj player);
      Mongo.Set_ "updatedAt" now ] d = Some d' ->
  membership_in_sync d'.
Proof.
  intros Hid (players & ids & Hp & Hi & Hs) Hup.
  destruct (apply_update_join _ _ _ _ Hup) as (Hids & Hps & _).
  unfold array_field in *. rewrite Hp in Hps. rewrite Hi in Hids.
  exists (players ++ [JObj player]), (ids ++ [userId]).
  rewrite Hps, Hids, !map_app, Hs. simpl. rewrite Hid. auto.
Qed.

Ltac keeps_sync :=
  repeat first
    [ apply respects_bind; [apply keeps_trans | | intros]
    | apply respects_ret; apply keeps_refl
    | apply respects_raise; apply keeps_refl
    | apply respects_find_one; apply keeps_refl
    | apply respects_find; apply keeps_refl
    | apply respects_pure; [apply keeps_refl | solve [auto with pure_steps]]
    | apply keeps_delete_one
    | apply keeps_delete_many
    | match goal with
      | |- respects _ (if ?b then _ else _) => destruct b
      end ].

Lemma sync_create_campaign env input_data :
  respects (keeps membership_in_sync) (create_campaign env input_data).
Proof.
  unfold create_campaign. keeps_sync.
  apply keeps_insert_one. intros _. exists [], []. repeat split.
Qed.

Lemma sync_delete_campaign campaign_id masterId :
  respects (keeps membership_in_sync) (delete_campaign campaign_id masterId).
Proof. unfold delete_campaign. keeps_sync. Qed.

Lemma sync_leave_campaign env campaign_id userId :
  respects (keeps membership_in_sync) (leave_campaign env campaign_id userId).
Proof.
  unfold leave_campaign. keeps_sync.
  apply keeps_update_one. intros _ d d'. apply leave_keeps_sync.
Qed.

Lemma returns_CampaignPlayer env odiserId odiserName odiserEmail characterId
    characterName player :
  returns (CampaignPlayer env odiserId odiserName odiserEmail characterId
             characterName) player ->
  get "odiserId" player = Some (JStr odiserId).
Proof.
  intros [db H]. unfold CampaignPlayer, bind in H.
  destruct characterName; try discriminate. simpl in H.
  injection H as <-. reflexivity.
Qed.

Lemma sync_join_campaign env input_data :
  respects (keeps membership_in_sync) (join_campaign env input_data).
Proof.
  unfold join_campaign. keeps_sync.
  - apply keeps_insert_one. discriminate.
  - apply keeps_update_one. intros _ d d'.
    apply join_keeps_sync.
    eapply returns_CampaignPlayer. eassumption.
Qed.

Lemma sync_update_character env character_id update_data :
  respects (keeps membership_in_sync)
    (update_character env character_id update_data).
Proof.
  unfold update_character. keeps_sync.
  apply keeps_update_one. discriminate.
Qed.

Lemma sync_update_campaign_character env campaign_id character_id update_data :
  respects (keeps membership_in_sync)
    (update_campaign_character env campaign_id character_id update_data).
Proof.
  unfold update_campaign_character. keeps_sync.
  apply keeps_update_one. discriminate.
Qed.

Lemma is_str_true (s : string) (x : json) : is_str s x = true <-> x = JStr s.
Proof.
  destruct x; simpl; split; try discriminate.
  - intros H. apply String.eqb_eq in H. now subst.
  - intros H. injection H as ->. apply String.eqb_refl.
Qed.

Lemma is_str_false (s : string) (x : json) : is_str s x = false <-> x <> JStr s.
Proof.
  rewrite <- is_str_true. destruct (is_str s x); split; congruence.
Qed.

Lemma existsb_is_str (s : string) (items : list json) :
  existsb (is_str s) items = true <-> In (JStr s) items.
Proof.
  rewrite existsb_exists. split.
  - intros (x & Hin & Hx). apply is_str_true in Hx. now subst.
  - intros Hin. exists (JStr s). split; [exact Hin | now apply is_str_true].
Qed.

Lemma first_match_same_doc (q q' : Mongo.query) (coll before : list doc)
    (d : doc) (after : list doc) :
  first_match q coll before d after ->
  Mongo.matches q' d = true ->
  Mongo.find_one q' coll = Some d ->
  first_match q' coll before d after.
Proof.
  intros (-> & Hm & Hb) Hm' Hf.
  split; [reflexivity |]. split; [exact Hm' |].
  unfold Mongo.find_one in Hf.
  induction before as [| x rest IH]; simpl in *; [reflexivity |].
  apply andb_prop in Hb as [Hx Hb]. apply negb_true_iff in Hx.
  destruct (Mongo.matches q' x) eqn:E.
  - injection Hf as ->. congruence.
  - simpl. now apply IH.
Qed.

Lemma unique_found_by_own_id (q : Mongo.query) (coll : list doc) (d : doc) :
  ids_unique coll -> Mongo.find_one q coll = Some d -> found_by_own_id coll d.
Proof.
  intros Hu Hf s Hid.
  destruct (find_one_first_match _ _ Hf) as (before & after & Hfm).
  exact (first_match_find_one (first_match_by_id Hu Hfm Hid)).
Qed.

Lemma encode_error_cons (k : string) (v : json) (d : doc) :
  Bson.encode_error (JObj ((k, v) :: d))
    = Bson.or_else (Bson.key_error k)
        (Bson.or_else (Bson.encode_error v) (Bson.encode_error (JObj d))).
Proof. reflexivity. Qed.

Lemma snapshot_storable (env : Env) (campaign_id : string)
    (input_data : JoinCampaignRequest.t) (original_char : doc) :
  storable original_char ->
  storable (snapshot_doc env campaign_id input_data original_char).
Proof.
  unfold storable, snapshot_doc. intros H.
  rewrite !encode_error_cons, H. reflexivity.
Qed.

Lemma update_error_join (env : Env) (input_data : JoinCampaignRequest.t)
    (characterName : string) :
  Bson.update_error (join_update env input_data characterName) = None.
Proof. reflexivity. Qed.

(** Everything a join that returns has done, when the campaign its invite
    code finds is the one its id finds. *)
Lemma join_campaign_run (env : Env) (input_data : JoinCampaignRequest.t)
    (db db' : Db) (body : json) :
  (forall campaign,
     Mongo.find_one [("inviteCode", JoinCampaignRequest.inviteCode input_data)]
       (campaigns db) = Some campaign ->
     found_by_own_id (campaigns db) campaign) ->
  join_campaign env input_data db = (db', Return body) ->
  exists before campaign after original_char stored campaign_id characterName
         campaign',
    first_match [("inviteCode", JoinCampaignRequest.inviteCode input_data)]
      (campaigns db) before campaign after /\
    Mongo.find_one [("id", JoinCampaignRequest.characterId input_data)]
      (characters db) = Some original_char /\
    get "masterId" campaign = Some stored /\
    is_str (JoinCampaignRequest.odiserId input_data) stored = false /\
    get "id" campaign = Some (JStr campaign_id) /\
    Mongo.apply_update (join_update env input_data characterName) campaign
      = Some campaign' /\
    db' = mkDb (characters db) (rolls db) (threats db)
            (before ++ campaign' :: after)
            (campaign_characters db
               ++ [snapshot_doc env campaign_id input_data original_char])
            (campaign_rolls db) /\
    body = join_body env campaign_id.
Proof.
  intros Hown Hrun.
  unfold join_campaign, bind, db_find_one in Hrun.
  cbn [the_coll] in Hrun.
  destruct (Mongo.find_one [("inviteCode", JoinCampaignRequest.inviteCode input_data)]
              (campaigns db)) as [campaign |] eqn:Hc; [| discriminate].
  specialize (Hown campaign eq_refl).
  destruct (find_one_first_match _ _ Hc) as (before & after & Hfm).
  destruct campaign as [| f0 rest0]; [discriminate |].
  cbn [or_404 ret] in Hrun.
  remember (f0 :: rest0) as campaign eqn:Hcampaign. clear Hcampaign.
  unfold getitem at 1 in Hrun.
  destruct (get "masterId" campaign) as [stored |] eqn:Hm; [| discriminate].
  cbn [ret] in Hrun.
  destruct (is_str (JoinCampaignRequest.odiserId input_data) stored) eqn:Hs;
    [discriminate |].
  destruct (pure_py_in (JoinCampaignRequest.odiserId input_data)
              (get_default "playerIds" (JArr []) campaign) db) as [[[|] | e] Hin];
    rewrite Hin in Hrun; try discriminate.
  destruct (Mongo.find_one [("id", JoinCampaignRequest.characterId input_data)]
              (characters db)) as [original_char |] eqn:Hch; [| discriminate].
  destruct original_char as [| f1 rest1]; [discriminate |].
  cbn [or_404 ret] in Hrun.
  remember (f1 :: rest1) as original_char eqn:Hchar. clear Hchar.
  unfold getitem in Hrun.
  destruct (get "id" campaign) as [campaign_id |] eqn:Hid; [| discriminate].
  cbn [ret] in Hrun.
  unfold CampaignCharacter, bind in Hrun.
  destruct campaign_id as [| | | | campaign_id | |]; try discriminate.
  cbn [str_field ret] in Hrun.
  fold (snapshot_doc env campaign_id input_data original_char) in Hrun.
  destruct (Bson.encode_error
              (JObj (snapshot_doc env campaign_id input_data original_char)))
    as [e |] eqn:Henc.
  { rewrite (db_insert_one_refused _ _ _ Henc) in Hrun. discriminate. }
  rewrite (db_insert_one_stored _ _ _ Henc) in Hrun.
  unfold CampaignPlayer, bind in Hrun.
  destruct (get_default "name" (JStr EmptyString) original_char)
    as [| | | | characterName | |] eqn:Hname; try discriminate.
  cbn [str_field ret] in Hrun.
  fold (player_doc env input_data characterName) in Hrun.
  fold (join_update env input_data characterName) in Hrun.
  rewrite (db_update_one_sent _ _ _ _ (update_error_join _ _ _)) in Hrun.
  rewrite the_coll_with_coll_other in Hrun by discriminate.
  cbn [the_coll] in Hrun.
  unfold Mongo.update_one in Hrun.
  change (Mongo.update_ok (join_update env input_data characterName))
    with true in Hrun.
  rewrite (update_first_first_match _
             (@first_match_same_doc _ [("id", campaign_id)] _ _ _ _ Hfm
                (matches_id _ Hid) (Hown _ Hid))) in Hrun.
  destruct (Mongo.apply_update (join_update env input_data characterName) campaign)
    as [campaign' |] eqn:Hup; [| discriminate].
  cbn [ret] in Hrun. injection Hrun as <- <-.
  exists before, campaign, after, original_char, stored, campaign_id,
         characterName, campaign'.
  split; [exact Hfm |].
  repeat split; first [assumption | reflexivity].
Qed.

Lemma join_campaign_success (env : Env) (input_data : JoinCampaignRequest.t)
    (db db' : Db) (body : json) :
  ids_unique (campaigns db) ->
  join_campaign env input_data db = (db', Return body) ->
  exists before campaign after original_char stored campaign_id characterName
         campaign',
    first_match [("inviteCode", JoinCampaignRequest.inviteCode input_data)]
      (campaigns db) before campaign after /\
    Mongo.find_one [("id", JoinCampaignRequest.characterId input_data)]
      (characters db) = Some original_char /\
    get "masterId" campaign = Some stored /\
    is_str (JoinCampaignRequest.odiserId input_data) stored = false /\
    get "id" campaign = Some (JStr campaign_id) /\
    Mongo.apply_update (join_update env input_data characterName) campaign
      = Some campaign' /\
    db' = mkDb (characters db) (rolls db) (threats db)
            (before ++ campaign' :: after)
            (campaign_characters db
               ++ [snapshot_doc env campaign_id input_data original_char])
            (campaign_rolls db) /\
    body = join_body env campaign_id.
Proof.
  intros Hu. apply join_campaign_run.
  intros campaign Hc. exact (@unique_found_by_own_id _ _ _ Hu Hc).
Qed.

Lemma matches_ext (q : Mongo.query) (d d' : doc) :
  (forall k, In k (map fst q) -> get k d' = get k d) ->
  Mongo.matches q d' = Mongo.matches q d.
Proof.
  unfold Mongo.matches.
  induction q as [| [k s] rest IH]; intros H; simpl; [reflexivity |].
  rewrite (H k) by (simpl; auto).
  rewrite IH; [reflexivity |]. intros k' Hk'. apply H. simpl. auto.
Qed.

Lemma filter_all {A} (f : A -> bool) (l : list A) :
  forallb f l = true -> List.filter f l = l.
Proof.
  induction l as [| x rest IH]; simpl; [reflexivity |].
  intros H. apply andb_prop in H as [Hx H]. rewrite Hx, (IH H). reflexivity.
Qed.

Lemma leave_update_defined (userId : string) (now : json) (d : doc) :
  list_or_absent "playerIds" d -> list_or_absent "players" d ->
  exists d', Mongo.apply_update (leave_update userId now) d = Some d'.
Proof.
  intros H1 H2. unfold leave_update, Mongo.apply_update.
  assert (E1 : exists d1, Mongo.apply_op (Mongo.Pull "playerIds" userId) d = Some d1
                          /\ get "players" d1 = get "players" d).
  { unfold Mongo.apply_op. destruct H1 as [-> | [items ->]].
    - eauto.
    - eexists. split; [reflexivity |]. apply get_dict_set_other. discriminate. }
  destruct E1 as (d1 & -> & Hg).
  assert (E2 : exists d2,
             Mongo.apply_op (Mongo.PullWhere "players" [("odiserId", userId)]) d1
             = Some d2).
  { unfold Mongo.apply_op. rewrite Hg. destruct H2 as [-> | [items ->]]; eauto. }
  destruct E2 as (d2 & ->).
  change (Mongo.apply_op (Mongo.Set_ "updatedAt" now) d2)
    with (Some (dict_set "updatedAt" now d2)).
  eauto.
Qed.

Lemma update_error_leave (userId : string) (now : string) :
  Bson.update_error (leave_update userId (JStr now)) = None.
Proof. reflexivity. Qed.

Lemma leave_update_refused (userId : string) (now : json) (d : doc) :
  not_a_list "playerIds" d \/ not_a_list "players" d ->
  Mongo.apply_update (leave_update userId now) d = None.
Proof.
  intros Hbad. unfold leave_update. cbn [Mongo.apply_update].
  destruct (Mongo.apply_op (Mongo.Pull "playerIds" userId) d) as [d1 |] eqn:E1;
    [| reflexivity].
  destruct (Mongo.apply_op (Mongo.PullWhere "players" [("odiserId", userId)]) d1)
    as [d2 |] eqn:E2; [| reflexivity].
  exfalso. unfold Mongo.apply_op in E1, E2.
  destruct Hbad as [(x & Hx & Hnot) | (x & Hx & Hnot)].
  - rewrite Hx in E1. destruct x; try discriminate. now apply (Hnot items).
  - assert (H1 : get "players" d1 = get "players" d).
    { destruct (get "playerIds" d) as [[] |]; try discriminate;
        injection E1 as <-; try reflexivity.
      apply get_dict_set_other. discriminate. }
    rewrite H1, Hx in E2. destruct x; try discriminate. now apply (Hnot items).
Qed.

Lemma update_ok_leave (userId : string) (now : json) :
  Mongo.update_ok (leave_update userId now) = true.
Proof. reflexivity. Qed.

Lemma update_ok_data (v w : json) :
  Mongo.update_ok [Mongo.Set_ "data" v; Mongo.Set_ "updatedAt" w] = true.
Proof. reflexivity. Qed.

Lemma update_error_data (v : json) (w : string) :
  Bson.update_error [Mongo.Set_ "data" v; Mongo.Set_ "updatedAt" (JStr w)]
    = Bson.encode_error v.
Proof. cbn. destruct (Bson.encode_error v); reflexivity. Qed.

Lemma apply_update_data (v w : json) (d : doc) :
  Mongo.apply_update [Mongo.Set_ "data" v; Mongo.Set_ "updatedAt" w] d
  = Some (dict_set "updatedAt" w (dict_set "data" v d)).
Proof. reflexivity. Qed.

Lemma project_doc_cons (sub : list (string * Mongo.projection)) (k : string)
    (c : json) (d : doc) :
  Mongo.project_doc sub ((k, c) :: d) =
    match Mongo.lookup_proj k sub with
    | Some p' =>
        match Mongo.project c p' with
        | Some c' => (k, c') :: Mongo.project_doc sub d
        | None => Mongo.project_doc sub d
        end
    | None => Mongo.project_doc sub d
    end.
Proof.
  unfold Mongo.project_doc. simpl.
  destruct (Mongo.lookup_proj k sub) as [p' |]; [| reflexivity].
  destruct (Mongo.project c p'); reflexivity.
Qed.

Lemma lookup_proj_none_get (sub : list (string * Mongo.projection)) (k : string)
    (d : doc) :
  get k d = None -> get k (Mongo.project_doc sub d) = None.
Proof.
  induction d as [| [k0 c] rest IH]; [reflexivity |].
  simpl. destruct (String.eqb k k0) eqn:E; [discriminate |]. intros H.
  rewrite project_doc_cons.
  destruct (Mongo.lookup_proj k0 sub) as [p' |]; [| auto].
  destruct (Mongo.project c p'); [| auto].
  simpl. rewrite E. auto.
Qed.

Lemma project_whole (c : json) : Mongo.project c Mongo.Whole = Some c.
Proof. destruct c; reflexivity. Qed.

Lemma get_project_whole (sub : list (string * Mongo.projection)) (k : string)
    (d : doc) :
  Mongo.lookup_proj k sub = Some Mongo.Whole ->
  get k (Mongo.project_doc sub d) = get k d.
Proof.
  intros Hk.
  induction d as [| [k0 c] rest IH]; [reflexivity |].
  rewrite project_doc_cons. simpl.
  destruct (String.eqb k k0) eqn:E.
  - apply String.eqb_eq in E. subst k0. rewrite Hk, project_whole. simpl.
    now rewrite String.eqb_refl.
  - destruct (Mongo.lookup_proj k0 sub) as [p' |]; [| exact IH].
    destruct (Mongo.project c p'); [| exact IH].
    simpl. now rewrite E.
Qed.

Lemma get_project_embedded (sub sub' : list (string * Mongo.projection))
    (k : string) (d : doc) :
  Mongo.lookup_proj k sub = Some (Mongo.Fields sub') ->
  get k (Mongo.project_doc sub d)
    = match embedded k d with
      | Some v => Mongo.project v (Mongo.Fields sub')
      | None => None
      end.
Proof.
  intros Hk.
  induction d as [| [k0 c] rest IH]; [reflexivity |].
  rewrite project_doc_cons. cbn [embedded].
  destruct (String.eqb k k0) eqn:E.
  - apply String.eqb_eq in E. subst k0. rewrite Hk.
    destruct c; cbn [Mongo.project]; try exact IH;
      cbn [get]; now rewrite String.eqb_refl.
  - destruct (Mongo.lookup_proj k0 sub) as [p' |]; [| exact IH].
    destruct (Mongo.project c p'); [| exact IH].
    cbn [get]. now rewrite E.
Qed.

Lemma embedded_kind (k : string) (d : doc) (v : json) :
  embedded k d = Some v ->
  (exists x, v = JObj x) \/ (exists items, v = JArr items).
Proof.
  induction d as [| [k0 c] rest IH]; [discriminate |].
  cbn [embedded]. destruct (String.eqb k k0); [| exact IH].
  destruct c; try exact IH; intros H; injection H as <-; eauto.
Qed.

Lemma project_obj (sub : list (string * Mongo.projection)) (d : doc) :
  Mongo.project (JObj d) (Mongo.Fields sub) = Some (JObj (Mongo.project_doc sub d)).
Proof. reflexivity. Qed.

Lemma project_arr (sub : list (string * Mongo.projection)) (items : list json) :
  exists items', Mongo.project (JArr items) (Mongo.Fields sub) = Some (JArr items').
Proof. eexists. reflexivity. Qed.

Lemma get_default_project_whole (sub : list (string * Mongo.projection))
    (k : string) (default : json) (d : doc) :
  Mongo.lookup_proj k sub = Some Mongo.Whole ->
  get_default k default (Mongo.project_doc sub d) = get_default k default d.
Proof. intros H. unfold get_default. now rewrite (@get_project_whole sub k d H). Qed.

Lemma get_default_project_embedded (sub sub' : list (string * Mongo.projection))
    (k : string) (d : doc) :
  Mongo.lookup_proj k sub = Some (Mongo.Fields sub') ->
  get_default k (JObj []) (Mongo.project_doc sub d)
    = match embedded k d with
      | Some (JObj x) => JObj (Mongo.project_doc sub' x)
      | Some v => match Mongo.project v (Mongo.Fields sub') with
                  | Some c => c
                  | None => JObj []
                  end
      | None => JObj []
      end.
Proof.
  intros Hk. unfold get_default. rewrite (@get_project_embedded sub sub' k d Hk).
  destruct (embedded k d) as [[] |]; reflexivity.
Qed.

(** The entry of one campaign character, read through the projection. *)
Lemma player_stat_projected (char : doc) (db : Db) :
  player_stat (Mongo.project_doc stats_projection char) db
    = (db, if summarised char then Return (JObj (summary_of char))
           else Raise AttributeError).
Proof.
  unfold player_stat, summary_of, summarised, resources_of, data_of. cbv zeta.
  rewrite (@get_default_project_whole stats_projection "odiserId" JNull char eq_refl),
          (@get_default_project_whole stats_projection "id" JNull char eq_refl),
          (@get_default_project_whole stats_projection "updatedAt" JNull char eq_refl).
  rewrite (@get_default_project_embedded stats_projection _ "data" char eq_refl).
  set (sub := [("name", Mongo.Whole);
               ("resources", Mongo.Fields [("pv", Mongo.Whole); ("pa", Mongo.Whole)])]).
  destruct (embedded "data" char) as [data |] eqn:Hdata; [| reflexivity].
  destruct (embedded_kind _ _ Hdata) as [[x ->] | [items ->]]; [| reflexivity].
  cbn [get_method bind ret is_array negb andb].
  rewrite (@get_default_project_whole sub "name" (JStr "Unknown") x eq_refl).
  rewrite (@get_default_project_embedded sub _ "resources" x eq_refl).
  set (sub' := [("pv", Mongo.Whole); ("pa", Mongo.Whole)]).
  destruct (embedded "resources" x) as [resources |] eqn:Hres; [| reflexivity].
  destruct (embedded_kind _ _ Hres) as [[r ->] | [items ->]]; [| reflexivity].
  cbn [get_method bind ret is_array negb andb].
  rewrite (@get_default_project_whole sub' "pv" zero_resource r eq_refl),
          (@get_default_project_whole sub' "pa" zero_resource r eq_refl).
  reflexivity.
Qed.

Lemma player_stats_loop_projected (chars : list doc) (stats : list json) (db : Db) :
  Forall (fun char => summarised char = true) chars ->
  player_stats_loop (map (Mongo.project_doc stats_projection) chars) stats db
    = (db, Return (stats ++ map (fun char => JObj (summary_of char)) chars)).
Proof.
  intros H. revert stats.
  induction H as [| char rest Hc Hrest IH]; intros stats; simpl.
  - now rewrite app_nil_r.
  - unfold bind. rewrite (player_stat_projected char db), Hc, IH.
    now rewrite <- app_assoc.
Qed.

Lemma player_stats_loop_raises (chars : list doc) (stats : list json) (db : Db) :
  Exists (fun char => summarised char = false) chars ->
  player_stats_loop (map (Mongo.project_doc stats_projection) chars) stats db
    = (db, Raise AttributeError).
Proof.
  intros H. revert stats.
  induction chars as [| char rest IH]; intros stats; [inversion H |].
  simpl. unfold bind. rewrite (player_stat_projected char db).
  destruct (summarised char) eqn:E; [| reflexivity].
  apply IH. inversion H as [? ? Hc | ? ? Hrest]; subst; [congruence | exact Hrest].
Qed.

Lemma ids_unique_short (coll : list doc) :
  (List.length coll <= 1)%nat -> ids_unique coll.
Proof.
  intros H s. unfold Mongo.count_documents, Mongo.find.
  pose proof (List.filter_length_le (Mongo.matches [("id", s)]) coll). lia.
Qed.


(** ** Unique ids are kept *)

Lemma update_first_count (q : Mongo.query) (u : list Mongo.update_op)
    (coll coll' : list doc) (n : nat) (s : string) :
  (forall d d', Mongo.apply_update u d = Some d' -> get "id" d' = get "id" d) ->
  Mongo.update_first q u coll = Some (coll', n) ->
  Mongo.count_documents [("id", s)] coll'
    = Mongo.count_documents [("id", s)] coll.
Proof.
  intros Hu. unfold Mongo.count_documents, Mongo.find. revert coll' n.
  induction coll as [| x rest IH]; cbn [Mongo.update_first]; intros coll' n H.
  - injection H as <- _. reflexivity.
  - destruct (Mongo.matches q x).
    + destruct (Mongo.apply_update u x) as [x' |] eqn:E; [| discriminate].
      injection H as <- _. cbn [List.filter].
      rewrite (@matches_ext [("id", s)] x x');
        [destruct (Mongo.matches [("id", s)] x); reflexivity |].
      simpl. intros k [<- | []]. now apply Hu.
    + destruct (Mongo.update_first q u rest) as [[rest' m] |] eqn:E;
        [| discriminate].
      injection H as <- _. cbn [List.filter].
      specialize (IH _ _ eq_refl).
      destruct (Mongo.matches [("id", s)] x); cbn [List.length]; now rewrite IH.
Qed.

Lemma delete_one_count (q : Mongo.query) (coll : list doc) (s : string) :
  (Mongo.count_documents [("id", s)] (fst (Mongo.delete_one q coll))
   <= Mongo.count_documents [("id", s)] coll)%nat.
Proof.
  unfold Mongo.count_documents, Mongo.find.
  induction coll as [| x rest IH]; cbn [Mongo.delete_one]; [simpl; lia |].
  destruct (Mongo.matches q x); cbn [fst List.filter].
  - destruct (Mongo.matches [("id", s)] x); cbn [List.length]; lia.
  - destruct (Mongo.delete_one q rest) as [rest' n]. cbn [fst List.filter] in *.
    destruct (Mongo.matches [("id", s)] x); cbn [List.length]; lia.
Qed.

Lemma unique_update_one (c : collection) (q : Mongo.query)
    (u : list Mongo.update_op) :
  (c = Campaigns ->
   forall d d', Mongo.apply_update u d = Some d' -> get "id" d' = get "id" d) ->
  respects (keeps_unique_ids) (db_update_one c q u).
Proof.
  intros Hu db HP. unfold db_update_one, Mongo.update_one.
  destruct (Bson.update_error u); simpl; [exact HP |].
  destruct (Mongo.update_ok u); simpl; [| exact HP].
  destruct (Mongo.update_first q u (the_coll c db)) as [[coll' n] |] eqn:E;
    simpl; [| exact HP].
  destruct c; simpl in *; try exact HP.
  intros s. rewrite (@update_first_count q u _ _ n s (Hu eq_refl) E). apply HP.
Qed.

Lemma unique_insert_one (c : collection) (d : doc) :
  c <> Campaigns -> respects (keeps_unique_ids) (db_insert_one c d).
Proof.
  intros Hc db HP. unfold db_insert_one.
  destruct (Bson.encode_error (JObj d)); simpl; [exact HP |].
  destruct c; simpl; try exact HP. congruence.
Qed.

Lemma unique_delete_one (c : collection) (q : Mongo.query) :
  respects (keeps_unique_ids) (db_delete_one c q).
Proof.
  intros db HP. unfold db_delete_one.
  pose proof (fun s => @delete_one_count q (the_coll c db) s) as Hd.
  destruct (Mongo.delete_one q (the_coll c db)) as [coll' n]. simpl in *.
  destruct c; simpl in *; try exact HP.
  intros s. specialize (Hd s). specialize (HP s). lia.
Qed.

Lemma unique_delete_many (c : collection) (q : Mongo.query) :
  c <> Campaigns -> respects (keeps_unique_ids) (db_delete_many c q).
Proof.
  intros Hc db HP. unfold db_delete_many. simpl.
  destruct c; simpl; try exact HP. congruence.
Qed.

Lemma keeps_unique_ids_refl db : keeps_unique_ids db db.
Proof. intros H. exact H. Qed.

Lemma keeps_unique_ids_trans a b c :
  keeps_unique_ids a b -> keeps_unique_ids b c -> keeps_unique_ids a c.
Proof. unfold keeps_unique_ids. auto. Qed.

Ltac keeps_unique :=
  repeat first
    [ apply respects_bind; [apply keeps_unique_ids_trans | | intros]
    | apply respects_ret; apply keeps_unique_ids_refl
    | apply respects_raise; apply keeps_unique_ids_refl
    | apply respects_find_one; apply keeps_unique_ids_refl
    | apply respects_find; apply keeps_unique_ids_refl
    | apply respects_pure; [apply keeps_unique_ids_refl | solve [auto with pure_steps]]
    | apply unique_delete_one
    | apply unique_delete_many; discriminate
    | apply unique_insert_one; discriminate
    | match goal with
      | |- respects _ (if ?b then _ else _) => destruct b
      end ].

Lemma unique_join_campaign env input_data :
  respects keeps_unique_ids (join_campaign env input_data).
Proof.
  unfold join_campaign. keeps_unique.
  apply unique_update_one. intros _ d d' Hup.
  destruct (apply_update_join _ _ _ _ Hup) as (_ & _ & _ & Hrest).
  apply Hrest; discriminate.
Qed.

Lemma unique_leave_campaign env campaign_id userId :
  respects keeps_unique_ids (leave_campaign env campaign_id userId).
Proof.
  unfold leave_campaign. keeps_unique.
  apply unique_update_one. intros _ d d' Hup.
  destruct (apply_update_leave _ _ _ Hup) as (_ & _ & _ & _ & _ & Hrest).
  apply Hrest; discriminate.
Qed.

Lemma unique_delete_campaign campaign_id masterId :
  respects keeps_unique_ids (delete_campaign campaign_id masterId).
Proof. unfold delete_campaign. keeps_unique. Qed.

Lemma filter_none_matching {A} (f : A -> bool) (l : list A) :
  forallb (fun x => negb (f x)) l = true -> List.filter f l = [].
Proof.
  induction l as [| x rest IH]; simpl; [reflexivity |].
  intros H. apply andb_prop in H as [Hx H].
  apply negb_true_iff in Hx. rewrite Hx. now apply IH.
Qed.

(** A campaign created under a fresh id keeps the ids unique. *)
Lemma unique_create_campaign env input_data db :
  Mongo.find_one [("id", uuid4 env 0)] (campaigns db) = None ->
  ids_unique (campaigns db) ->
  ids_unique (campaigns (fst (create_campaign env input_data db))).
Proof.
  intros Hfresh Hu s.
  change (campaigns (fst (create_campaign env input_data db)))
    with (campaigns db ++ [Campaign env input_data (generate_invite_code env)]).
  unfold Mongo.count_documents, Mongo.find.
  rewrite List.filter_app, List.length_app.
  destruct (String.eqb s (uuid4 env 0)) eqn:E.
  - apply String.eqb_eq in E. subst s.
    apply find_one_none in Hfresh.
    rewrite (filter_none_matching _ _ Hfresh).
    cbn [List.length List.filter].
    destruct (Mongo.matches _ _); cbn [List.length]; lia.
  - specialize (Hu s). unfold Mongo.count_documents, Mongo.find in Hu.
    assert (Hn : Mongo.matches [("id", s)]
                   (Campaign env input_data (generate_invite_code env)) = false).
    { unfold Mongo.matches. simpl. now rewrite E. }
    cbn [List.filter]. rewrite Hn. cbn [List.length]. lia.
Qed.

(** A join whose membership record is refused raises after its first write:
    the campaign character stays, the campaign is as it was. *)
Lemma join_campaign_first_write_stays :
  let nameless := [("id", JStr "C2"); ("name", JInt 5)] in
  let db := mkDb [nameless] [] [] [exam_campaign] [] [] in
  let request := JoinCampaignRequest.make "ABCDEF" "U1" "Gon" "gon@whale.island" "C2" in
  join_campaign (fixed_env "CC1" "t1") request db
    = (mkDb [nameless] [] [] [exam_campaign]
         [snapshot_doc (fixed_env "CC1" "t1") "K1" request nameless] [],
       Raise (ValidationError "characterName")).
Proof. reflexivity. Qed.

(** * The membership workflow *)

(** ** Joining a campaign *)

(** C1, as stated, fails: the campaign is found by its invite code and
    updated by its id.  In [db_twins] the invite code ["GHIJKL"] finds the
    campaign of [M2], which a campaign stored before it shares its id with:
    the join returns, and the member has gone to the campaign of [M1],
    while the campaign found has no player and its former timestamp. *)
Lemma join_campaign_joins_twin :
  exists found db' body other,
    Mongo.find_one [("inviteCode", "GHIJKL")] (campaigns db_twins) = Some found /\
    join_campaign (fixed_env "CC1" "t2") twin_request db_twins = (db', Return body) /\
    Mongo.find_one [("inviteCode", "GHIJKL")] (campaigns db') = Some found /\
    get "masterId" found = Some (JStr "M2") /\
    get "players" found = Some (JArr []) /\
    get "playerIds" found = Some (JArr []) /\
    Mongo.find_one [("inviteCode", "ABCDEF")] (campaigns db') = Some other /\
    get "masterId" other = Some (JStr "M1") /\
    get "playerIds" other = Some (JArr [JStr "U1"]).
Proof.
  do 4 eexists.
  split; [reflexivity |]. split; [reflexivity |]. split; [reflexivity |].
  repeat split.
Qed.

(** C1, amended. When the campaign the invite code finds is the one its own
    id finds (no campaign stored before it carries the same id), a join that
    returns has done the following, for that campaign and the source
    character its id finds.  It has inserted exactly one campaign character,
    whose [data] is the source character document as it was read.  It has
    appended one membership record, which ties the user's id, name and
    email to the id of that campaign character, to [players], and the
    user's id once to [playerIds].  It has set the campaign's [updatedAt] to
    a fresh timestamp, and has left every other field of the campaign, every
    other campaign and every other collection as they were.  It answers
    with the campaign id and the id of the new campaign character. *)
Theorem join_campaign_effects (env : Env) (input_data : JoinCampaignRequest.t)
    (db db' : Db) (body : json) (campaign original_char : doc) :
  Mongo.find_one [("inviteCode", JoinCampaignRequest.inviteCode input_data)]
    (campaigns db) = Some campaign ->
  found_by_own_id (campaigns db) campaign ->
  Mongo.find_one [("id", JoinCampaignRequest.characterId input_data)]
    (characters db) = Some original_char ->
  join_campaign env input_data db = (db', Return body) ->
  exists before after campaign' campaign_id campaign_char new_player,
    campaigns db = before ++ campaign :: after /\
    campaigns db' = before ++ campaign' :: after /\
    get "id" campaign = Some (JStr campaign_id) /\
    campaign_characters db' = campaign_characters db ++ [campaign_char] /\
    is_snapshot campaign_char (uuid4 env 0) campaign_id
      (JoinCampaignRequest.characterId input_data)
      (JoinCampaignRequest.odiserId input_data) original_char /\
    is_player new_player
      (JoinCampaignRequest.odiserId input_data)
      (JoinCampaignRequest.odiserName input_data)
      (JoinCampaignRequest.odiserEmail input_data) (uuid4 env 0) /\
    get "players" campaign' =
      Some (JArr (array_field "players" campaign ++ [JObj new_player])) /\
    get "playerIds" campaign' =
      Some (JArr (array_field "playerIds" campaign
                    ++ [JStr (JoinCampaignRequest.odiserId input_data)])) /\
    get "updatedAt" campaign' = Some (JStr (utcnow env 3)) /\
    (forall k, k <> "playerIds" -> k <> "players" -> k <> "updatedAt" ->
               get k campaign' = get k campaign) /\
    characters db' = characters db /\
    rolls db' = rolls db /\
    threats db' = threats db /\
    campaign_rolls db' = campaign_rolls db /\
    body = JObj [ ("success", JBool true);
                  ("campaignId", JStr campaign_id);
                  ("characterId", JStr (uuid4 env 0)) ].
Proof.
  intros Hc Hown Hch Hrun.
  assert (Hown' : forall campaign0,
            Mongo.find_one
              [("inviteCode", JoinCampaignRequest.inviteCode input_data)]
              (campaigns db) = Some campaign0 ->
            found_by_own_id (campaigns db) campaign0).
  { intros campaign0 Hc0. rewrite Hc in Hc0. now injection Hc0 as <-. }
  destruct (join_campaign_run _ _ _ Hown' Hrun)
    as (before & campaign0 & after & original0 & stored & campaign_id
        & characterName & campaign' & Hfm & Hch0 & _ & _ & Hid & Hup & -> & ->).
  rewrite (first_match_find_one Hfm) in Hc. injection Hc as ->.
  rewrite Hch in Hch0. injection Hch0 as <-.
  destruct (apply_update_join _ _ _ _ Hup) as (Hids & Hps & Hat & Hrest).
  destruct Hfm as (Hsplit & _ & _).
  exists before, after, campaign', campaign_id,
         (snapshot_doc env campaign_id input_data original_char),
         (player_doc env input_data characterName).
  repeat split; assumption.
Qed.

(** The join of the sample session. *)
Lemma join_campaign_effects_witness :
  Mongo.find_one [("inviteCode", "ABCDEF")] (campaigns db_created)
    = Some exam_campaign /\
  found_by_own_id (campaigns db_created) exam_campaign /\
  join_campaign (fixed_env "CC1" "t1") join_request db_created
    = (db_joined, Return (join_body (fixed_env "CC1" "t1") "K1")) /\
  exists campaign' campaign_char,
    In campaign' (campaigns db_joined) /\
    get "playerIds" campaign' = Some (JArr [JStr "U1"]) /\
    campaign_characters db_joined = [campaign_char] /\
    get "data" campaign_char = Some (JObj gon).
Proof.
  assert (Hown : found_by_own_id (campaigns db_created) exam_campaign).
  { intros s Hid. injection Hid as <-. reflexivity. }
  split; [reflexivity |]. split; [exact Hown |]. split; [reflexivity |].
  destruct (@join_campaign_effects (fixed_env "CC1" "t1") join_request db_created
              db_joined (join_body (fixed_env "CC1" "t1") "K1") exam_campaign gon
              eq_refl Hown eq_refl eq_refl)
    as (before & after & campaign' & campaign_id & campaign_char & new_player
        & _ & Hcs & _ & Hcc & Hsnap & _ & _ & Hids & _).
  exists campaign', campaign_char. repeat split.
  - rewrite Hcs. apply in_elt.
  - exact Hids.
  - exact Hcc.
  - apply Hsnap.
Defined.

(** ** Snapshots are independent *)

(** C2. A snapshot and its source do not follow each other: whatever its
    payload and its outcome, [update_character] leaves every campaign
    character as it was, and [update_campaign_character] leaves every
    character as it was. *)
Theorem snapshot_independent_of_source (env : Env) (db : Db) :
  (forall character_id update_data,
     campaign_characters (fst (update_character env character_id update_data db))
       = campaign_characters db) /\
  (forall campaign_id character_id update_data,
     characters (fst (update_campaign_character env campaign_id character_id
                        update_data db))
       = characters db).
Proof.
  split.
  - intros character_id update_data.
    apply (footprint_update_character env character_id update_data db
             (c := CampaignCharacters)).
    simpl. intros [H | []]. discriminate.
  - intros campaign_id character_id update_data.
    apply (footprint_update_campaign_character env campaign_id character_id
             update_data db (c := Characters)).
    simpl. intros [H | []]. discriminate.
Qed.

(** ** The membership index *)

(** C3. In every database reached from one without campaigns by requests of
    the workflow, [playerIds] of every campaign is the list of the
    [odiserId]s of its [players], element for element and in the same
    order. *)
Theorem playerIds_index_of_players (db : Db) :
  reachable db -> Forall membership_in_sync (campaigns db).
Proof.
  induction 1 as [db H0 | db db' Hr IH Hs].
  - rewrite H0. constructor.
  - destruct Hs.
    + now apply sync_create_campaign.
    + now apply sync_join_campaign.
    + now apply sync_leave_campaign.
    + now apply sync_delete_campaign.
    + now apply sync_update_character.
    + now apply sync_update_campaign_character.
Qed.

(** The sample session, after the join. *)
Lemma playerIds_index_of_players_witness :
  reachable db_joined /\ Forall membership_in_sync (campaigns db_joined).
Proof.
  assert (Hr : reachable db_joined).
  { apply reachable_step with (db := db_created).
    - apply reachable_step with (db := db_start).
      + apply reachable_start. reflexivity.
      + apply step_create_campaign.
    - apply step_join_campaign. }
  split; [exact Hr |]. exact (playerIds_index_of_players Hr).
Defined.

(** ** Refused joins *)

(** C4, as stated, fails in its last sentence: in [db_twins], where a
    campaign stored before the one found shares its id, the first join has
    added the user to that other campaign, the campaign found has no member
    still, and a second join with the same invite code and user returns
    again. *)
Lemma join_campaign_twice_returns :
  exists db1 body1 db2 body2 other,
    join_campaign (fixed_env "CC1" "t2") twin_request db_twins
      = (db1, Return body1) /\
    join_campaign (fixed_env "CC2" "t3") twin_request db1 = (db2, Return body2) /\
    Mongo.find_one [("inviteCode", "ABCDEF")] (campaigns db2) = Some other /\
    get "playerIds" other = Some (JArr [JStr "U1"; JStr "U1"]).
Proof.
  do 5 eexists.
  split; [reflexivity |]. split; [reflexivity |]. split; reflexivity.
Qed.

(** C4, amended. [join_campaign] checks in this order, raises at the first
    check that applies and writes nothing then: no campaign has the invite
    code (404); the user is the master of the campaign (400); the user is
    already in [playerIds] (400); the source character does not exist
    (404).  Each case assumes only that the checks before it pass, whatever
    the later ones would say.  After a join that returned, a second join
    with the same invite code and user stops at the third check, when the
    campaign the invite code finds is the one its own id finds. *)
Theorem join_campaign_failure_order (env : Env)
    (input_data : JoinCampaignRequest.t) (db : Db) :
  (Mongo.find_one [("inviteCode", JoinCampaignRequest.inviteCode input_data)]
     (campaigns db) = None ->
   join_campaign env input_data db
     = (db, Raise (HTTPException 404 "Invalid invite code"))) /\
  (forall campaign,
     Mongo.find_one [("inviteCode", JoinCampaignRequest.inviteCode input_data)]
       (campaigns db) = Some campaign ->
     get "masterId" campaign = Some (JStr (JoinCampaignRequest.odiserId input_data)) ->
     join_campaign env input_data db
       = (db, Raise (HTTPException 400 "You are the master of this campaign"))) /\
  (forall campaign stored ids,
     Mongo.find_one [("inviteCode", JoinCampaignRequest.inviteCode input_data)]
       (campaigns db) = Some campaign ->
     get "masterId" campaign = Some stored ->
     stored <> JStr (JoinCampaignRequest.odiserId input_data) ->
     get_default "playerIds" (JArr []) campaign = JArr ids ->
     In (JStr (JoinCampaignRequest.odiserId input_data)) ids ->
     join_campaign env input_data db
       = (db, Raise (HTTPException 400 "You are already in this campaign"))) /\
  (forall campaign stored ids,
     Mongo.find_one [("inviteCode", JoinCampaignRequest.inviteCode input_data)]
       (campaigns db) = Some campaign ->
     get "masterId" campaign = Some stored ->
     stored <> JStr (JoinCampaignRequest.odiserId input_data) ->
     get_default "playerIds" (JArr []) campaign = JArr ids ->
     ~ In (JStr (JoinCampaignRequest.odiserId input_data)) ids ->
     Mongo.find_one [("id", JoinCampaignRequest.characterId input_data)]
       (characters db) = None ->
     join_campaign env input_data db
       = (db, Raise (HTTPException 404 "Character not found"))) /\
  (forall campaign db' body env2 input_data2,
     Mongo.find_one [("inviteCode", JoinCampaignRequest.inviteCode input_data)]
       (campaigns db) = Some campaign ->
     found_by_own_id (campaigns db) campaign ->
     join_campaign env input_data db = (db', Return body) ->
     JoinCampaignRequest.inviteCode input_data2
       = JoinCampaignRequest.inviteCode input_data ->
     JoinCampaignRequest.odiserId input_data2
       = JoinCampaignRequest.odiserId input_data ->
     join_campaign env2 input_data2 db'
       = (db', Raise (HTTPException 400 "You are already in this campaign"))).
Proof.
  repeat split.
  - intros Hc. unfold join_campaign, bind, db_find_one. cbn [the_coll].
    now rewrite Hc.
  - intros campaign Hc Hm.
    unfold join_campaign, bind, db_find_one. cbn [the_coll]. rewrite Hc.
    destruct campaign as [| f0 rest0]; [discriminate |].
    cbn [or_404 ret]. unfold getitem. rewrite Hm. cbn [ret is_str].
    now rewrite String.eqb_refl.
  - intros campaign stored ids Hc Hm Hne Hids Hin.
    unfold join_campaign, bind, db_find_one. cbn [the_coll]. rewrite Hc.
    destruct campaign as [| f0 rest0]; [discriminate |].
    cbn [or_404 ret]. unfold getitem. rewrite Hm. cbn [ret].
    apply is_str_false in Hne. rewrite Hne, Hids. cbn [py_in ret].
    apply existsb_is_str in Hin. now rewrite Hin.
  - intros campaign stored ids Hc Hm Hne Hids Hin Hch.
    unfold join_campaign, bind, db_find_one. cbn [the_coll]. rewrite Hc.
    destruct campaign as [| f0 rest0]; [discriminate |].
    cbn [or_404 ret]. unfold getitem at 1. rewrite Hm. cbn [ret].
    apply is_str_false in Hne. rewrite Hne, Hids. cbn [py_in ret].
    destruct (existsb (is_str (JoinCampaignRequest.odiserId input_data)) ids) eqn:E.
    + apply existsb_is_str in E. contradiction.
    + now rewrite Hch.
  - intros campaign0 db' body env2 input_data2 Hc0 Hown Hrun Hcode Huser.
    assert (Hown' : forall campaign1,
              Mongo.find_one
                [("inviteCode", JoinCampaignRequest.inviteCode input_data)]
                (campaigns db) = Some campaign1 ->
              found_by_own_id (campaigns db) campaign1).
    { intros campaign1 Hc1. rewrite Hc0 in Hc1. now injection Hc1 as <-. }
    destruct (join_campaign_run _ _ _ Hown' Hrun)
      as (before & campaign & after & original_char & stored & campaign_id
          & characterName & campaign' & Hfm & _ & Hm & Hs & _ & Hup & -> & _).
    destruct (apply_update_join _ _ _ _ Hup) as (Hids & _ & _ & Hrest).
    assert (Hfm' : first_match
                     [("inviteCode", JoinCampaignRequest.inviteCode input_data)]
                     (before ++ campaign' :: after) before campaign' after).
    { destruct Hfm as (_ & Hmatch & Hbefore).
      split; [reflexivity |]. split; [| exact Hbefore].
      rewrite (@matches_ext _ campaign campaign'); [exact Hmatch |].
      simpl. intros k [<- | []]. apply Hrest; discriminate. }
    unfold join_campaign, bind, db_find_one. cbn [the_coll campaigns].
    rewrite Hcode, Huser, (first_match_find_one Hfm').
    destruct campaign' as [| f0 rest0]; [discriminate |].
    cbn [or_404 ret]. unfold getitem.
    rewrite (Hrest "masterId"), Hm by discriminate. cbn [ret].
    rewrite Hs. unfold get_default. rewrite Hids. cbn [py_in ret].
    rewrite existsb_app. simpl. rewrite String.eqb_refl.
    now rewrite orb_true_r.
Qed.

(** Each refusal in the sample session. *)
Lemma join_campaign_failure_order_witness :
  join_campaign (fixed_env "CC1" "t1") join_request db_start
    = (db_start, Raise (HTTPException 404 "Invalid invite code")) /\
  join_campaign (fixed_env "CC1" "t1")
      (JoinCampaignRequest.make "ABCDEF" "M1" "Netero" "netero@hunters.org" "C1") db_created
    = (db_created, Raise (HTTPException 400 "You are the master of this campaign")) /\
  join_campaign (fixed_env "CC2" "t2") join_request db_joined
    = (db_joined, Raise (HTTPException 400 "You are already in this campaign")) /\
  join_campaign (fixed_env "CC1" "t1")
      (JoinCampaignRequest.make "ABCDEF" "U1" "Gon" "gon@whale.island" "C9") db_created
    = (db_created, Raise (HTTPException 404 "Character not found")) /\
  join_campaign (fixed_env "CC3" "t3")
      (JoinCampaignRequest.make "ABCDEF" "U1" "Gon" "gon@whale.island" "C9") db_joined
    = (db_joined, Raise (HTTPException 400 "You are already in this campaign")).
Proof.
  split; [| split; [| split; [| split]]].
  - apply (proj1 (join_campaign_failure_order (fixed_env "CC1" "t1") join_request
                    db_start)).
    reflexivity.
  - apply (proj1 (proj2 (join_campaign_failure_order (fixed_env "CC1" "t1")
                           (JoinCampaignRequest.make "ABCDEF" "M1" "Netero" "netero@hunters.org" "C1")
                           db_created))
             exam_campaign); reflexivity.
  - destruct (join_campaign_failure_order (fixed_env "CC2" "t2") join_request
                db_joined) as (_ & _ & H & _).
    eapply H.
    + reflexivity.
    + reflexivity.
    + discriminate.
    + reflexivity.
    + simpl. auto.
  - destruct (join_campaign_failure_order (fixed_env "CC1" "t1")
                (JoinCampaignRequest.make "ABCDEF" "U1" "Gon" "gon@whale.island" "C9")
                db_created) as (_ & _ & _ & H & _).
    eapply H.
    + reflexivity.
    + reflexivity.
    + discriminate.
    + reflexivity.
    + simpl. tauto.
    + reflexivity.
  - destruct (join_campaign_failure_order (fixed_env "CC1" "t1") join_request
                db_created) as (_ & _ & _ & _ & H).
    apply (H exam_campaign db_joined (join_body (fixed_env "CC1" "t1") "K1")).
    + reflexivity.
    + intros s Hid. injection Hid as <-. reflexivity.
    + reflexivity.
    + reflexivity.
    + reflexivity.
Defined.

(** ** Updating a campaign character *)

(** C5, as stated, fails twice.  The stored [data] is not exactly the
    supplied map, it also carries the timestamp the handler writes into the
    payload first.  And a map the driver cannot encode, here one with an
    integer of more than eight bytes, replaces nothing: the driver raises
    and the campaign character is as it was. *)
Lemma update_campaign_character_data_differs :
  (exists char',
     Mongo.find_one [("id", "CC1"); ("campaignId", "K1")]
       (campaign_characters
          (fst (update_campaign_character (fixed_env "-" "t2") "K1" "CC1"
                  [("name", JStr "Killua")] db_joined)))
       = Some char' /\
     get "data" char'
       = Some (JObj [("name", JStr "Killua"); ("updatedAt", JStr "t2")]) /\
     get "data" char' <> Some (JObj [("name", JStr "Killua")])) /\
  (exists char,
     Mongo.find_one [("id", "CC1"); ("campaignId", "K1")]
       (campaign_characters db_joined) = Some char /\
     update_campaign_character (fixed_env "-" "t2") "K1" "CC1"
       [("xp", JInt too_big)] db_joined
       = (db_joined, Raise OverflowError)).
Proof.
  split.
  - eexists. split; [reflexivity |]. split; [reflexivity |]. discriminate.
  - eexists. split; reflexivity.
Qed.

(** C5, amended. The handler stamps the supplied map with [updatedAt] and
    hands it to the driver.  When the driver can encode the stamped map
    (every integer in eight bytes, no NUL character in a key), the first
    campaign character with the given id and campaign id has the whole of
    its [data] replaced by the stamped map (nothing of the former [data] is
    merged in) and its own [updatedAt] set to a fresh timestamp, its other
    fields, the other campaign characters and the other collections staying
    as they were; and when no campaign character has both ids the handler
    raises 404 and writes nothing.  When the driver cannot encode the
    stamped map, its error is raised and nothing is written. *)
Theorem update_campaign_character_replaces_data (env : Env)
    (campaign_id character_id : string) (update_data : doc) (db : Db) :
  (storable (stamped (utcnow env 0) update_data) ->
   (forall char,
      Mongo.find_one [("id", character_id); ("campaignId", campaign_id)]
        (campaign_characters db) = Some char ->
      exists before after char',
        campaign_characters db = before ++ char :: after /\
        update_campaign_character env campaign_id character_id update_data db
          = (with_coll CampaignCharacters (before ++ char' :: after) db,
             Return (json_of_found
                       (Mongo.find_one [("id", character_id)]
                          (before ++ char' :: after)))) /\
        get "data" char' = Some (JObj (stamped (utcnow env 0) update_data)) /\
        get "updatedAt" char' = Some (JStr (utcnow env 1)) /\
        (forall k, k <> "data" -> k <> "updatedAt" -> get k char' = get k char)) /\
   (Mongo.find_one [("id", character_id); ("campaignId", campaign_id)]
      (campaign_characters db) = None ->
    update_campaign_character env campaign_id character_id update_data db
      = (db, Raise (HTTPException 404 "Campaign character not found")))) /\
  (forall e,
     Bson.encode_error (JObj (stamped (utcnow env 0) update_data)) = Some e ->
     (e = OverflowError \/ e = InvalidDocument) /\
     update_campaign_character env campaign_id character_id update_data db
       = (db, Raise e)).
Proof.
  split.
  - intros Henc.
    assert (Hsent : Bson.update_error
                      [ Mongo.Set_ "data" (JObj (stamped (utcnow env 0) update_data));
                        Mongo.Set_ "updatedAt" (JStr (utcnow env 1)) ] = None).
    { rewrite update_error_data. exact Henc. }
    split.
    + intros char Hc.
      destruct (find_one_first_match _ _ Hc) as (before & after & Hfm).
      exists before, after,
        (dict_set "updatedAt" (JStr (utcnow env 1))
           (dict_set "data" (JObj (stamped (utcnow env 0) update_data)) char)).
      split; [apply Hfm |]. split.
      * unfold update_campaign_character, bind.
        fold (stamped (utcnow env 0) update_data).
        rewrite (db_update_one_sent _ _ _ _ Hsent).
        unfold Mongo.update_one. cbn [the_coll]. rewrite update_ok_data.
        rewrite (update_first_first_match _ Hfm), apply_update_data.
        reflexivity.
      * split; [| split].
        -- rewrite get_dict_set_other by discriminate. apply get_dict_set_same.
        -- apply get_dict_set_same.
        -- intros k K1 K2. rewrite !get_dict_set_other by congruence. reflexivity.
    + intros Hc.
      unfold update_campaign_character, bind.
      fold (stamped (utcnow env 0) update_data).
      rewrite (db_update_one_sent _ _ _ _ Hsent).
      unfold Mongo.update_one. cbn [the_coll].
      rewrite update_ok_data, (@update_first_no_match _ _ _ Hc).
      cbn [Nat.eqb]. unfold raise. destruct db; reflexivity.
  - intros e Henc. split; [exact (encode_error_kind _ Henc) |].
    unfold update_campaign_character, bind.
    fold (stamped (utcnow env 0) update_data).
    rewrite (@db_update_one_refused _ _ _ _ e); [reflexivity |].
    rewrite update_error_data. exact Henc.
Qed.

(** An update of the snapshot of the sample session, one of a campaign
    character that does not exist, and one whose payload holds an integer
    of more than eight bytes. *)
Lemma update_campaign_character_replaces_data_witness :
  storable (stamped "t2" [("name", JStr "Killua")]) /\
  (exists char,
     Mongo.find_one [("id", "CC1"); ("campaignId", "K1")]
       (campaign_characters db_joined) = Some char /\
     exists char',
       In char'
          (campaign_characters
             (fst (update_campaign_character (fixed_env "-" "t2") "K1" "CC1"
                     [("name", JStr "Killua")] db_joined))) /\
       get "data" char'
         = Some (JObj [("name", JStr "Killua"); ("updatedAt", JStr "t2")])) /\
  update_campaign_character (fixed_env "-" "t2") "K1" "CC9"
      [("name", JStr "Killua")] db_joined
    = (db_joined, Raise (HTTPException 404 "Campaign character not found")) /\
  Bson.encode_error (JObj (stamped "t2" [("xp", JInt too_big)]))
    = Some OverflowError /\
  update_campaign_character (fixed_env "-" "t2") "K1" "CC1"
      [("xp", JInt too_big)] db_joined
    = (db_joined, Raise OverflowError).
Proof.
  destruct (update_campaign_character_replaces_data (fixed_env "-" "t2") "K1" "CC1"
              [("name", JStr "Killua")] db_joined) as [H _].
  destruct (update_campaign_character_replaces_data (fixed_env "-" "t2") "K1" "CC9"
              [("name", JStr "Killua")] db_joined) as [H' _].
  destruct (update_campaign_character_replaces_data (fixed_env "-" "t2") "K1" "CC1"
              [("xp", JInt too_big)] db_joined) as [_ H''].
  split; [reflexivity |].
  split; [| split; [apply (H' eq_refl); reflexivity | split; [reflexivity |]]].
  - eexists. split; [reflexivity |].
    destruct (proj1 (H eq_refl) _ eq_refl)
      as (before & after & char' & _ & Hrun & Hdata & _).
    exists char'. split; [| exact Hdata].
    rewrite Hrun. cbn [fst campaign_characters with_coll]. apply in_elt.
  - apply (H'' OverflowError). reflexivity.
Defined.

(** ** Player statistics *)

(** C6, as stated, fails twice.  Of 101 campaign characters of a campaign
    only 100 are summarised.  And a campaign character whose
    [data.resources] is an array, as an update of the snapshot can store
    it, yields no summary: the handler raises. *)
Lemma get_player_stats_capped :
  (Mongo.count_documents [("campaignId", "K1")] (campaign_characters crowded_db)
     = 101%nat /\
   exists stats,
     get_player_stats "K1" crowded_db = (crowded_db, Return (JArr stats)) /\
     List.length stats = 100%nat) /\
  (Mongo.count_documents [("campaignId", "K1")] (campaign_characters db_array_sheet)
     = 1%nat /\
   get_player_stats "K1" db_array_sheet = (db_array_sheet, Raise AttributeError)).
Proof.
  split.
  - split; [reflexivity |].
    eexists. split; [vm_compute; reflexivity | reflexivity].
  - split; reflexivity.
Qed.

(** C6, amended. [get_player_stats] reads at most 100 campaign characters of
    the campaign, in the order of the store, and writes nothing.  It
    returns one summary for each of them, so [min 100 N] summaries for [N]
    campaign characters: the user id, the campaign character id, the
    character name, [pv], [pa] and [updatedAt], with ["Unknown"] for a
    missing name and [{current: 0, max: 0}] for a missing [pv]; a [data] or
    a [data.resources] that is absent or a scalar counts as empty.  Only
    when [data] or [data.resources] of one of those read is an array does
    the handler raise instead ([AttributeError]). *)
Theorem get_player_stats_summaries (campaign_id : string) (db : Db) :
  fst (get_player_stats campaign_id db) = db /\
  (Forall (fun char => summarised char = true)
     (firstn 100 (Mongo.find [("campaignId", campaign_id)] (campaign_characters db))) ->
   exists stats,
     get_player_stats campaign_id db = (db, Return (JArr stats)) /\
     stats = map (fun char => JObj (summary_of char))
               (firstn 100 (Mongo.find [("campaignId", campaign_id)]
                              (campaign_characters db))) /\
     List.length stats
       = Nat.min 100 (Mongo.count_documents [("campaignId", campaign_id)]
                        (campaign_characters db)) /\
     (forall char, get "name" (data_of char) = None ->
        get "characterName" (summary_of char) = Some (JStr "Unknown")) /\
     (forall char, get "pv" (resources_of char) = None ->
        get "pv" (summary_of char) = Some zero_resource)) /\
  (Exists (fun char => summarised char = false)
     (firstn 100 (Mongo.find [("campaignId", campaign_id)] (campaign_characters db))) ->
   get_player_stats campaign_id db = (db, Raise AttributeError)).
Proof.
  split; [| split].
  - destruct (pure_get_player_stats campaign_id db) as [o ->]. reflexivity.
  - intros H. eexists. split; [| split; [reflexivity | split; [| split]]].
    + unfold get_player_stats, bind, db_find. cbn [the_coll].
      rewrite List.firstn_map, (@player_stats_loop_projected _ [] db H).
      reflexivity.
    + rewrite List.length_map, List.length_firstn. reflexivity.
    + intros char Hn. unfold summary_of, get_default. rewrite Hn. reflexivity.
    + intros char Hn. unfold summary_of, get_default. rewrite Hn. reflexivity.
  - intros H. unfold get_player_stats, bind, db_find. cbn [the_coll].
    rewrite List.firstn_map, (@player_stats_loop_raises _ [] db H).
    reflexivity.
Qed.

(** The statistics of the sample session; those of a campaign whose three
    campaign characters hold a sheet without name or resources, a sheet
    whose [resources] is a string, and a [data] that is a number; and
    those of the sample session after an update has stored an array under
    [resources]. *)
Lemma get_player_stats_summaries_witness :
  get_player_stats "K1" db_joined
    = (db_joined,
       Return (JArr [JObj [ ("odiserId", JStr "U1");
                            ("characterId", JStr "CC1");
                            ("characterName", JStr "Gon");
                            ("pv", JObj [("current", JInt 12); ("max", JInt 15)]);
                            ("pa", zero_resource);
                            ("updatedAt", JStr "t1") ]])) /\
  (exists stats,
     get_player_stats "K1" db_sheets = (db_sheets, Return (JArr stats)) /\
     map (fun entry => match entry with
                       | JObj d => (get "characterName" d, get "pv" d)
                       | _ => (None, None)
                       end) stats
       = [ (Some (JStr "Unknown"), Some zero_resource);
           (Some (JStr "Leorio"), Some zero_resource);
           (Some (JStr "Unknown"), Some zero_resource) ]) /\
  get_player_stats "K1" db_array_sheet = (db_array_sheet, Raise AttributeError).
Proof.
  split; [| split].
  - assert (H : Forall (fun char => summarised char = true)
                  (firstn 100 (Mongo.find [("campaignId", "K1")]
                                 (campaign_characters db_joined)))).
    { repeat constructor. }
    destruct (proj1 (proj2 (get_player_stats_summaries "K1" db_joined)) H)
      as (stats & Hrun & -> & _).
    exact Hrun.
  - assert (H : Forall (fun char => summarised char = true)
                  (firstn 100 (Mongo.find [("campaignId", "K1")]
                                 (campaign_characters db_sheets)))).
    { repeat constructor. }
    destruct (proj1 (proj2 (get_player_stats_summaries "K1" db_sheets)) H)
      as (stats & Hrun & -> & _).
    eexists. split; [exact Hrun | reflexivity].
  - apply (proj2 (proj2 (get_player_stats_summaries "K1" db_array_sheet))).
    apply Exists_cons_hd. reflexivity.
Defined.

(** ** Deleting a campaign *)

(** C7, as stated, fails: [delete_one] removes one campaign document.  In
    [db_twins] two campaigns carry the id ["K1"], the master of the first
    deletes it, and a campaign with that id is still there. *)
Lemma delete_campaign_leaves_twin :
  exists db',
    delete_campaign "K1" "M1" db_twins
      = (db', Return (message "Campaign deleted successfully")) /\
    Mongo.count_documents [("id", "K1")] (campaigns db_twins) = 2%nat /\
    Mongo.count_documents [("id", "K1")] (campaigns db') = 1%nat.
Proof. eexists. split; [reflexivity |]. split; reflexivity. Qed.

(** C7, amended. [delete_campaign] asked by the stored master deletes the
    first campaign document with the id and every campaign character,
    threat and campaign roll with that campaign id: afterwards no campaign
    character, threat or campaign roll matches, and one campaign fewer
    carries the id, so none when no other campaign shared it.  The four
    deletions are all made, however many documents each of them matches,
    and the characters and the character rolls are left as they were. *)
Theorem delete_campaign_cascade (campaign_id masterId : string) (db : Db)
    (campaign : doc) :
  Mongo.find_one [("id", campaign_id)] (campaigns db) = Some campaign ->
  get "masterId" campaign = Some (JStr masterId) ->
  exists db' before after,
    delete_campaign campaign_id masterId db
      = (db', Return (message "Campaign deleted successfully")) /\
    campaigns db = before ++ campaign :: after /\
    campaigns db' = before ++ after /\
    campaign_characters db'
      = Mongo.delete_many [("campaignId", campaign_id)] (campaign_characters db) /\
    threats db' = Mongo.delete_many [("campaignId", campaign_id)] (threats db) /\
    campaign_rolls db'
      = Mongo.delete_many [("campaignId", campaign_id)] (campaign_rolls db) /\
    S (Mongo.count_documents [("id", campaign_id)] (campaigns db'))
      = Mongo.count_documents [("id", campaign_id)] (campaigns db) /\
    (Mongo.count_documents [("id", campaign_id)] (campaigns db) = 1%nat ->
     Mongo.count_documents [("id", campaign_id)] (campaigns db') = 0%nat) /\
    Mongo.count_documents [("campaignId", campaign_id)] (campaign_characters db')
      = 0%nat /\
    Mongo.count_documents [("campaignId", campaign_id)] (threats db') = 0%nat /\
    Mongo.count_documents [("campaignId", campaign_id)] (campaign_rolls db')
      = 0%nat /\
    characters db' = characters db /\
    rolls db' = rolls db.
Proof.
  intros Hc Hm.
  destruct (find_one_first_match _ _ Hc) as (before & after & Hfm).
  exists (mkDb (characters db) (rolls db)
            (Mongo.delete_many [("campaignId", campaign_id)] (threats db))
            (before ++ after)
            (Mongo.delete_many [("campaignId", campaign_id)] (campaign_characters db))
            (Mongo.delete_many [("campaignId", campaign_id)] (campaign_rolls db))),
         before, after.
  split.
  - unfold delete_campaign, bind, db_find_one. cbn [the_coll]. rewrite Hc.
    destruct campaign as [| f0 rest0]; [discriminate |].
    cbn [or_404 ret]. unfold getitem. rewrite Hm. cbn [ret is_str].
    rewrite String.eqb_refl. cbn [negb].
    unfold db_delete_one. cbn [the_coll].
    rewrite (delete_one_first_match Hfm).
    reflexivity.
  - cbn [campaigns campaign_characters characters rolls threats campaign_rolls
           with_coll the_coll].
    destruct Hfm as (Hsplit & Hmatch & Hbefore).
    assert (Hcount : S (Mongo.count_documents [("id", campaign_id)] (before ++ after))
                     = Mongo.count_documents [("id", campaign_id)] (campaigns db)).
    { rewrite Hsplit. unfold Mongo.count_documents, Mongo.find.
      rewrite !List.filter_app, !List.length_app. cbn [List.filter].
      rewrite Hmatch. cbn [List.length]. lia. }
    repeat split; try apply count_after_delete_many; try exact Hsplit;
      try exact Hcount.
    intros Hone. rewrite Hone in Hcount. now injection Hcount.
Qed.

(** The master deletes the campaign of the sample session, and the first of
    the two campaigns that share an id. *)
Lemma delete_campaign_cascade_witness :
  (exists db',
     delete_campaign "K1" "M1" db_joined
       = (db', Return (message "Campaign deleted successfully")) /\
     Mongo.count_documents [("id", "K1")] (campaigns db_joined) = 1%nat /\
     Mongo.count_documents [("id", "K1")] (campaigns db') = 0%nat /\
     Mongo.count_documents [("campaignId", "K1")] (campaign_characters db_joined)
       = 1%nat /\
     Mongo.count_documents [("campaignId", "K1")] (campaign_characters db') = 0%nat) /\
  (exists db',
     delete_campaign "K1" "M1" db_twins
       = (db', Return (message "Campaign deleted successfully")) /\
     S (Mongo.count_documents [("id", "K1")] (campaigns db')) = 2%nat).
Proof.
  split.
  - destruct (@delete_campaign_cascade "K1" "M1" db_joined _ eq_refl eq_refl)
      as (db' & before & after & Hrun & _ & _ & _ & _ & _ & _ & H1 & H2 & _).
    exists db'. repeat split; try assumption. now apply H1.
  - destruct (@delete_campaign_cascade "K1" "M1" db_twins _ eq_refl eq_refl)
      as (db' & before & after & Hrun & _ & _ & _ & _ & _ & H1 & _).
    exists db'. split; [exact Hrun | exact H1].
Defined.

(** ** Deleting as a stranger *)

(** C8. [delete_campaign] asked by anyone but the stored master raises 403
    and leaves the database, so the campaign, its threats, its campaign
    characters and its rolls, as it was. *)
Theorem delete_campaign_forbidden (campaign_id requesterId : string) (db : Db)
    (campaign : doc) (stored : json) :
  Mongo.find_one [("id", campaign_id)] (campaigns db) = Some campaign ->
  get "masterId" campaign = Some stored ->
  stored <> JStr requesterId ->
  delete_campaign campaign_id requesterId db
    = (db, Raise (HTTPException 403 "Only the master can delete the campaign")).
Proof.
  intros Hc Hm Hne.
  unfold delete_campaign, bind, db_find_one. cbn [the_coll]. rewrite Hc.
  destruct campaign as [| f0 rest0]; [discriminate |].
  cbn [or_404 ret]. unfold getitem. rewrite Hm. cbn [ret].
  apply is_str_false in Hne. now rewrite Hne.
Qed.

(** The player of the sample session tries to delete the campaign. *)
Lemma delete_campaign_forbidden_witness :
  delete_campaign "K1" "U1" db_joined
    = (db_joined, Raise (HTTPException 403 "Only the master can delete the campaign")).
Proof.
  eapply delete_campaign_forbidden.
  - reflexivity.
  - reflexivity.
  - discriminate.
Defined.

(** ** Refused leaves *)

(** C9. [leave_campaign] asked by the master of the campaign raises 400, and
    asked for a campaign that does not exist raises 404; in both cases the
    database is left as it was. *)
Theorem leave_campaign_refused (env : Env) (campaign_id userId : string) (db : Db) :
  (forall campaign,
     Mongo.find_one [("id", campaign_id)] (campaigns db) = Some campaign ->
     get "masterId" campaign = Some (JStr userId) ->
     leave_campaign env campaign_id userId db
       = (db, Raise (HTTPException 400 "Master cannot leave the campaign"))) /\
  (Mongo.find_one [("id", campaign_id)] (campaigns db) = None ->
   leave_campaign env campaign_id userId db
     = (db, Raise (HTTPException 404 "Campaign not found"))).
Proof.
  split.
  - intros campaign Hc Hm.
    unfold leave_campaign, bind, db_find_one. cbn [the_coll]. rewrite Hc.
    destruct campaign as [| f0 rest0]; [discriminate |].
    cbn [or_404 ret]. unfold getitem. rewrite Hm. cbn [ret is_str].
    now rewrite String.eqb_refl.
  - intros Hc.
    unfold leave_campaign, bind, db_find_one. cbn [the_coll]. now rewrite Hc.
Qed.

(** The master tries to leave the campaign of the sample session, and a
    campaign that does not exist. *)
Lemma leave_campaign_refused_witness :
  leave_campaign (fixed_env "-" "t2") "K1" "M1" db_joined
    = (db_joined, Raise (HTTPException 400 "Master cannot leave the campaign")) /\
  leave_campaign (fixed_env "-" "t2") "K9" "M1" db_joined
    = (db_joined, Raise (HTTPException 404 "Campaign not found")).
Proof.
  split.
  - eapply (proj1 (leave_campaign_refused (fixed_env "-" "t2") "K1" "M1" db_joined));
      reflexivity.
  - apply (proj2 (leave_campaign_refused (fixed_env "-" "t2") "K9" "M1" db_joined)).
    reflexivity.
Defined.

(** ** Leaving as a stranger *)

(** C10, as stated, fails twice.  A user who is neither the master nor in
    the membership may still own a campaign character of the campaign, the
    one a join has inserted before its second write, and leaving deletes
    it.  And in a campaign whose [playerIds] an [update_campaign] has
    overwritten with a string, the leave of such a user does not succeed:
    the store refuses the [$pull]. *)
Lemma leave_campaign_deletes_orphan :
  (Mongo.find_one [("id", "K1")] (campaigns orphan_db) = Some exam_campaign /\
   get "masterId" exam_campaign = Some (JStr "M1") /\
   get "players" exam_campaign = Some (JArr []) /\
   get "playerIds" exam_campaign = Some (JArr []) /\
   snd (leave_campaign (fixed_env "-" "t2") "K1" "U1" orphan_db)
     = Return (message "Left campaign successfully") /\
   List.length (campaign_characters orphan_db) = 1%nat /\
   campaign_characters
     (fst (leave_campaign (fixed_env "-" "t2") "K1" "U1" orphan_db)) = []) /\
  (exists campaign,
     Mongo.find_one [("id", "K1")] (campaigns db_overwritten) = Some campaign /\
     get "masterId" campaign = Some (JStr "M1") /\
     get "playerIds" campaign = Some (JStr "nobody") /\
     member_of "U2" campaign = false /\
     leave_campaign (fixed_env "-" "t3") "K1" "U2" db_overwritten
       = (db_overwritten, Raise WriteError)).
Proof.
  split; [repeat split |].
  eexists. split; [reflexivity |]. repeat split.
Qed.

(** C10, amended. For a user who is neither the master of an existing
    campaign nor in its membership, [leave_campaign] returns its success
    message, leaves [players] and [playerIds] as they were and sets the
    campaign's [updatedAt] to a fresh timestamp, when [players] and
    [playerIds] are lists or absent.  It deletes the campaign characters
    the user owns in the campaign and no other, so none when the user owns
    none.  When [players] or [playerIds] is stored and is not a list, the
    store refuses the update: the handler raises and nothing is written. *)
Theorem leave_campaign_non_member (env : Env) (campaign_id userId : string)
    (db : Db) (campaign : doc) (stored : json) :
  Mongo.find_one [("id", campaign_id)] (campaigns db) = Some campaign ->
  get "masterId" campaign = Some stored ->
  stored <> JStr userId ->
  (list_or_absent "playerIds" campaign ->
   list_or_absent "players" campaign ->
   member_of userId campaign = false ->
   exists db' before after campaign',
     leave_campaign env campaign_id userId db
       = (db', Return (message "Left campaign successfully")) /\
     campaigns db = before ++ campaign :: after /\
     campaigns db' = before ++ campaign' :: after /\
     get "players" campaign' = get "players" campaign /\
     get "playerIds" campaign' = get "playerIds" campaign /\
     get "updatedAt" campaign' = Some (JStr (utcnow env 0)) /\
     (forall k, k <> "playerIds" -> k <> "players" -> k <> "updatedAt" ->
                get k campaign' = get k campaign) /\
     campaign_characters db'
       = Mongo.delete_many [("campaignId", campaign_id); ("odiserId", userId)]
           (campaign_characters db) /\
     (Mongo.find_one [("campaignId", campaign_id); ("odiserId", userId)]
        (campaign_characters db) = None ->
      campaign_characters db' = campaign_characters db) /\
     characters db' = characters db /\
     rolls db' = rolls db /\
     threats db' = threats db /\
     campaign_rolls db' = campaign_rolls db) /\
  (not_a_list "playerIds" campaign \/ not_a_list "players" campaign ->
   leave_campaign env campaign_id userId db = (db, Raise WriteError)).
Proof.
  intros Hc Hm Hne.
  destruct (find_one_first_match _ _ Hc) as (before & after & Hfm).
  assert (Hrun : leave_campaign env campaign_id userId db
                 = match Mongo.apply_update
                           (leave_update userId (JStr (utcnow env 0))) campaign with
                   | Some campaign' =>
                       (with_coll CampaignCharacters
                          (Mongo.delete_many
                             [("campaignId", campaign_id); ("odiserId", userId)]
                             (campaign_characters db))
                          (with_coll Campaigns (before ++ campaign' :: after) db),
                        Return (message "Left campaign successfully"))
                   | None => (db, Raise WriteError)
                   end).
  { unfold leave_campaign, bind, db_find_one. cbn [the_coll]. rewrite Hc.
    destruct campaign as [| f0 rest0]; [discriminate |].
    cbn [or_404 ret]. unfold getitem. rewrite Hm. cbn [ret].
    apply is_str_false in Hne. rewrite Hne.
    fold (leave_update userId (JStr (utcnow env 0))).
    rewrite (db_update_one_sent _ _ _ _ (update_error_leave _ _)).
    unfold Mongo.update_one. cbn [the_coll].
    rewrite update_ok_leave, (update_first_first_match _ Hfm).
    destruct (Mongo.apply_update (leave_update userId (JStr (utcnow env 0)))
                (f0 :: rest0)); reflexivity. }
  split.
  - intros Hl1 Hl2 Hmem.
    destruct (leave_update_defined userId (JStr (utcnow env 0)) Hl1 Hl2)
      as [campaign' Hup].
    destruct (apply_update_leave _ _ _ Hup)
      as (Hids & Hids0 & Hps & Hps0 & Hat & Hrest).
    apply orb_false_elim in Hmem as [Hmem1 Hmem2].
    rewrite Hup in Hrun.
    exists (with_coll CampaignCharacters
              (Mongo.delete_many [("campaignId", campaign_id); ("odiserId", userId)]
                 (campaign_characters db))
              (with_coll Campaigns (before ++ campaign' :: after) db)),
           before, after, campaign'.
    split; [exact Hrun |].
    cbn [campaigns campaign_characters characters rolls threats campaign_rolls
           with_coll the_coll].
    destruct Hfm as (Hsplit & _ & _).
    repeat split; try assumption.
    + destruct Hl2 as [E | [ps E]].
      * rewrite E. now apply Hps0.
      * rewrite E, (Hps _ E). do 2 f_equal. apply filter_all.
        unfold array_field in Hmem2. rewrite E in Hmem2.
        unfold kept_player. clear -Hmem2.
        induction ps as [| p rest IH]; simpl in *; [reflexivity |].
        apply orb_false_elim in Hmem2 as [-> H]. simpl. now apply IH.
    + destruct Hl1 as [E | [ids E]].
      * rewrite E. now apply Hids0.
      * rewrite E, (Hids _ E). do 2 f_equal. apply filter_all.
        unfold array_field in Hmem1. rewrite E in Hmem1.
        unfold kept_id. clear -Hmem1.
        induction ids as [| p rest IH]; simpl in *; [reflexivity |].
        apply orb_false_elim in Hmem1 as [-> H]. simpl. now apply IH.
    + intros Hnone. unfold Mongo.delete_many. apply filter_all.
      now apply find_one_none.
  - intros Hbad. rewrite Hrun.
    rewrite (leave_update_refused userId (JStr (utcnow env 0)) Hbad).
    reflexivity.
Qed.

(** A stranger leaves the campaign of the sample session, in which [U1] is a
    member and the stranger owns a leftover campaign character: the
    membership stays, the leftover is deleted and the snapshot of [U1]
    stays.  A stranger leaves a campaign whose [playerIds] is a string. *)
Lemma leave_campaign_non_member_witness :
  (exists campaign,
     Mongo.find_one [("id", "K1")] (campaigns db_stranger) = Some campaign /\
     get "playerIds" campaign = Some (JArr [JStr "U1"]) /\
     member_of "U2" campaign = false /\
     Mongo.count_documents [("campaignId", "K1"); ("odiserId", "U2")]
       (campaign_characters db_stranger) = 1%nat /\
     exists db' campaign',
       leave_campaign (fixed_env "-" "t3") "K1" "U2" db_stranger
         = (db', Return (message "Left campaign successfully")) /\
       campaigns db' = [campaign'] /\
       get "playerIds" campaign' = Some (JArr [JStr "U1"]) /\
       get "players" campaign' = get "players" campaign /\
       campaign_characters db' = campaign_characters db_joined) /\
  (exists campaign,
     Mongo.find_one [("id", "K1")] (campaigns db_overwritten) = Some campaign /\
     not_a_list "playerIds" campaign /\
     leave_campaign (fixed_env "-" "t3") "K1" "U2" db_overwritten
       = (db_overwritten, Raise WriteError)).
Proof.
  split.
  - eexists. split; [reflexivity |]. split; [reflexivity |].
    split; [reflexivity |]. split; [reflexivity |].
    destruct (@leave_campaign_non_member (fixed_env "-" "t3") "K1" "U2" db_stranger
                _ (JStr "M1") eq_refl eq_refl) as [H _]; [discriminate |].
    destruct H as (db' & before & after & campaign' & Hrun & Hsplit & Hcs & Hps
                   & Hids & _ & _ & Hcc & _).
    + right. eexists. reflexivity.
    + right. eexists. reflexivity.
    + reflexivity.
    + destruct before as [| x before]; [| destruct before; discriminate].
      injection Hsplit as <-.
      exists db', campaign'. split; [exact Hrun |]. split; [exact Hcs |].
      split; [exact Hids |]. split; [exact Hps |].
      rewrite Hcc. reflexivity.
  - assert (Hbad : not_a_list "playerIds"
                     (dict_set "updatedAt" (JStr "t1")
                        (dict_set "playerIds" (JStr "nobody") exam_campaign))).
    { eexists. split; [reflexivity | discriminate]. }
    eexists. split; [reflexivity |]. split; [exact Hbad |].
    destruct (@leave_campaign_non_member (fixed_env "-" "t3") "K1" "U2"
                db_overwritten _ (JStr "M1") eq_refl eq_refl) as [_ H];
      [discriminate |].
    apply H. left. exact Hbad.
Defined.

(** * The rest of the API *)

Unset Implicit Arguments.

(** ** Invite codes *)

Lemma list_ascii_of_string_of_chars (l : list ascii) :
  list_ascii_of_string (string_of_chars l) = l.
Proof. induction l as [| c rest IH]; simpl; [reflexivity | now rewrite IH]. Qed.

Lemma alphabet_get (n : nat) :
  (n < 36)%nat ->
  exists c, String.get n invite_alphabet = Some c /\
            In c (list_ascii_of_string invite_alphabet).
Proof.
  intros H.
  do 36 (destruct n as [| n];
         [eexists; split; [reflexivity | simpl; tauto] |]).
  lia.
Qed.

(** X1. An invite code is six characters long, each an upper-case letter or
    a digit, whatever [random.choices] draws. *)
Theorem generate_invite_code_shape (env : Env) :
  String.length (generate_invite_code env) = 6%nat /\
  Forall (fun c => In c (list_ascii_of_string invite_alphabet))
         (list_ascii_of_string (generate_invite_code env)).
Proof.
  unfold generate_invite_code. split; [reflexivity |].
  rewrite list_ascii_of_string_of_chars.
  apply Forall_forall. intros c Hc. apply in_map_iff in Hc as (k & <- & _).
  destruct (alphabet_get (randrange env k mod 36)) as (c & -> & Hin);
    [apply Nat.mod_upper_bound; lia | exact Hin].
Qed.

(** ** Created documents can be read back and deleted *)

Lemma find_one_app_old (q : Mongo.query) (coll more : list doc) (d : doc) :
  Mongo.find_one q coll = Some d -> Mongo.find_one q (coll ++ more) = Some d.
Proof.
  unfold Mongo.find_one.
  induction coll as [| x rest IH]; simpl; [discriminate |].
  destruct (Mongo.matches q x); auto.
Qed.

Lemma find_one_app_none (q : Mongo.query) (coll more : list doc) :
  Mongo.find_one q coll = None ->
  Mongo.find_one q (coll ++ more) = Mongo.find_one q more.
Proof.
  unfold Mongo.find_one.
  induction coll as [| x rest IH]; simpl; [reflexivity |].
  destruct (Mongo.matches q x); [discriminate | auto].
Qed.

Lemma find_one_app_fresh (q : Mongo.query) (coll : list doc) (d : doc) :
  Mongo.find_one q coll = None -> Mongo.matches q d = true ->
  Mongo.find_one q (coll ++ [d]) = Some d.
Proof.
  unfold Mongo.find_one. intros Hn Hm.
  induction coll as [| x rest IH]; simpl in *.
  - now rewrite Hm.
  - destruct (Mongo.matches q x); [discriminate | auto].
Qed.

Lemma delete_one_app_fresh (q : Mongo.query) (coll : list doc) (d : doc) :
  Mongo.find_one q coll = None -> Mongo.matches q d = true ->
  Mongo.delete_one q (coll ++ [d]) = (coll, 1%nat).
Proof.
  unfold Mongo.find_one. intros Hn Hm.
  induction coll as [| x rest IH]; simpl in *.
  - now rewrite Hm.
  - destruct (Mongo.matches q x); [discriminate |]. now rewrite (IH Hn).
Qed.

Lemma with_coll_same (c : collection) (db : Db) :
  with_coll c (the_coll c db) db = db.
Proof. destruct c, db; reflexivity. Qed.

Lemma the_coll_with_coll_same (c : collection) (l : list doc) (db : Db) :
  the_coll c (with_coll c l db) = l.
Proof. destruct c; reflexivity. Qed.

(** X2. A campaign created under a fresh id is stored last, has its creator
    as master and no member, is what [get_campaign] returns for that id,
    and hides none of the campaigns that were there. *)
Theorem create_campaign_then_get (env : Env) (input_data : CampaignCreate.t)
    (db : Db) :
  Mongo.find_one [("id", uuid4 env 0)] (campaigns db) = None ->
  exists db' campaign,
    create_campaign env input_data db = (db', Return (JObj campaign)) /\
    db' = with_coll Campaigns (campaigns db ++ [campaign]) db /\
    get "masterId" campaign = Some (JStr (CampaignCreate.masterId input_data)) /\
    get "inviteCode" campaign = Some (JStr (generate_invite_code env)) /\
    get "players" campaign = Some (JArr []) /\
    get "playerIds" campaign = Some (JArr []) /\
    get_campaign (uuid4 env 0) db' = (db', Return (JObj campaign)) /\
    (forall campaign_id, campaign_id <> uuid4 env 0 ->
       snd (get_campaign campaign_id db') = snd (get_campaign campaign_id db)).
Proof.
  intros Hfresh.
  exists (with_coll Campaigns
            (campaigns db ++ [Campaign env input_data (generate_invite_code env)]) db),
         (Campaign env input_data (generate_invite_code env)).
  repeat split.
  - unfold get_campaign, bind, db_find_one. cbn [the_coll with_coll campaigns].
    rewrite (find_one_app_fresh _ _ _ Hfresh); [reflexivity |].
    unfold Mongo.matches. simpl. now rewrite String.eqb_refl.
  - intros campaign_id Hne.
    unfold get_campaign, bind, db_find_one. cbn [the_coll with_coll campaigns].
    destruct (Mongo.find_one [("id", campaign_id)] (campaigns db)) as [c |] eqn:E.
    + rewrite (find_one_app_old _ _ _ _ E). destruct c; reflexivity.
    + assert (Hn : Mongo.find_one [("id", campaign_id)]
                     (campaigns db
                        ++ [Campaign env input_data (generate_invite_code env)])
                   = None).
      { rewrite (find_one_app_none _ _ _ E).
        unfold Mongo.find_one, Mongo.matches. simpl.
        destruct (String.eqb campaign_id (uuid4 env 0)) eqn:E'; [| reflexivity].
        apply String.eqb_eq in E'. contradiction. }
      now rewrite Hn.
Qed.

Lemma create_campaign_then_get_witness :
  Mongo.find_one [("id", "K1")] (campaigns db_start) = None /\
  get_campaign "K1" db_created = (db_created, Return (JObj exam_campaign)).
Proof.
  split; [reflexivity |].
  destruct (create_campaign_then_get (fixed_env "K1" "t0") exam db_start eq_refl)
    as (db' & campaign & Hrun & -> & _ & _ & _ & _ & Hget & _).
  injection Hrun as <-. exact Hget.
Defined.

(** X3. A character created under a fresh id is what [get_character]
    returns for that id, and deleting it gives back the database as it was
    before its creation. *)
Theorem create_character_then_get_and_delete (env : Env)
    (input_data : CharacterCreate.t) (db : Db) :
  Mongo.find_one [("id", uuid4 env 0)] (characters db) = None ->
  exists db' character,
    create_character env input_data db = (db', Return (JObj character)) /\
    get "name" character = Some (JStr (CharacterCreate.name input_data)) /\
    get_character (uuid4 env 0) db' = (db', Return (JObj character)) /\
    delete_character (uuid4 env 0) db'
      = (db, Return (message "Character deleted successfully")).
Proof.
  intros Hfresh.
  assert (Hm : Mongo.matches [("id", uuid4 env 0)] (Character env input_data) = true).
  { unfold Mongo.matches. simpl. now rewrite String.eqb_refl. }
  assert (Henc : storable (Character env input_data)).
  { destruct input_data as [name [userId |]]; reflexivity. }
  exists (with_coll Characters (characters db ++ [Character env input_data]) db),
         (Character env input_data).
  split.
  { unfold create_character, bind.
    now rewrite (db_insert_one_stored Characters _ db Henc). }
  repeat split.
  - unfold get_character, bind, db_find_one. cbn [the_coll with_coll characters].
    now rewrite (find_one_app_fresh _ _ _ Hfresh Hm).
  - unfold delete_character, bind, db_delete_one. cbn [the_coll with_coll characters].
    rewrite (delete_one_app_fresh _ _ _ Hfresh Hm). cbn [Nat.eqb].
    destruct db; reflexivity.
Qed.

Lemma create_character_then_get_and_delete_witness :
  Mongo.find_one [("id", "C2")] (characters db_start) = None /\
  exists db',
    fst (create_character (fixed_env "C2" "t0")
           (CharacterCreate.make "Killua" (Some "U2")) db_start) = db' /\
    delete_character "C2" db'
      = (db_start, Return (message "Character deleted successfully")).
Proof.
  split; [reflexivity |].
  destruct (create_character_then_get_and_delete (fixed_env "C2" "t0")
              (CharacterCreate.make "Killua" (Some "U2")) db_start eq_refl)
    as (db' & character & Hrun & _ & _ & Hdel).
  exists db'. split; [now rewrite Hrun | exact Hdel].
Defined.

(** X4. A threat created under a fresh id belongs to the campaign named in
    the request, whether or not that campaign exists, is what [get_threat]
    returns for that id, and deleting it gives back the database as it
    was. *)
Theorem create_threat_then_get_and_delete (env : Env)
    (input_data : ThreatCreate.t) (db : Db) :
  Mongo.find_one [("id", uuid4 env 0)] (threats db) = None ->
  exists db' threat,
    create_threat env input_data db = (db', Return (JObj threat)) /\
    get "campaignId" threat = Some (JStr (ThreatCreate.campaignId input_data)) /\
    get_threat (uuid4 env 0) db' = (db', Return (JObj threat)) /\
    delete_threat (uuid4 env 0) db'
      = (db, Return (message "Threat deleted successfully")).
Proof.
  intros Hfresh.
  assert (Hm : Mongo.matches [("id", uuid4 env 0)] (Threat env input_data) = true).
  { unfold Mongo.matches. simpl. now rewrite String.eqb_refl. }
  exists (with_coll Threats (threats db ++ [Threat env input_data]) db),
         (Threat env input_data).
  repeat split.
  - unfold get_threat, bind, db_find_one. cbn [the_coll with_coll threats].
    now rewrite (find_one_app_fresh _ _ _ Hfresh Hm).
  - unfold delete_threat, bind, db_delete_one. cbn [the_coll with_coll threats].
    rewrite (delete_one_app_fresh _ _ _ Hfresh Hm). cbn [Nat.eqb].
    destruct db; reflexivity.
Qed.

Lemma create_threat_then_get_and_delete_witness :
  Mongo.find_one [("id", "T1")] (threats db_joined) = None /\
  exists db',
    fst (create_threat (fixed_env "T1" "t2")
           (ThreatCreate.make "K1" "Hisoka") db_joined) = db' /\
    delete_threat "T1" db'
      = (db_joined, Return (message "Threat deleted successfully")).
Proof.
  split; [reflexivity |].
  destruct (create_threat_then_get_and_delete (fixed_env "T1" "t2")
              (ThreatCreate.make "K1" "Hisoka") db_joined eq_refl)
    as (db' & threat & Hrun & _ & _ & Hdel).
  exists db'. split; [now rewrite Hrun | exact Hdel].
Defined.

(** ** Leaving, and joining again *)

(** Everything a leave that returns has done. *)
Lemma leave_campaign_success (env : Env) (campaign_id userId : string)
    (db db' : Db) (body : json) :
  leave_campaign env campaign_id userId db = (db', Return body) ->
  exists before campaign after stored campaign',
    first_match [("id", campaign_id)] (campaigns db) before campaign after /\
    get "masterId" campaign = Some stored /\
    is_str userId stored = false /\
    Mongo.apply_update (leave_update userId (JStr (utcnow env 0))) campaign
      = Some campaign' /\
    db' = with_coll CampaignCharacters
            (Mongo.delete_many [("campaignId", campaign_id); ("odiserId", userId)]
               (campaign_characters db))
            (with_coll Campaigns (before ++ campaign' :: after) db) /\
    body = message "Left campaign successfully".
Proof.
  intros Hrun.
  unfold leave_campaign, bind, db_find_one in Hrun. cbn [the_coll] in Hrun.
  destruct (Mongo.find_one [("id", campaign_id)] (campaigns db))
    as [campaign |] eqn:Hc; [| discriminate].
  destruct (find_one_first_match _ _ Hc) as (before & after & Hfm).
  destruct campaign as [| f0 rest0]; [discriminate |].
  cbn [or_404 ret] in Hrun.
  remember (f0 :: rest0) as campaign eqn:Hcampaign. clear Hcampaign.
  unfold getitem in Hrun.
  destruct (get "masterId" campaign) as [stored |] eqn:Hm; [| discriminate].
  cbn [ret] in Hrun.
  destruct (is_str userId stored) eqn:Hs; [discriminate |].
  unfold db_update_one, Mongo.update_one in Hrun. cbn [the_coll] in Hrun.
  fold (leave_update userId (JStr (utcnow env 0))) in Hrun.
  rewrite update_ok_leave, (update_first_first_match _ Hfm) in Hrun.
  destruct (Mongo.apply_update (leave_update userId (JStr (utcnow env 0))) campaign)
    as [campaign' |] eqn:Hup; [| discriminate].
  injection Hrun as <- <-.
  exists before, campaign, after, stored, campaign'.
  split; [exact Hfm |]. repeat split; first [assumption | reflexivity].
Qed.

Lemma find_one_delete_many (q : Mongo.query) (coll : list doc) :
  Mongo.find_one q (Mongo.delete_many q coll) = None.
Proof.
  unfold Mongo.find_one, Mongo.delete_many.
  induction coll as [| x rest IH]; simpl; [reflexivity |].
  destruct (Mongo.matches q x) eqn:E; simpl; [exact IH |].
  now rewrite E.
Qed.

(** X5. Once [leave_campaign] has returned, [get_campaign_character] for
    that campaign and user raises 404: no campaign character of the user
    is left in the campaign. *)
Theorem leave_campaign_then_get_campaign_character (env : Env)
    (campaign_id userId : string) (db db' : Db) (body : json) :
  leave_campaign env campaign_id userId db = (db', Return body) ->
  get_campaign_character campaign_id userId db'
    = (db', Raise (HTTPException 404 "Campaign character not found")).
Proof.
  intros Hrun.
  destruct (leave_campaign_success _ _ _ _ _ _ Hrun)
    as (before & campaign & after & stored & campaign' & _ & _ & _ & _ & -> & _).
  unfold get_campaign_character, bind, db_find_one.
  cbn [the_coll with_coll campaign_characters].
  now rewrite find_one_delete_many.
Qed.

Lemma existsb_filter_negb {A} (f : A -> bool) (l : list A) :
  existsb f (List.filter (fun x => negb (f x)) l) = false.
Proof.
  induction l as [| x rest IH]; simpl; [reflexivity |].
  destruct (f x) eqn:E; simpl; [exact IH |]. now rewrite E.
Qed.

Lemma leave_update_shapes (userId : string) (now : json) (d d' : doc) :
  Mongo.apply_update (leave_update userId now) d = Some d' ->
  list_or_absent "playerIds" d /\ list_or_absent "players" d.
Proof.
  unfold leave_update, Mongo.apply_update.
  destruct (Mongo.apply_op (Mongo.Pull "playerIds" userId) d) as [d1 |] eqn:E1;
    [| discriminate].
  destruct (Mongo.apply_op (Mongo.PullWhere "players" [("odiserId", userId)]) d1)
    as [d2 |] eqn:E2; [| discriminate].
  intros _. unfold Mongo.apply_op in E1, E2.
  assert (H1 : list_or_absent "playerIds" d /\ get "players" d1 = get "players" d).
  { destruct (get "playerIds" d) as [[] |] eqn:G; try discriminate;
      injection E1 as <-.
    - split; [right; eauto |]. apply get_dict_set_other. discriminate.
    - split; [left; exact G | reflexivity]. }
  destruct H1 as [H1 Hg]. split; [exact H1 |].
  rewrite Hg in E2.
  destruct (get "players" d) as [[] |] eqn:G; try discriminate;
    [right; eauto | left; exact G].
Qed.

Lemma array_field_after_leave (userId : string) (now : json) (d d' : doc) :
  Mongo.apply_update (leave_update userId now) d = Some d' ->
  array_field "playerIds" d'
    = List.filter (kept_id userId) (array_field "playerIds" d) /\
  array_field "players" d'
    = List.filter (kept_player userId) (array_field "players" d).
Proof.
  intros Hup.
  destruct (apply_update_leave _ _ _ Hup) as (Hids & Hids0 & Hps & Hps0 & _).
  destruct (leave_update_shapes _ _ _ _ Hup) as [L1 L2].
  unfold array_field. split.
  - destruct L1 as [E | [ids E]].
    + now rewrite E, (Hids0 E).
    + now rewrite E, (Hids _ E).
  - destruct L2 as [E | [ps E]].
    + now rewrite E, (Hps0 E).
    + now rewrite E, (Hps _ E).
Qed.

(** X6. A leave that returns has taken the user out of the membership of the
    campaign found by the id, and only the user: [playerIds] and [players]
    keep their other entries, in their order. *)
Theorem leave_campaign_removes_member (env : Env) (campaign_id userId : string)
    (db db' : Db) (body : json) :
  leave_campaign env campaign_id userId db = (db', Return body) ->
  exists before campaign campaign' after,
    Mongo.find_one [("id", campaign_id)] (campaigns db) = Some campaign /\
    campaigns db = before ++ campaign :: after /\
    campaigns db' = before ++ campaign' :: after /\
    array_field "playerIds" campaign'
      = List.filter (kept_id userId) (array_field "playerIds" campaign) /\
    array_field "players" campaign'
      = List.filter (kept_player userId) (array_field "players" campaign) /\
    member_of userId campaign' = false.
Proof.
  intros Hrun.
  destruct (leave_campaign_success _ _ _ _ _ _ Hrun)
    as (before & campaign & after & stored & campaign' & Hfm & _ & _ & Hup & -> & _).
  destruct (array_field_after_leave _ _ _ _ Hup) as [E1 E2].
  exists before, campaign, campaign', after.
  split; [exact (first_match_find_one Hfm) |].
  split; [apply Hfm |]. split; [reflexivity |].
  split; [exact E1 |]. split; [exact E2 |].
  unfold member_of. rewrite E1, E2. unfold kept_id, kept_player.
  now rewrite !existsb_filter_negb.
Qed.

Lemma join_update_defined (env : Env) (input_data : JoinCampaignRequest.t)
    (characterName : string) (d : doc) :
  list_or_absent "playerIds" d -> list_or_absent "players" d ->
  exists d', Mongo.apply_update (join_update env input_data characterName) d = Some d'.
Proof.
  intros H1 H2. unfold join_update, Mongo.apply_update.
  assert (E1 : exists d1,
             Mongo.apply_op
               (Mongo.Push "playerIds" (JStr (JoinCampaignRequest.odiserId input_data))) d
             = Some d1 /\ get "players" d1 = get "players" d).
  { unfold Mongo.apply_op. destruct H1 as [-> | [items ->]];
      eexists; (split; [reflexivity | apply get_dict_set_other; discriminate]). }
  destruct E1 as (d1 & -> & Hg).
  assert (E2 : exists d2,
             Mongo.apply_op
               (Mongo.Push "players" (JObj (player_doc env input_data characterName))) d1
             = Some d2).
  { unfold Mongo.apply_op. rewrite Hg. destruct H2 as [-> | [items ->]]; eauto. }
  destruct E2 as (d2 & ->).
  change (Mongo.apply_op (Mongo.Set_ "updatedAt" (JStr (utcnow env 3))) d2)
    with (Some (dict_set "updatedAt" (JStr (utcnow env 3)) d2)).
  eauto.
Qed.

Lemma not_in_existsb (s : string) (items : list json) :
  ~ In (JStr s) items -> existsb (is_str s) items = false.
Proof.
  intros H. destruct (existsb (is_str s) items) eqn:E; [| reflexivity].
  apply existsb_is_str in E. contradiction.
Qed.

(** X7. [join_campaign] returns, with the campaign id and the id of the new
    campaign character, whenever its four checks pass and the documents it
    reads have the shape the models give them: the campaign has a string
    id and lists (or nothing) for [players] and [playerIds], and the
    character is a document the driver can encode, as every stored document
    is, whose name is a string or missing. *)
Theorem join_campaign_returns (env : Env) (input_data : JoinCampaignRequest.t)
    (db : Db) (campaign original_char : doc) (stored : json) (campaign_id : string) :
  ids_unique (campaigns db) ->
  Mongo.find_one [("inviteCode", JoinCampaignRequest.inviteCode input_data)]
    (campaigns db) = Some campaign ->
  get "masterId" campaign = Some stored ->
  stored <> JStr (JoinCampaignRequest.odiserId input_data) ->
  get "id" campaign = Some (JStr campaign_id) ->
  list_or_absent "playerIds" campaign ->
  list_or_absent "players" campaign ->
  ~ In (JStr (JoinCampaignRequest.odiserId input_data))
       (array_field "playerIds" campaign) ->
  Mongo.find_one [("id", JoinCampaignRequest.characterId input_data)]
    (characters db) = Some original_char ->
  storable original_char ->
  (get "name" original_char = None \/
   exists name, get "name" original_char = Some (JStr name)) ->
  exists db', join_campaign env input_data db
              = (db', Return (join_body env campaign_id)).
Proof.
  intros Hu Hc Hm Hne Hid L1 L2 Hnot Hch Henc Hname.
  destruct (find_one_first_match _ _ Hc) as (before & after & Hfm).
  assert (Hn : exists characterName,
             get_default "name" (JStr EmptyString) original_char = JStr characterName).
  { unfold get_default. destruct Hname as [-> | [name ->]]; eauto. }
  destruct Hn as [characterName Hn].
  destruct (join_update_defined env input_data characterName campaign L1 L2)
    as [campaign' Hup].
  assert (Hin : py_in (JoinCampaignRequest.odiserId input_data)
                  (get_default "playerIds" (JArr []) campaign) db
                = (db, Return false)).
  { unfold get_default, array_field in *.
    destruct L1 as [E | [ids E]]; rewrite E in *; [reflexivity |].
    cbn [py_in ret]. now rewrite (not_in_existsb _ _ Hnot). }
  assert (Hc0 : exists f rest, campaign = f :: rest).
  { destruct campaign; [discriminate | eauto]. }
  assert (Hch0 : exists f rest, original_char = f :: rest).
  { apply List.find_some in Hch as [_ Hmatch].
    destruct original_char; [discriminate | eauto]. }
  eexists.
  unfold join_campaign, bind, db_find_one. cbn [the_coll]. rewrite Hc.
  destruct Hc0 as (f0 & rest0 & Ec). rewrite Ec at 1. cbn [or_404 ret].
  rewrite <- Ec. unfold getitem at 1. rewrite Hm. cbn [ret].
  apply is_str_false in Hne. rewrite Hne, Hin, Hch.
  destruct Hch0 as (f1 & rest1 & Eo). rewrite Eo at 1. cbn [or_404 ret].
  rewrite <- Eo. unfold getitem. rewrite Hid. cbn [ret].
  unfold CampaignCharacter, bind. cbn [str_field ret].
  fold (snapshot_doc env campaign_id input_data original_char).
  rewrite (@db_insert_one_stored CampaignCharacters _ db
             (@snapshot_storable env campaign_id input_data original_char Henc)).
  unfold CampaignPlayer, bind.
  rewrite Hn. cbn [str_field ret].
  fold (player_doc env input_data characterName).
  fold (join_update env input_data characterName).
  rewrite (@db_update_one_sent Campaigns _ _ _
             (@update_error_join env input_data characterName)).
  rewrite the_coll_with_coll_other by discriminate.
  cbn [the_coll]. unfold Mongo.update_one.
  change (Mongo.update_ok (join_update env input_data characterName)) with true.
  cbv iota.
  rewrite (update_first_first_match _ (first_match_by_id Hu Hfm Hid)).
  rewrite Hup. reflexivity.
Qed.

(** A join that returns has found the user outside [playerIds]. *)
Lemma join_campaign_checked_membership (env : Env)
    (input_data : JoinCampaignRequest.t) (db db' : Db) (body : json)
    (campaign : doc) :
  Mongo.find_one [("inviteCode", JoinCampaignRequest.inviteCode input_data)]
    (campaigns db) = Some campaign ->
  join_campaign env input_data db = (db', Return body) ->
  py_in (JoinCampaignRequest.odiserId input_data)
    (get_default "playerIds" (JArr []) campaign) db = (db, Return false).
Proof.
  intros Hc Hrun.
  unfold join_campaign, bind, db_find_one in Hrun.
  cbn [the_coll] in Hrun. rewrite Hc in Hrun.
  destruct campaign as [| f0 rest0]; [discriminate |].
  cbn [or_404 ret] in Hrun.
  remember (f0 :: rest0) as campaign eqn:Hcampaign. clear Hcampaign.
  unfold getitem at 1 in Hrun.
  destruct (get "masterId" campaign) as [stored |]; [| discriminate].
  cbn [ret] in Hrun.
  destruct (is_str (JoinCampaignRequest.odiserId input_data) stored);
    [discriminate |].
  destruct (pure_py_in (JoinCampaignRequest.odiserId input_data)
              (get_default "playerIds" (JArr []) campaign) db) as [[[|] | e] Hin];
    rewrite Hin in Hrun; try discriminate.
  exact Hin.
Qed.

(** X8. After a join that returned, [get_campaign_character] for the
    campaign and the user returns the snapshot the join has made, when the
    user had no campaign character in that campaign before. *)
Theorem join_campaign_then_get_campaign_character (env : Env)
    (input_data : JoinCampaignRequest.t) (db db' : Db) (body : json)
    (campaign original_char : doc) (campaign_id : string) :
  ids_unique (campaigns db) ->
  Mongo.find_one [("inviteCode", JoinCampaignRequest.inviteCode input_data)]
    (campaigns db) = Some campaign ->
  get "id" campaign = Some (JStr campaign_id) ->
  Mongo.find_one [("id", JoinCampaignRequest.characterId input_data)]
    (characters db) = Some original_char ->
  Mongo.find_one
    [("campaignId", campaign_id);
     ("odiserId", JoinCampaignRequest.odiserId input_data)]
    (campaign_characters db) = None ->
  join_campaign env input_data db = (db', Return body) ->
  exists char,
    get_campaign_character campaign_id
      (JoinCampaignRequest.odiserId input_data) db' = (db', Return (JObj char)) /\
    is_snapshot char (uuid4 env 0) campaign_id
      (JoinCampaignRequest.characterId input_data)
      (JoinCampaignRequest.odiserId input_data) original_char.
Proof.
  intros Hu Hc Hid Hch Hnone Hrun.
  destruct (join_campaign_success _ _ _ Hu Hrun)
    as (before & campaign0 & after & original0 & stored & campaign_id0
        & characterName & campaign' & Hfm & Hch0 & _ & _ & Hid0 & _ & -> & _).
  rewrite (first_match_find_one Hfm) in Hc. injection Hc as ->.
  rewrite Hid in Hid0. injection Hid0 as <-.
  rewrite Hch in Hch0. injection Hch0 as <-.
  exists (snapshot_doc env campaign_id input_data original_char).
  split; [| repeat split].
  unfold get_campaign_character, bind, db_find_one.
  cbn [the_coll campaign_characters].
  rewrite (find_one_app_fresh _ _ _ Hnone); [reflexivity |].
  unfold Mongo.matches. simpl. now rewrite !String.eqb_refl.
Qed.

Lemma sync_keeps_players (userId : string) (players : list json)
    (ids : list string) :
  map player_id players = map Some ids ->
  existsb (is_str userId) (map JStr ids) = false ->
  forallb (kept_player userId) players = true.
Proof.
  revert ids.
  induction players as [| p rest IH]; intros [| s ids] H Hn; simpl in H;
    try discriminate; [reflexivity |].
  injection H as Hp H. simpl in Hn. apply orb_false_elim in Hn as [Hs Hn].
  simpl. rewrite (IH ids H Hn), andb_true_r.
  unfold kept_player, Mongo.pull_where_match, player_id in *.
  destruct p; try discriminate.
  unfold Mongo.matches. simpl.
  destruct (get "odiserId" fields) as [[] |]; try discriminate.
  injection Hp as ->. simpl. now rewrite Hs.
Qed.

Lemma delete_many_app (q : Mongo.query) (l l' : list doc) :
  Mongo.delete_many q (l ++ l') = Mongo.delete_many q l ++ Mongo.delete_many q l'.
Proof. apply List.filter_app. Qed.

(** X9. Joining and then leaving gives the campaign back: when the
    membership index of the campaign is in step, a join that returned
    followed by a leave of the same user returns too, and leaves every
    field of the campaign but [updatedAt], and every other campaign, as
    they were before the join.  The snapshot of the join is deleted, along
    with any campaign character the user already had there. *)
Theorem join_then_leave_restores_campaign (env env' : Env)
    (input_data : JoinCampaignRequest.t) (db db1 : Db) (body : json)
    (campaign : doc) (campaign_id : string) :
  ids_unique (campaigns db) ->
  Mongo.find_one [("inviteCode", JoinCampaignRequest.inviteCode input_data)]
    (campaigns db) = Some campaign ->
  get "id" campaign = Some (JStr campaign_id) ->
  membership_in_sync campaign ->
  join_campaign env input_data db = (db1, Return body) ->
  exists db2 before after campaign2,
    leave_campaign env' campaign_id (JoinCampaignRequest.odiserId input_data) db1
      = (db2, Return (message "Left campaign successfully")) /\
    campaigns db = before ++ campaign :: after /\
    campaigns db2 = before ++ campaign2 :: after /\
    (forall k, k <> "updatedAt" -> get k campaign2 = get k campaign) /\
    get "updatedAt" campaign2 = Some (JStr (utcnow env' 0)) /\
    campaign_characters db2
      = Mongo.delete_many
          [("campaignId", campaign_id);
           ("odiserId", JoinCampaignRequest.odiserId input_data)]
          (campaign_characters db) /\
    characters db2 = characters db /\
    rolls db2 = rolls db /\
    threats db2 = threats db /\
    campaign_rolls db2 = campaign_rolls db.
Proof.
  intros Hu Hc Hid (players & ids & Hps & Hids & Hsync) Hrun.
  pose proof (join_campaign_checked_membership _ _ _ _ _ _ Hc Hrun) as Hin.
  destruct (join_campaign_success _ _ _ Hu Hrun)
    as (before & campaign0 & after & original_char & stored & campaign_id0
        & characterName & campaign1 & Hfm & _ & Hm & Hs & Hid0 & Hup & -> & _).
  rewrite (first_match_find_one Hfm) in Hc. injection Hc as ->.
  rewrite Hid in Hid0. injection Hid0 as <-.
  unfold get_default in Hin. rewrite Hids in Hin. cbn [py_in ret] in Hin.
  injection Hin as Hin.
  destruct (apply_update_join _ _ _ _ Hup) as (Hids1 & Hps1 & _ & Hrest1).
  unfold array_field in Hids1, Hps1. rewrite Hids in Hids1. rewrite Hps in Hps1.
  set (userId := JoinCampaignRequest.odiserId input_data) in *.
  assert (Hfm1 : first_match [("id", campaign_id)] (before ++ campaign1 :: after)
                   before campaign1 after).
  { destruct (first_match_by_id Hu Hfm Hid) as (_ & _ & Hbefore).
    split; [reflexivity |]. split; [| exact Hbefore].
    apply matches_id. rewrite (Hrest1 "id") by discriminate. exact Hid. }
  destruct (leave_update_defined userId (JStr (utcnow env' 0)) (d := campaign1))
    as [campaign2 Hup2]; [right; eauto | right; eauto |].
  destruct (apply_update_leave _ _ _ Hup2) as (Hids2 & _ & Hps2 & _ & Hat2 & Hrest2).
  exists (with_coll CampaignCharacters
            (Mongo.delete_many [("campaignId", campaign_id); ("odiserId", userId)]
               (campaign_characters db))
            (with_coll Campaigns (before ++ campaign2 :: after) db)),
         before, after, campaign2.
  split.
  - unfold leave_campaign, bind, db_find_one. cbn [the_coll campaigns].
    rewrite (first_match_find_one Hfm1).
    destruct campaign1 as [| f1 rest1]; [discriminate |].
    cbn [or_404 ret]. unfold getitem.
    rewrite (Hrest1 "masterId"), Hm by discriminate. cbn [ret]. rewrite Hs.
    fold (leave_update userId (JStr (utcnow env' 0))).
    rewrite (@db_update_one_sent Campaigns _ _ _
               (@update_error_leave userId (utcnow env' 0))).
    unfold Mongo.update_one. cbn [the_coll campaigns].
    rewrite update_ok_leave, (update_first_first_match _ Hfm1), Hup2.
    unfold db_delete_many, ret.
    cbn [the_coll with_coll campaign_characters campaigns characters rolls threats
           campaign_rolls].
    rewrite delete_many_app.
    assert (Hsnap : Mongo.delete_many
                      [("campaignId", campaign_id); ("odiserId", userId)]
                      [snapshot_doc env campaign_id input_data original_char] = []).
    { unfold Mongo.delete_many, Mongo.matches. simpl.
      subst userId. now rewrite !String.eqb_refl. }
    rewrite Hsnap, app_nil_r. reflexivity.
  - cbn [the_coll with_coll campaign_characters campaigns characters rolls threats
           campaign_rolls].
    split; [apply Hfm |]. split; [reflexivity |].
    split; [| repeat split; exact Hat2].
    intros k Hk.
    destruct (String.eqb k "playerIds") eqn:E1.
    { apply String.eqb_eq in E1. subst k.
      rewrite (Hids2 _ Hids1), Hids, List.filter_app. simpl.
      unfold kept_id at 2. simpl. rewrite String.eqb_refl. simpl.
      rewrite app_nil_r. do 2 f_equal. apply filter_all.
      clear -Hin. unfold kept_id.
      induction ids as [| s ids IH]; simpl in *; [reflexivity |].
      apply orb_false_elim in Hin as [-> Hin]. simpl. now apply IH. }
    destruct (String.eqb k "players") eqn:E2.
    { apply String.eqb_eq in E2. subst k.
      rewrite (Hps2 _ Hps1), Hps, List.filter_app. simpl.
      assert (Hp : kept_player userId
                     (JObj (player_doc env input_data characterName)) = false).
      { unfold kept_player, Mongo.pull_where_match, Mongo.matches. simpl.
        subst userId. now rewrite String.eqb_refl. }
      rewrite Hp, app_nil_r. do 2 f_equal. apply filter_all.
      exact (sync_keeps_players _ _ _ Hsync Hin). }
    apply String.eqb_neq in E1, E2.
    rewrite (Hrest2 k), (Hrest1 k) by assumption. reflexivity.
Qed.

(** ** Rolls, and deleting a character *)

Lemma delete_many_all (coll : list doc) : Mongo.delete_many [] coll = [].
Proof.
  unfold Mongo.delete_many. induction coll as [| x rest IH]; simpl; auto.
Qed.

(** X10. [clear_rolls] called without a character id, or with an empty one,
    deletes the roll history of every character; with a character id it
    deletes the rolls of that character and keeps the others in their
    order.  It always answers with its message and writes to no other
    collection. *)
Theorem clear_rolls_scope (characterId : option string) (db : Db) :
  exists rolls',
    clear_rolls characterId db
      = (with_coll Rolls rolls' db, Return (message "Roll history cleared")) /\
    (characterId = None \/ characterId = Some EmptyString -> rolls' = []) /\
    (forall s, characterId = Some s -> s <> EmptyString ->
       rolls' = List.filter (fun d => negb (Mongo.matches [("characterId", s)] d))
                  (rolls db) /\
       Mongo.count_documents [("characterId", s)] rolls' = 0%nat).
Proof.
  destruct characterId as [[| c rest] |].
  - exists []. split; [| split].
    + unfold clear_rolls, bind, db_delete_many, ret. cbn [the_coll].
      now rewrite delete_many_all.
    + reflexivity.
    + intros s H Hne. injection H as <-. contradiction.
  - exists (Mongo.delete_many [("characterId", String c rest)] (rolls db)).
    split; [reflexivity |]. split.
    + intros [H | H]; discriminate.
    + intros s H _. injection H as <-.
      split; [reflexivity | apply count_after_delete_many].
  - exists []. split; [| split].
    + unfold clear_rolls, bind, db_delete_many, ret. cbn [the_coll].
      now rewrite delete_many_all.
    + reflexivity.
    + intros s H. discriminate.
Qed.

Lemma delete_one_no_match (q : Mongo.query) (coll : list doc) :
  Mongo.find_one q coll = None -> Mongo.delete_one q coll = (coll, 0%nat).
Proof.
  unfold Mongo.find_one.
  induction coll as [| x rest IH]; simpl; [reflexivity |].
  destruct (Mongo.matches q x); [discriminate |].
  intros H. now rewrite (IH H).
Qed.

(** X11. [delete_character] raises 404 and writes nothing when no character
    has the id; otherwise it deletes the first character with the id and
    nothing else.  The snapshots taken of a character stay when it is
    deleted: the campaign characters are never written. *)
Theorem delete_character_effects (character_id : string) (db : Db) :
  (Mongo.find_one [("id", character_id)] (characters db) = None ->
   delete_character character_id db
     = (db, Raise (HTTPException 404 "Character not found"))) /\
  (forall character,
     Mongo.find_one [("id", character_id)] (characters db) = Some character ->
     exists before after,
       characters db = before ++ character :: after /\
       delete_character character_id db
         = (with_coll Characters (before ++ after) db,
            Return (message "Character deleted successfully"))) /\
  campaign_characters (fst (delete_character character_id db))
    = campaign_characters db.
Proof.
  split; [| split].
  - intros Hn. unfold delete_character, bind, db_delete_one. cbn [the_coll].
    rewrite (delete_one_no_match _ _ Hn). cbn [Nat.eqb]. unfold raise.
    destruct db; reflexivity.
  - intros character Hc.
    destruct (find_one_first_match _ _ Hc) as (before & after & Hfm).
    exists before, after. split; [apply Hfm |].
    unfold delete_character, bind, db_delete_one. cbn [the_coll].
    now rewrite (delete_one_first_match Hfm).
  - unfold delete_character, bind, db_delete_one. cbn [the_coll].
    destruct (Mongo.delete_one [("id", character_id)] (characters db)) as [coll' n].
    destruct (Nat.eqb n 0); reflexivity.
Qed.

(** X12. [create_campaign_roll] files the roll under the campaign id of the
    path, whatever the body says and whether or not the campaign exists.
    When the four fields it reads from the body have their types and the
    driver can encode [rollData], it appends exactly that one roll, with a
    fresh id, and returns it; when the driver cannot encode [rollData], its
    error is raised and nothing is written; and when one of the four fields
    has the wrong type, a validation error is raised and nothing is
    written. *)
Theorem create_campaign_roll_effects (env : Env) (campaign_id : string)
    (roll_data : doc) (db : Db) :
  (forall odiserId odiserName characterName rollData,
     get_default "odiserId" (JStr EmptyString) roll_data = JStr odiserId ->
     get_default "odiserName" (JStr EmptyString) roll_data = JStr odiserName ->
     get_default "characterName" (JStr EmptyString) roll_data
       = JStr characterName ->
     get_default "rollData" (JObj []) roll_data = JObj rollData ->
     (storable rollData ->
      create_campaign_roll env campaign_id roll_data db
        = (with_coll CampaignRolls
             (campaign_rolls db
                ++ [roll_doc env campaign_id odiserId odiserName characterName
                      rollData]) db,
           Return (JObj (roll_doc env campaign_id odiserId odiserName
                           characterName rollData)))) /\
     (forall e,
        Bson.encode_error (JObj rollData) = Some e ->
        (e = OverflowError \/ e = InvalidDocument) /\
        create_campaign_roll env campaign_id roll_data db = (db, Raise e))) /\
  ((exists field,
      In field ["odiserId"; "odiserName"; "characterName"] /\
      forall s, get_default field (JStr EmptyString) roll_data <> JStr s) \/
   (forall d, get_default "rollData" (JObj []) roll_data <> JObj d) ->
   exists field,
     In field ["odiserId"; "odiserName"; "characterName"; "rollData"] /\
     create_campaign_roll env campaign_id roll_data db
       = (db, Raise (ValidationError field))).
Proof.
  split.
  - intros odiserId odiserName characterName rollData H1 H2 H3 H4.
    unfold create_campaign_roll, CampaignRoll, bind.
    rewrite H1, H2, H3, H4. cbn [str_field dict_field ret].
    fold (roll_doc env campaign_id odiserId odiserName characterName rollData).
    assert (Henc : Bson.encode_error
                     (JObj (roll_doc env campaign_id odiserId odiserName
                              characterName rollData))
                   = Bson.encode_error (JObj rollData)).
    { unfold roll_doc. rewrite !encode_error_cons.
      destruct (Bson.encode_error (JObj rollData)); reflexivity. }
    split.
    + intros Hok. unfold storable in Hok. rewrite <- Henc in Hok.
      now rewrite (@db_insert_one_stored CampaignRolls _ db Hok).
    + intros e He. split; [exact (@encode_error_kind _ e He) |].
      rewrite <- Henc in He.
      now rewrite (@db_insert_one_refused CampaignRolls _ db e He).
  - unfold create_campaign_roll, CampaignRoll, bind.
    intros [(field & Hin & Hbad) | Hbad].
    + destruct Hin as [<- | [<- | [<- | []]]].
      * exists "odiserId". split; [simpl; tauto |].
        destruct (get_default "odiserId" (JStr EmptyString) roll_data);
          try reflexivity.
        now destruct (Hbad s).
      * destruct (get_default "odiserId" (JStr EmptyString) roll_data);
          try (exists "odiserId"; split; [simpl; tauto | reflexivity]).
        exists "odiserName". split; [simpl; tauto |].
        destruct (get_default "odiserName" (JStr EmptyString) roll_data);
          try reflexivity.
        now destruct (Hbad s0).
      * destruct (get_default "odiserId" (JStr EmptyString) roll_data);
          try (exists "odiserId"; split; [simpl; tauto | reflexivity]).
        destruct (get_default "odiserName" (JStr EmptyString) roll_data);
          try (exists "odiserName"; split; [simpl; tauto | reflexivity]).
        exists "characterName". split; [simpl; tauto |].
        destruct (get_default "characterName" (JStr EmptyString) roll_data);
          try reflexivity.
        now destruct (Hbad s1).
    + destruct (get_default "odiserId" (JStr EmptyString) roll_data);
        try (exists "odiserId"; split; [simpl; tauto | reflexivity]).
      destruct (get_default "odiserName" (JStr EmptyString) roll_data);
        try (exists "odiserName"; split; [simpl; tauto | reflexivity]).
      destruct (get_default "characterName" (JStr EmptyString) roll_data);
        try (exists "characterName"; split; [simpl; tauto | reflexivity]).
      exists "rollData". split; [simpl; tauto |].
      destruct (get_default "rollData" (JObj []) roll_data); try reflexivity.
      now destruct (Hbad fields).
Qed.

(** ** Updates by payload *)

Lemma split_dots_aux_cons (acc s : string) :
  exists k rest, Mongo.split_dots_aux acc s = k :: rest.
Proof.
  revert acc. induction s as [| c s IH]; intros acc; simpl; [eauto |].
  destruct (Ascii.eqb c "."%char); [eauto | apply IH].
Qed.

Lemma split_dots_top_field (key : string) :
  exists rest, Mongo.split_dots key = top_field key :: rest.
Proof.
  unfold top_field, Mongo.split_dots.
  destruct (split_dots_aux_cons EmptyString key) as (k & rest & ->). eauto.
Qed.

Lemma apply_set_preserves (k p : string) (v : json) (d d' : doc) :
  Mongo.apply_op (Mongo.Set_ p v) d = Some d' ->
  top_field p <> k -> get k d' = get k d.
Proof.
  unfold Mongo.apply_op.
  destruct (split_dots_top_field p) as [rest ->]. cbn [Mongo.set_path].
  destruct (Mongo.set_path rest v (get_default (top_field p) (JObj []) d));
    [| discriminate].
  intros H Hne. injection H as <-. now apply get_dict_set_other.
Qed.

Lemma payload_preserves (k : string) (update_data : doc) (d d' : doc) :
  Mongo.apply_update (set_ops update_data) d = Some d' ->
  (forall key v, In (key, v) update_data -> top_field key <> k) ->
  get k d' = get k d.
Proof.
  revert d. induction update_data as [| [key v] rest IH]; intros d H Hk.
  - injection H as <-. reflexivity.
  - cbn [set_ops map Mongo.apply_update fst snd] in H.
    destruct (Mongo.apply_op (Mongo.Set_ key v) d) as [d1 |] eqn:E; [| discriminate].
    rewrite (IH d1 H); [| intros key' v' Hin; apply (Hk key' v'); now right].
    apply (apply_set_preserves _ _ _ _ _ E). apply (Hk key v). now left.
Qed.

Lemma payload_stamps (k : string) (v : json) (update_data : doc) (d d' : doc) :
  Mongo.conflict_free (map Mongo.op_path (set_ops update_data)) = true ->
  In (k, v) update_data ->
  Mongo.split_dots k = [k] ->
  Mongo.apply_update (set_ops update_data) d = Some d' ->
  get k d' = Some v.
Proof.
  intros Hcf Hin Hk. revert d Hcf Hin.
  induction update_data as [| [key w] rest IH]; intros d Hcf Hin H; [contradiction |].
  cbn [set_ops map Mongo.apply_update fst snd Mongo.conflict_free Mongo.op_path]
    in H, Hcf.
  apply andb_prop in Hcf as [Hfirst Hcf].
  destruct (Mongo.apply_op (Mongo.Set_ key w) d) as [d1 |] eqn:E; [| discriminate].
  destruct Hin as [Heq | Hin].
  - injection Heq as -> ->.
    rewrite (payload_preserves k rest d1 d' H).
    + unfold Mongo.apply_op in E. rewrite Hk in E. cbn [Mongo.set_path] in E.
      injection E as <-. apply get_dict_set_same.
    + intros key' v' Hin' Htop.
      rewrite forallb_forall in Hfirst.
      specialize (Hfirst (Mongo.split_dots key')).
      rewrite Hk in Hfirst.
      destruct (split_dots_top_field key') as [rest' E'].
      rewrite E', Htop in Hfirst. cbn [Mongo.is_prefix] in Hfirst.
      rewrite String.eqb_refl in Hfirst. cbn in Hfirst.
      assert (Hmem : In (k :: rest')
                       (map Mongo.op_path (set_ops rest))).
      { rewrite <- Htop, <- E'. unfold set_ops. rewrite map_map.
        apply in_map_iff. exists (key', v'). split; [reflexivity | exact Hin']. }
      specialize (Hfirst Hmem). discriminate.
  - exact (IH d1 Hcf Hin H).
Qed.

Lemma in_dict_set_same (k : string) (v : json) (d : doc) :
  In (k, v) (dict_set k v d).
Proof.
  induction d as [| [k' v'] rest IH]; simpl; [now left |].
  destruct (String.eqb k k'); [now left | now right].
Qed.

Lemma in_dict_set_inv (k key : string) (v w : json) (d : doc) :
  In (key, w) (dict_set k v d) -> (key, w) = (k, v) \/ In (key, w) d.
Proof.
  induction d as [| [k' v'] rest IH]; simpl.
  - intros [H | []]. left. now symmetry.
  - destruct (String.eqb k k'); simpl.
    + intros [H | H]; [left; now symmetry | right; now right].
    + intros [H | H]; [right; now left |].
      destruct (IH H); [now left | right; now right].
Qed.

Lemma in_dict_set_other (k key : string) (v w : json) (d : doc) :
  key <> k -> In (key, w) d -> In (key, w) (dict_set k v d).
Proof.
  intros Hne. induction d as [| [k' v'] rest IH]; simpl; [tauto |].
  destruct (String.eqb k k') eqn:E; simpl.
  - apply String.eqb_eq in E. subst k'.
    intros [H | H]; [injection H as <- _; congruence | now right].
  - intros [H | H]; [now left | right; now apply IH].
Qed.

(** What an update by payload that returns has done, in any collection. *)
Lemma set_fields_success (c : collection) (detail : string) (env : Env)
    (id : string) (update_data : doc) (db db' : Db) (body : json) :
  bind (db_update_one c [("id", id)]
          (set_ops (dict_set "updatedAt" (JStr (utcnow env 0)) update_data)))
       (fun matched_count =>
          if Nat.eqb matched_count 0 then raise (HTTPException 404 detail)
          else bind (db_find_one c [("id", id)])
                    (fun found => ret (json_of_found found))) db
    = (db', Return body) ->
  exists before d d' after,
    Mongo.find_one [("id", id)] (the_coll c db) = Some d /\
    the_coll c db = before ++ d :: after /\
    db' = with_coll c (before ++ d' :: after) db /\
    get "updatedAt" d' = Some (JStr (utcnow env 0)) /\
    (forall key v, In (key, v) update_data -> key <> "updatedAt" ->
       Mongo.split_dots key = [key] -> get key d' = Some v) /\
    (forall k, k <> "updatedAt" ->
       (forall key v, In (key, v) update_data -> top_field key <> k) ->
       get k d' = get k d) /\
    ((forall key v, In (key, v) update_data -> top_field key <> "id") ->
     body = JObj d').
Proof.
  set (payload := dict_set "updatedAt" (JStr (utcnow env 0)) update_data).
  unfold bind, db_update_one, Mongo.update_one. intros Hrun.
  destruct (Bson.update_error (set_ops payload)); [discriminate |].
  destruct (Mongo.update_ok (set_ops payload)) eqn:Hok; [| discriminate].
  destruct (Mongo.find_one [("id", id)] (the_coll c db)) as [d |] eqn:Hc.
  2: { rewrite (@update_first_no_match _ (set_ops payload) _ Hc) in Hrun. discriminate. }
  destruct (find_one_first_match _ _ Hc) as (before & after & Hfm).
  rewrite (update_first_first_match _ Hfm) in Hrun.
  destruct (Mongo.apply_update (set_ops payload) d) as [d' |] eqn:Hup;
    [| discriminate].
  cbn [Nat.eqb] in Hrun. unfold db_find_one, ret in Hrun.
  rewrite the_coll_with_coll_same in Hrun. injection Hrun as <- <-.
  apply andb_prop in Hok as [_ Hcf].
  assert (Hkeep : forall k, k <> "updatedAt" ->
            (forall key v, In (key, v) update_data -> top_field key <> k) ->
            get k d' = get k d).
  { intros k Hk Hfree. apply (payload_preserves k payload d d' Hup).
    intros key v Hin. destruct (in_dict_set_inv _ _ _ _ _ Hin) as [E | Hin'].
    - injection E as -> _. intros Htop. apply Hk. now rewrite <- Htop.
    - now apply (Hfree key v). }
  exists before, d, d', after.
  split; [reflexivity |]. split; [apply Hfm |]. split; [reflexivity |].
  split; [| split; [| split; [exact Hkeep |]]].
  - apply (payload_stamps "updatedAt" _ payload d d' Hcf);
      [apply in_dict_set_same | reflexivity | exact Hup].
  - intros key v Hin Hne Hplain.
    apply (payload_stamps key v payload d d' Hcf); [| exact Hplain | exact Hup].
    now apply in_dict_set_other.
  - intros Hid.
    assert (Hfm' : first_match [("id", id)] (before ++ d' :: after) before d' after).
    { destruct Hfm as (_ & Hmatch & Hbefore).
      split; [reflexivity |]. split; [| exact Hbefore].
      rewrite (@matches_ext _ d d'); [exact Hmatch |].
      simpl. intros k [<- | []]. apply Hkeep; [discriminate | exact Hid]. }
    now rewrite (first_match_find_one Hfm').
Qed.

(** X13. An [update_character] that returns has merged its payload into the
    first character with the id: every key of the payload without a dot
    holds the value the payload gives it, the top-level fields no key of the
    payload addresses are as they were, [updatedAt] is the timestamp of the
    update whatever the payload says of it, and no other document is
    written.  When the payload leaves [id] alone the answer is the updated
    document. *)
Theorem update_character_merges (env : Env) (character_id : string)
    (update_data : doc) (db db' : Db) (body : json) :
  update_character env character_id update_data db = (db', Return body) ->
  exists before character character' after,
    Mongo.find_one [("id", character_id)] (characters db) = Some character /\
    characters db = before ++ character :: after /\
    db' = with_coll Characters (before ++ character' :: after) db /\
    get "updatedAt" character' = Some (JStr (utcnow env 0)) /\
    (forall key v, In (key, v) update_data -> key <> "updatedAt" ->
       Mongo.split_dots key = [key] -> get key character' = Some v) /\
    (forall k, k <> "updatedAt" ->
       (forall key v, In (key, v) update_data -> top_field key <> k) ->
       get k character' = get k character) /\
    ((forall key v, In (key, v) update_data -> top_field key <> "id") ->
     body = JObj character').
Proof.
  exact (set_fields_success Characters "Character not found" env character_id
           update_data db db' body).
Qed.

(** X14. An [update_campaign] that returns has merged its payload into the
    first campaign with the id in the same way: every key of the payload
    without a dot holds the value the payload gives it, the fields no key
    of the payload addresses, the membership lists among them, are as they
    were, and [updatedAt] is the timestamp of the update. *)
Theorem update_campaign_merges (env : Env) (campaign_id : string)
    (update_data : doc) (db db' : Db) (body : json) :
  update_campaign env campaign_id update_data db = (db', Return body) ->
  exists before campaign campaign' after,
    Mongo.find_one [("id", campaign_id)] (campaigns db) = Some campaign /\
    campaigns db = before ++ campaign :: after /\
    db' = with_coll Campaigns (before ++ campaign' :: after) db /\
    get "updatedAt" campaign' = Some (JStr (utcnow env 0)) /\
    (forall key v, In (key, v) update_data -> key <> "updatedAt" ->
       Mongo.split_dots key = [key] -> get key campaign' = Some v) /\
    (forall k, k <> "updatedAt" ->
       (forall key v, In (key, v) update_data -> top_field key <> k) ->
       get k campaign' = get k campaign) /\
    ((forall key v, In (key, v) update_data -> top_field key <> "id") ->
     body = JObj campaign').
Proof.
  exact (set_fields_success Campaigns "Campaign not found" env campaign_id
           update_data db db' body).
Qed.

(** ** No write before an HTTP error *)

Lemma clean_pure {A} (m : M A) : pure m -> clean m.
Proof.
  intros Hp db db' code detail H. destruct (Hp db) as [o Ho].
  rewrite Ho in H. now injection H as <-.
Qed.

Lemma clean_quiet {A} (m : M A) : quiet m -> clean m.
Proof. intros Hq db db' code detail H. now apply Hq in H. Qed.

Lemma clean_bind_pure {A B} (m : M A) (k : A -> M B) :
  pure m -> (forall a, clean (k a)) -> clean (bind m k).
Proof.
  intros Hp Hk db db' code detail. unfold bind.
  destruct (Hp db) as [[a | e] ->].
  - apply Hk.
  - intros H. now injection H as <-.
Qed.

Lemma quiet_bind {A B} (m : M A) (k : A -> M B) :
  quiet m -> (forall a, quiet (k a)) -> quiet (bind m k).
Proof.
  intros Hm Hk db db' code detail. unfold bind.
  destruct (m db) as [db1 [a | e]] eqn:E.
  - apply Hk.
  - intros H. injection H as <- ->. now apply Hm in E.
Qed.

Lemma quiet_ret {A} (a : A) : quiet (ret a).
Proof. intros db db' code detail. discriminate. Qed.

Lemma quiet_insert_one (c : collection) (d : doc) : quiet (db_insert_one c d).
Proof.
  intros db db' code detail. unfold db_insert_one.
  destruct (Bson.encode_error (JObj d)) as [e |] eqn:E; [| discriminate].
  intros H. injection H as _ ->.
  destruct (encode_error_kind _ E); discriminate.
Qed.

Lemma quiet_delete_one (c : collection) (q : Mongo.query) : quiet (db_delete_one c q).
Proof.
  intros db db' code detail. unfold db_delete_one.
  destruct (Mongo.delete_one q (the_coll c db)). discriminate.
Qed.

Lemma quiet_delete_many (c : collection) (q : Mongo.query) :
  quiet (db_delete_many c q).
Proof. intros db db' code detail. discriminate. Qed.

Lemma quiet_update_one (c : collection) (q : Mongo.query)
    (u : list Mongo.update_op) :
  quiet (db_update_one c q u).
Proof.
  intros db db' code detail. unfold db_update_one.
  destruct (Bson.update_error u) as [e |] eqn:E.
  - intros H. injection H as _ ->.
    destruct (update_error_kind _ E); discriminate.
  - destruct (Mongo.update_one q u (the_coll c db)) as [[] |]; discriminate.
Qed.

Lemma quiet_str_field (field : string) (v : json) : quiet (str_field field v).
Proof. intros db db' code detail. destruct v; discriminate. Qed.

Lemma quiet_find_one (c : collection) (q : Mongo.query) : quiet (db_find_one c q).
Proof. intros db db' code detail. discriminate. Qed.

Lemma pure_find_one (c : collection) (q : Mongo.query) : pure (db_find_one c q).
Proof. intros db. eexists. reflexivity. Qed.

Ltac quiet_steps :=
  repeat first
    [ apply quiet_bind; [| intros]
    | apply quiet_ret
    | apply quiet_insert_one
    | apply quiet_delete_one
    | apply quiet_delete_many
    | apply quiet_update_one
    | apply quiet_str_field
    | apply quiet_find_one ].

Ltac clean_steps :=
  repeat first
    [ apply clean_bind_pure; [solve [auto using pure_find_one with pure_steps] | intros]
    | apply clean_pure; solve [auto using pure_find_one with pure_steps]
    | match goal with
      | |- clean (if ?b then _ else _) => destruct b
      end ].

Lemma update_first_none_matched (q : Mongo.query) (u : list Mongo.update_op)
    (coll coll' : list doc) :
  Mongo.update_first q u coll = Some (coll', 0%nat) -> coll' = coll.
Proof.
  revert coll'. induction coll as [| x rest IH]; simpl; intros coll' H.
  - now injection H as <-.
  - destruct (Mongo.matches q x).
    + destruct (Mongo.apply_update u x); discriminate.
    + destruct (Mongo.update_first q u rest) as [[rest' n] |]; [| discriminate].
      injection H as <- ->. now rewrite (IH rest' eq_refl).
Qed.

Lemma delete_one_none_deleted (q : Mongo.query) (coll coll' : list doc) :
  Mongo.delete_one q coll = (coll', 0%nat) -> coll' = coll.
Proof.
  revert coll'. induction coll as [| x rest IH]; simpl; intros coll' H.
  - now injection H as <-.
  - destruct (Mongo.matches q x); [discriminate |].
    destruct (Mongo.delete_one q rest) as [rest' n].
    injection H as <- ->. now rewrite (IH rest' eq_refl).
Qed.

Lemma clean_set_fields (c : collection) (q : Mongo.query)
    (u : list Mongo.update_op) (detail : string) (k : M json) :
  quiet k ->
  clean (bind (db_update_one c q u)
           (fun matched_count =>
              if Nat.eqb matched_count 0 then raise (HTTPException 404 detail)
              else k)).
Proof.
  intros Hk db db' code msg. unfold bind, db_update_one, Mongo.update_one.
  destruct (Bson.update_error u) as [e |] eqn:Eu.
  { intros H. injection H as _ ->.
    destruct (update_error_kind _ Eu); discriminate. }
  destruct (Mongo.update_ok u); [| discriminate].
  destruct (Mongo.update_first q u (the_coll c db)) as [[coll' n] |] eqn:E;
    [| discriminate].
  destruct n as [| n]; cbn [Nat.eqb].
  - apply update_first_none_matched in E. subst coll'.
    intros H. injection H as <- _ _. apply with_coll_same.
  - intros H. now apply Hk in H.
Qed.

Lemma clean_delete_one (c : collection) (q : Mongo.query) (detail : string)
    (k : M json) :
  quiet k ->
  clean (bind (db_delete_one c q)
           (fun deleted_count =>
              if Nat.eqb deleted_count 0 then raise (HTTPException 404 detail)
              else k)).
Proof.
  intros Hk db db' code msg. unfold bind, db_delete_one.
  destruct (Mongo.delete_one q (the_coll c db)) as [coll' n] eqn:E.
  destruct n as [| n]; cbn [Nat.eqb].
  - apply delete_one_none_deleted in E. subst coll'.
    intros H. injection H as <- _ _. apply with_coll_same.
  - intros H. now apply Hk in H.
Qed.

(** X15. No handler has written anything when it raises an
    [HTTPException]: the 400, 403 and 404 answers of the campaign workflow
    and of the character, threat and campaign updates all leave the
    database as it was. *)
Theorem http_errors_write_nothing :
  (forall env input_data, clean (join_campaign env input_data)) /\
  (forall env campaign_id userId, clean (leave_campaign env campaign_id userId)) /\
  (forall campaign_id masterId, clean (delete_campaign campaign_id masterId)) /\
  (forall env character_id update_data,
     clean (update_character env character_id update_data)) /\
  (forall env campaign_id update_data,
     clean (update_campaign env campaign_id update_data)) /\
  (forall env campaign_id character_id update_data,
     clean (update_campaign_character env campaign_id character_id update_data)) /\
  (forall character_id, clean (delete_character character_id)) /\
  (forall threat_id, clean (delete_threat threat_id)) /\
  (forall campaign_id user_id, clean (get_campaign_character campaign_id user_id)).
Proof.
  repeat split; intros.
  - unfold join_campaign. clean_steps. apply clean_quiet. quiet_steps.
  - unfold leave_campaign. clean_steps. apply clean_quiet. quiet_steps.
  - unfold delete_campaign. clean_steps. apply clean_quiet. quiet_steps.
  - apply clean_set_fields. quiet_steps.
  - apply clean_set_fields. quiet_steps.
  - apply clean_set_fields. quiet_steps.
  - apply clean_delete_one. quiet_steps.
  - apply clean_delete_one. quiet_steps.
  - unfold get_campaign_character. clean_steps.
Qed.

(** ** The two writes of a join *)

(** Everything a join that raises may have done. *)
Lemma join_campaign_raises (env : Env)
    (input_data : JoinCampaignRequest.t) (db db' : Db) (e : exn) :
  join_campaign env input_data db = (db', Raise e) ->
  campaigns db' = campaigns db /\
  characters db' = characters db /\
  rolls db' = rolls db /\
  threats db' = threats db /\
  campaign_rolls db' = campaign_rolls db /\
  (db' = db \/
   exists snapshot,
     campaign_characters db' = campaign_characters db ++ [snapshot] /\
     get "odiserId" snapshot
       = Some (JStr (JoinCampaignRequest.odiserId input_data)) /\
     (e = ValidationError "characterName" \/ e = WriteError)).
Proof.
  intros Hrun.
  unfold join_campaign, bind, db_find_one in Hrun. cbn [the_coll] in Hrun.
  destruct (Mongo.find_one [("inviteCode", JoinCampaignRequest.inviteCode input_data)]
              (campaigns db)) as [[| f0 rest0] |];
    try (injection Hrun as <- <-; repeat split; left; reflexivity).
  cbn [or_404 ret] in Hrun.
  remember (f0 :: rest0) as campaign eqn:Hcampaign. clear Hcampaign.
  unfold getitem at 1 in Hrun.
  destruct (get "masterId" campaign) as [stored |];
    [| injection Hrun as <- <-; repeat split; left; reflexivity].
  cbn [ret] in Hrun.
  destruct (is_str (JoinCampaignRequest.odiserId input_data) stored);
    [injection Hrun as <- <-; repeat split; left; reflexivity |].
  destruct (pure_py_in (JoinCampaignRequest.odiserId input_data)
              (get_default "playerIds" (JArr []) campaign) db) as [[[|] | e0] Hin];
    rewrite Hin in Hrun;
    try (injection Hrun as <- <-; repeat split; left; reflexivity).
  destruct (Mongo.find_one [("id", JoinCampaignRequest.characterId input_data)]
              (characters db)) as [[| f1 rest1] |];
    try (injection Hrun as <- <-; repeat split; left; reflexivity).
  cbn [or_404 ret] in Hrun.
  remember (f1 :: rest1) as original_char eqn:Hchar. clear Hchar.
  unfold getitem in Hrun.
  destruct (get "id" campaign) as [campaign_id |];
    [| injection Hrun as <- <-; repeat split; left; reflexivity].
  cbn [ret] in Hrun.
  unfold CampaignCharacter, bind in Hrun.
  destruct campaign_id as [| | | | campaign_id | |];
    try (injection Hrun as <- <-; repeat split; left; reflexivity).
  cbn [str_field ret] in Hrun.
  fold (snapshot_doc env campaign_id input_data original_char) in Hrun.
  destruct (Bson.encode_error
              (JObj (snapshot_doc env campaign_id input_data original_char)))
    as [e1 |] eqn:Henc.
  { rewrite (@db_insert_one_refused CampaignCharacters _ db e1 Henc) in Hrun.
    injection Hrun as <- <-. repeat split. left. reflexivity. }
  rewrite (@db_insert_one_stored CampaignCharacters _ db Henc) in Hrun.
  unfold CampaignPlayer, bind in Hrun.
  destruct (get_default "name" (JStr EmptyString) original_char)
    as [| | | | characterName | |];
    try (injection Hrun as <- <-; repeat split; right; eexists;
         repeat split; left; reflexivity).
  cbn [str_field ret] in Hrun.
  fold (player_doc env input_data characterName) in Hrun.
  fold (join_update env input_data characterName) in Hrun.
  rewrite (@db_update_one_sent Campaigns _ _ _
             (@update_error_join env input_data characterName)) in Hrun.
  match type of Hrun with
  | context [Mongo.update_one ?q ?u ?coll] =>
      destruct (Mongo.update_one q u coll) as [[coll' n] |]
  end; [discriminate |].
  injection Hrun as <- <-. repeat split. right. eexists.
  repeat split. right. reflexivity.
Qed.

(** X16. A join that raises has not touched the campaigns: either it has
    written nothing at all, or it has inserted the snapshot of the user and
    then failed on the membership record (its validation, or the write to
    the campaign), leaving that snapshot without a membership. *)
Theorem join_campaign_raise_window (env : Env)
    (input_data : JoinCampaignRequest.t) (db db' : Db) (e : exn) :
  join_campaign env input_data db = (db', Raise e) ->
  campaigns db' = campaigns db /\
  characters db' = characters db /\
  rolls db' = rolls db /\
  threats db' = threats db /\
  campaign_rolls db' = campaign_rolls db /\
  (db' = db \/
   exists snapshot,
     campaign_characters db' = campaign_characters db ++ [snapshot] /\
     get "odiserId" snapshot
       = Some (JStr (JoinCampaignRequest.odiserId input_data)) /\
     (e = ValidationError "characterName" \/ e = WriteError)).
Proof. exact (join_campaign_raises env input_data db db' e). Qed.

(** ** One membership for each user *)

Lemma footprint_create_character env input_data :
  respects (untouched [Characters]) (create_character env input_data).
Proof. unfold create_character. footprint. Qed.

Lemma footprint_delete_character character_id :
  respects (untouched [Characters]) (delete_character character_id).
Proof. unfold delete_character. footprint. Qed.

Lemma campaigns_untouched (db db' : Db) :
  untouched [Characters] db db' \/ untouched [CampaignCharacters] db db' ->
  campaigns db' = campaigns db.
Proof.
  intros [H | H]; apply (H Campaigns); simpl; intros [E | []]; discriminate.
Qed.

Lemma leave_keeps_single (userId : string) (now : json) (d d' : doc) :
  membership_in_sync d /\ no_double_member d ->
  Mongo.apply_update (leave_update userId now) d = Some d' ->
  membership_in_sync d' /\ no_double_member d'.
Proof.
  intros [Hs Hn] Hup. split; [exact (@leave_keeps_sync userId now d d' Hs Hup) |].
  unfold no_double_member in *.
  destruct (array_field_after_leave _ _ _ _ Hup) as [-> _].
  now apply List.NoDup_filter.
Qed.

Lemma single_leave_campaign env campaign_id userId :
  respects (keeps (fun c => membership_in_sync c /\ no_double_member c))
    (leave_campaign env campaign_id userId).
Proof.
  unfold leave_campaign. keeps_sync.
  apply keeps_update_one. intros _ d d'. apply leave_keeps_single.
Qed.

Lemma single_delete_campaign campaign_id masterId :
  respects (keeps (fun c => membership_in_sync c /\ no_double_member c))
    (delete_campaign campaign_id masterId).
Proof. unfold delete_campaign. keeps_sync. Qed.

Lemma single_join_campaign (env : Env) (input_data : JoinCampaignRequest.t)
    (db : Db) :
  ids_unique (campaigns db) ->
  Forall (fun c => membership_in_sync c /\ no_double_member c) (campaigns db) ->
  Forall (fun c => membership_in_sync c /\ no_double_member c)
    (campaigns (fst (join_campaign env input_data db))).
Proof.
  intros Hu Hall.
  destruct (join_campaign env input_data db) as [db' [body | e]] eqn:Hrun;
    cbn [fst].
  2: { destruct (join_campaign_raises _ _ _ _ _ Hrun) as [-> _]. exact Hall. }
  destruct (join_campaign_success _ _ _ Hu Hrun)
    as (before & campaign & after & original_char & stored & campaign_id
        & characterName & campaign' & Hfm & _ & _ & _ & _ & Hup & -> & _).
  pose proof (join_campaign_checked_membership _ _ _ _ _ _
                (first_match_find_one Hfm) Hrun) as Hin.
  destruct Hfm as (Hsplit & _ & _). rewrite Hsplit in Hall.
  apply Forall_app in Hall as [Hb Hca].
  inversion Hca as [| ? ? [Hs Hn] Ha]; subst.
  cbn [campaigns]. apply Forall_app. split; [exact Hb |].
  constructor; [| exact Ha].
  split.
  - apply (@join_keeps_sync (JoinCampaignRequest.odiserId input_data)
             (player_doc env input_data characterName) (JStr (utcnow env 3))
             campaign campaign');
      [reflexivity | exact Hs | exact Hup].
  - destruct (apply_update_join _ _ _ _ Hup) as (Hids & _).
    unfold no_double_member in *. unfold array_field at 1. rewrite Hids.
    destruct Hs as (players & ids & _ & Hi & _).
    unfold get_default in Hin. rewrite Hi in Hin. cbn [py_in ret] in Hin.
    injection Hin as Hin.
    unfold array_field in *. rewrite Hi in *.
    apply List.NoDup_app; [exact Hn | repeat constructor; simpl; tauto |].
    intros x Hx [<- | []].
    apply existsb_is_str in Hx. congruence.
Qed.

(** X17. In every database reached from one without campaigns, where each
    campaign is created under an id no campaign has yet, campaign ids are
    unique and no user is listed twice in the [playerIds] of a campaign:
    a join is refused before a second membership is written. *)
Theorem one_membership_per_user (db : Db) :
  reachable_fresh db ->
  ids_unique (campaigns db) /\ Forall no_double_member (campaigns db).
Proof.
  intros Hr.
  assert (H : ids_unique (campaigns db) /\
              Forall (fun c => membership_in_sync c /\ no_double_member c)
                (campaigns db)).
  { induction Hr as [db H0 | db db' Hr [Hu Hall] Hs].
    - rewrite H0. split; [| constructor]. apply ids_unique_short. simpl. lia.
    - destruct Hs.
      + split; [now apply unique_create_campaign |].
        cbn [fst create_campaign bind db_insert_one the_coll with_coll campaigns].
        apply Forall_app. split; [exact Hall |]. constructor; [| constructor].
        split; [exists [], []; repeat split | constructor].
      + split; [now apply unique_join_campaign | now apply single_join_campaign].
      + split; [now apply unique_leave_campaign | now apply single_leave_campaign].
      + split;
          [now apply unique_delete_campaign | now apply single_delete_campaign].
      + rewrite (campaigns_untouched db _
                   (or_introl (footprint_create_character _ _ _))). auto.
      + rewrite (campaigns_untouched db _
                   (or_introl (footprint_update_character _ _ _ _))). auto.
      + rewrite (campaigns_untouched db _
                   (or_introl (footprint_delete_character _ _))). auto.
      + rewrite (campaigns_untouched db _
                   (or_intror (footprint_update_campaign_character _ _ _ _ _))).
        auto. }
  destruct H as [Hu Hall]. split; [exact Hu |].
  eapply Forall_impl; [| exact Hall]. intros c [_ Hn]. exact Hn.
Qed.

(** ** The sample session, continued *)

Lemma leave_campaign_then_get_campaign_character_witness :
  leave_campaign (fixed_env "-" "t2") "K1" "U1" db_joined
    = (db_left, Return (message "Left campaign successfully")) /\
  get_campaign_character "K1" "U1" db_joined
    = (db_joined,
       Return (JObj (snapshot_doc (fixed_env "CC1" "t1") "K1" join_request gon))) /\
  get_campaign_character "K1" "U1" db_left
    = (db_left, Raise (HTTPException 404 "Campaign character not found")).
Proof.
  split; [reflexivity |]. split; [reflexivity |].
  apply (leave_campaign_then_get_campaign_character (fixed_env "-" "t2") "K1" "U1"
           db_joined db_left (message "Left campaign successfully")).
  reflexivity.
Defined.

Lemma leave_campaign_removes_member_witness :
  leave_campaign (fixed_env "-" "t2") "K1" "U1" db_joined
    = (db_left, Return (message "Left campaign successfully")) /\
  exists campaign',
    In campaign' (campaigns db_left) /\ member_of "U1" campaign' = false.
Proof.
  split; [reflexivity |].
  destruct (leave_campaign_removes_member (fixed_env "-" "t2") "K1" "U1"
              db_joined db_left (message "Left campaign successfully") eq_refl)
    as (before & campaign & campaign' & after & _ & _ & Hcs & _ & _ & Hmem).
  exists campaign'. split; [rewrite Hcs; apply in_elt | exact Hmem].
Defined.

Lemma join_campaign_returns_witness :
  ids_unique (campaigns db_created) /\
  storable gon /\
  exists db',
    join_campaign (fixed_env "CC1" "t1") join_request db_created
      = (db', Return (join_body (fixed_env "CC1" "t1") "K1")).
Proof.
  assert (Hu : ids_unique (campaigns db_created)).
  { apply ids_unique_short. simpl. lia. }
  split; [exact Hu |]. split; [reflexivity |].
  apply (join_campaign_returns (fixed_env "CC1" "t1") join_request db_created
           exam_campaign gon (JStr "M1") "K1" Hu).
  - reflexivity.
  - reflexivity.
  - discriminate.
  - reflexivity.
  - right. eexists. reflexivity.
  - right. eexists. reflexivity.
  - simpl. tauto.
  - reflexivity.
  - reflexivity.
  - right. eexists. reflexivity.
Defined.

Lemma join_campaign_then_get_campaign_character_witness :
  ids_unique (campaigns db_created) /\
  exists char,
    get_campaign_character "K1" "U1" db_joined = (db_joined, Return (JObj char)) /\
    get "data" char = Some (JObj gon).
Proof.
  assert (Hu : ids_unique (campaigns db_created)).
  { apply ids_unique_short. simpl. lia. }
  split; [exact Hu |].
  destruct (join_campaign_then_get_campaign_character (fixed_env "CC1" "t1")
              join_request db_created db_joined
              (join_body (fixed_env "CC1" "t1") "K1") exam_campaign gon "K1"
              Hu eq_refl eq_refl eq_refl eq_refl eq_refl)
    as (char & Hget & Hsnap).
  exists char. split; [exact Hget | apply Hsnap].
Defined.

Lemma join_then_leave_restores_campaign_witness :
  ids_unique (campaigns db_created) /\
  membership_in_sync exam_campaign /\
  exists campaign2,
    campaigns db_left = [campaign2] /\
    get "players" campaign2 = get "players" exam_campaign /\
    get "playerIds" campaign2 = get "playerIds" exam_campaign /\
    campaign_characters db_left = campaign_characters db_created.
Proof.
  assert (Hu : ids_unique (campaigns db_created)).
  { apply ids_unique_short. simpl. lia. }
  assert (Hs : membership_in_sync exam_campaign).
  { exists [], []. repeat split. }
  split; [exact Hu |]. split; [exact Hs |].
  destruct (join_then_leave_restores_campaign (fixed_env "CC1" "t1")
              (fixed_env "-" "t2") join_request db_created db_joined
              (join_body (fixed_env "CC1" "t1") "K1") exam_campaign "K1"
              Hu eq_refl eq_refl Hs eq_refl)
    as (db2 & before & after & campaign2 & Hrun & Hsplit & Hcs & Hkeep & _ & Hcc & _).
  assert (E : db2 = db_left).
  { change db_left
      with (fst (leave_campaign (fixed_env "-" "t2") "K1"
                   (JoinCampaignRequest.odiserId join_request) db_joined)).
    now rewrite Hrun. }
  subst db2.
  destruct before as [| x before].
  - simpl in Hsplit. injection Hsplit as <-.
    exists campaign2. split; [exact Hcs |].
    split; [apply Hkeep; discriminate |].
    split; [apply Hkeep; discriminate | exact Hcc].
  - destruct before; discriminate.
Defined.

Lemma clear_rolls_scope_witness :
  rolls (fst (clear_rolls None db_rolls)) = [] /\
  rolls (fst (clear_rolls (Some "C1") db_rolls))
    = [[("id", JStr "R2"); ("characterId", JStr "C2"); ("finalResult", JInt 4)]].
Proof.
  split.
  - destruct (clear_rolls_scope None db_rolls) as (rolls' & -> & H & _).
    cbn [fst rolls with_coll]. apply H. now left.
  - destruct (clear_rolls_scope (Some "C1") db_rolls) as (rolls' & -> & _ & H).
    cbn [fst rolls with_coll].
    destruct (H "C1" eq_refl) as [-> _]; [discriminate | reflexivity].
Defined.

Lemma create_campaign_roll_effects_witness :
  (exists roll,
     create_campaign_roll (fixed_env "R1" "t4") "K1"
       [ ("odiserId", JStr "U1"); ("odiserName", JStr "Gon");
         ("characterName", JStr "Gon"); ("campaignId", JStr "K9");
         ("rollData", JObj [("total", JInt 17)]) ] db_joined
       = (with_coll CampaignRolls [roll] db_joined, Return (JObj roll)) /\
     get "campaignId" roll = Some (JStr "K1") /\
     get "rollData" roll = Some (JObj [("total", JInt 17)])) /\
  create_campaign_roll (fixed_env "R1" "t4") "K1"
    [("rollData", JObj [("total", JInt too_big)])] db_joined
    = (db_joined, Raise OverflowError) /\
  exists field,
    create_campaign_roll (fixed_env "R1" "t4") "K1"
      [("odiserId", JInt 5); ("rollData", JObj [("total", JInt 17)])] db_joined
      = (db_joined, Raise (ValidationError field)).
Proof.
  split; [| split].
  - destruct (create_campaign_roll_effects (fixed_env "R1" "t4") "K1"
                [ ("odiserId", JStr "U1"); ("odiserName", JStr "Gon");
                  ("characterName", JStr "Gon"); ("campaignId", JStr "K9");
                  ("rollData", JObj [("total", JInt 17)]) ] db_joined) as [H _].
    destruct (H "U1" "Gon" "Gon" [("total", JInt 17)] eq_refl eq_refl eq_refl
                eq_refl) as [Hok _].
    eexists. split; [exact (Hok eq_refl) |]. split; reflexivity.
  - destruct (create_campaign_roll_effects (fixed_env "R1" "t4") "K1"
                [("rollData", JObj [("total", JInt too_big)])] db_joined)
      as [H _].
    destruct (H EmptyString EmptyString EmptyString [("total", JInt too_big)]
                eq_refl eq_refl eq_refl eq_refl) as [_ Hbad].
    exact (proj2 (Hbad OverflowError eq_refl)).
  - destruct (create_campaign_roll_effects (fixed_env "R1" "t4") "K1"
                [("odiserId", JInt 5); ("rollData", JObj [("total", JInt 17)])]
                db_joined) as [_ H].
    destruct H as (field & _ & Hrun).
    + left. exists "odiserId". split; [simpl; tauto |]. discriminate.
    + exists field. exact Hrun.
Defined.

Lemma delete_character_effects_witness :
  delete_character "C9" db_joined
    = (db_joined, Raise (HTTPException 404 "Character not found")) /\
  campaign_characters (fst (delete_character "C1" db_joined))
    = campaign_characters db_joined /\
  characters (fst (delete_character "C1" db_joined)) = [].
Proof.
  destruct (delete_character_effects "C9" db_joined) as (H404 & _ & _).
  destruct (delete_character_effects "C1" db_joined) as (_ & Hdel & Hkeep).
  split; [apply H404; reflexivity |]. split; [exact Hkeep |].
  destruct (Hdel gon eq_refl) as (before & after & Hsplit & ->).
  cbn [fst characters with_coll].
  destruct before as [| x before].
  - simpl in Hsplit. now injection Hsplit as <-.
  - destruct before; discriminate.
Defined.

Lemma update_character_merges_witness :
  exists db' body character',
    update_character (fixed_env "-" "t2") "C1"
      [("name", JStr "Gon Freecss"); ("updatedAt", JStr "1999")] db_joined
      = (db', Return body) /\
    In character' (characters db') /\
    get "name" character' = Some (JStr "Gon Freecss") /\
    get "updatedAt" character' = Some (JStr "t2") /\
    get "userId" character' = Some (JStr "U1").
Proof.
  eexists _, _.
  destruct (update_character_merges (fixed_env "-" "t2") "C1"
              [("name", JStr "Gon Freecss"); ("updatedAt", JStr "1999")]
              db_joined _ _ eq_refl)
    as (before & character & character' & after & Hc & _ & Hdb & Hat & Hset
        & Hkeep & _).
  exists character'. split; [reflexivity |].
  split; [rewrite Hdb; cbn [characters with_coll]; apply in_elt |].
  split; [apply Hset; [now left | discriminate | reflexivity] |].
  split; [exact Hat |].
  injection Hc as <-.
  rewrite (Hkeep "userId"); [reflexivity | discriminate |].
  intros key v [E | [E | []]]; injection E as <- _; discriminate.
Defined.

Lemma update_campaign_merges_witness :
  exists db' body campaign',
    update_campaign (fixed_env "-" "t2") "K1" [("name", JStr "Greed Island")]
      db_joined = (db', Return body) /\
    In campaign' (campaigns db') /\
    get "name" campaign' = Some (JStr "Greed Island") /\
    get "playerIds" campaign' = Some (JArr [JStr "U1"]) /\
    body = JObj campaign'.
Proof.
  eexists _, _.
  destruct (update_campaign_merges (fixed_env "-" "t2") "K1"
              [("name", JStr "Greed Island")] db_joined _ _ eq_refl)
    as (before & campaign & campaign' & after & Hc & _ & Hdb & _ & Hset & Hkeep
        & Hbody).
  exists campaign'. split; [reflexivity |].
  split; [rewrite Hdb; cbn [campaigns with_coll]; apply in_elt |].
  split; [apply Hset; [now left | discriminate | reflexivity] |].
  injection Hc as <-.
  split.
  - rewrite (Hkeep "playerIds"); [reflexivity | discriminate |].
    intros key v [E | []]; injection E as <- _; discriminate.
  - apply Hbody. intros key v [E | []]; injection E as <- _; discriminate.
Defined.

Lemma http_errors_write_nothing_witness :
  fst (join_campaign (fixed_env "CC2" "t2") join_request db_joined) = db_joined /\
  fst (delete_campaign "K1" "U1" db_joined) = db_joined.
Proof.
  destruct http_errors_write_nothing as (Hjoin & _ & Hdelete & _).
  split.
  - apply (Hjoin (fixed_env "CC2" "t2") join_request db_joined _ 400%Z
             "You are already in this campaign").
    reflexivity.
  - apply (Hdelete "K1" "U1" db_joined _ 403%Z
             "Only the master can delete the campaign").
    reflexivity.
Defined.

Lemma join_campaign_raise_window_witness :
  join_campaign (fixed_env "CC2" "t2") join_request db_joined
    = (db_joined, Raise (HTTPException 400 "You are already in this campaign")) /\
  campaigns (fst (join_campaign (fixed_env "CC2" "t2") join_request db_joined))
    = campaigns db_joined.
Proof.
  split; [reflexivity |].
  apply (join_campaign_raise_window (fixed_env "CC2" "t2") join_request db_joined
           _ (HTTPException 400 "You are already in this campaign")).
  reflexivity.
Defined.

Lemma one_membership_per_user_witness :
  reachable_fresh db_joined /\
  ids_unique (campaigns db_joined) /\
  Forall no_double_member (campaigns db_joined).
Proof.
  assert (Hr : reachable_fresh db_joined).
  { apply reachable_fresh_step with (db := db_created).
    - apply reachable_fresh_step with (db := db_start).
      + apply reachable_fresh_start. reflexivity.
      + apply fresh_create_campaign. reflexivity.
    - apply fresh_join_campaign. }
  split; [exact Hr |]. exact (one_membership_per_user db_joined Hr).
Defined.
